(* ===== verification/_CoqProject ===== *)
-Q . S2P
Prelude.v
PySlice.v
FoldSplit.v
Partition.v
FileList.v
Pipeline.v
Metric.v
Config.v
Cli.v
Train.v
Search.v
LogFormat.v
Checkpoint.v
Transforms.v
Driver.v
