(* ===== verification/Prelude.v ===== *)
(** * A verification development of the DiNTS training drivers

    The repository holds two near-duplicate drivers of the MONAI DiNTS
    neural-architecture-search tutorial:
    - [src/DiNTS/Tutorial/search_dints.py]: the architecture search.  It
      alternates, for each batch of the weight half of the training data, a
      weight-update step and an architecture-update step on a batch drawn
      from the architecture half (restarting that iterator when exhausted),
      and every [num_epochs_per_validation] epochs validates, tracks the best
      metric and saves the decoded architecture code.
    - [src/DiNTS/Tutorial/train_dints.py]: the training of a fixed
      architecture read from a search checkpoint; it validates after every
      pass and saves the weights when the metric improves.

    Both run as one process per GPU: each rank reads the same dataset list,
    computes the same cross-validation fold split, takes its own shard of
    the data ([monai.data.partition_dataset]), and the ranks meet at
    [dist.barrier] / [dist.all_reduce] to sum the loss and metric
    accumulators.  The neural network, the optimisers, the transforms'
    numerics and the collective engine are library code; the development
    models the orchestration the scripts themselves perform and treats the
    network as an oracle (section variables giving per-batch losses and
    per-case Dice values).

    ** Files (in dependency order)
    - [Prelude] (this file): Python's exceptions as the error type
      [py_error], the result monad [result] with its notation in
      [py_scope], Python's floor and true division, the hint database
      [pyhints] with the rewrite database [pysimp] and the shared list
      lemmas.
    - [PySlice]: Python list slicing [l[a:b]] and strided slicing
      [l[a:b:k]] on [Z] indices (negative indices wrap, bounds clamp), the
      primitives through which the scripts and MONAI index their lists.
    - [FoldSplit]: the cross-validation split of lines 186-188
      (train_dints.py) / 192-194 (search_dints.py): [fold_split].
    - [Partition]: the interface [Partitioner] that the drivers rely on to
      shard data across ranks, and its implementation [partition_dataset],
      a model of MONAI's function (not in this repository: modelled from
      the library's behaviour and marked so in the manifest).
    - [Metric]: the validation metric accumulation (lines 495-499 /
      590-594), its cross-rank reduction (505 / 600) and the average with
      its division (508-513 / 603-608), against an abstract specification
      (per-class mean over the cases where that class is defined).
    - [Config]: the constants both [main] functions set (train_dints.py
      156-173, search_dints.py 162-179) as a record [config], and
      [driver_config] with their values.
    - [Cli]: the command line: [driver_parser], the [add_argument] calls
      of train_dints.py 95-148 (search_dints.py 96-149); [parse_args], a
      model of argparse's [parse_args] for store actions and [--help]
      (exact options, [--opt=value], abbreviations, negative numbers);
      [py_int] and [py_str], Python's [int(s)] and [str(z)] on ASCII; and
      [main_config], the configuration [main] builds from
      [int(args.fold)] and [int(args.num_folds)] (149-173).
    - [Train]: rank 0 of the training loop (train_dints.py 349-543) as
      explicit state passing: [state] holds [best_metric],
      [best_metric_epoch], [idx_iter] and the files written
      (accuracy_history.csv rows, progress.yaml, the epochs at which
      best_metric_model.pth was saved); [train_pass] is the batch loop,
      [epoch_loss] the all-reduced mean loss, [train_report] the best-metric
      update and logging, [train_epoch] one iteration of
      [for epoch in range(num_epochs // num_epochs_per_validation)],
      [train_loop] and [train_run] the loop.  Each epoch's input (per-rank
      batch losses and per-case Dice rows) is the network's oracle.
    - [Search]: rank 0 of the search loop (search_dints.py 366-650):
      [weight_step] and [search_pass] for the batches of the weight half,
      each followed by [arch_next], the iterator over the architecture
      half that restarts on [StopIteration]; [search_report] for the
      best metric, the [search_code_<idx_iter>.pth] checkpoint (a [gmap]
      from file name to the saved dictionary), progress.yaml and the csv
      row; [search_epoch], [search_loop] and [search_run] for
      [for epoch in range(num_epochs)] with validation when
      [(epoch + 1) % num_epochs_per_validation == 0].
    - [LogFormat]: the text of accuracy_history.csv (train_dints.py
      363-364 and 536-538, search_dints.py 381-382 and 647-648):
      [format_line] writes the header or a row with Python's [{:d}] and
      [{:.kf}] ([format_fixed], rounding half to even), [history_text] the
      file of a run's [history_file]; [read_row] is a reader of the file
      (split on tabs, [int()] and a decimal reader [read_fixed]).
    - [FileList]: the loops building the file dicts from the dataset JSON
      (train_dints.py 186-214, search_dints.py 192-228): [json_list],
      [posix_join] ([os.path.join]), [build_files] with [os.path.exists]
      as a predicate, and [file_dict].
    - [Pipeline]: [train_data] composes [json_list], [fold_split],
      [build_files] and the rank's shard (train_dints.py 183-216);
      [search_halves] and [search_data] split the training files into the
      weight and architecture halves (search_dints.py 209-228), all
      against the [Partitioner] interface.
    - [Checkpoint]: the dictionary [save_dict] that search_dints.py
      616-629 saves (decoded architecture arrays as opaque values, the
      scalars of [Search.search_code]) and [train_load], the three lookups
      of train_dints.py 284-287 (search_dints.py 303-306).
    - [Transforms]: the two [Compose] pipelines (train_dints.py 223-276,
      search_dints.py 236-289) as lists of dictionary transforms with
      their keys and per-key arguments, run on the key set of a sample;
      MONAI's [ensure_tuple_rep], [key_iterator], [CopyItemsd], the crop
      and [apply_transform] are modelled from the library's behaviour.
    - [Driver]: the name binding of the two [main] functions up to their
      loops (train_dints.py 95-306, search_dints.py 96-323): statements
      with the names they read and bind, executed against Python's
      local/global/builtin resolution with an oracle for the library
      calls, and a static analysis proved sound for every oracle.

    ** Theorems
    - [FoldSplit]: for a fold in range the training and validation lists
      together are a permutation of the dataset, the validation list has
      [len // num_folds] items, the validation lists of all folds tile the
      first [num_folds * split] items (the remainder is never validated), a
      zero fold count raises, and a negative fold duplicates data.
    - [Partition]: the shards of [partition_dataset] have the promised
      sizes, and without padding they are a permutation of the input; with
      padding every item lands on some rank.
    - [Metric]: the accumulated vector as closed-form sums, the reduction
      across ranks equals a sequential accumulation over the concatenated
      validation lists, and the refinement of the per-class score against
      its specification when class 0's NaN pattern agrees with the class's
      (and a counterexample when it does not: the code tests [value[0,0]]
      for every class).
    - [Train]: over a whole run, the rows appended to accuracy_history.csv
      are labelled [(i + 1) * num_epochs_per_validation], and the best
      metric, its epoch, progress.yaml and the last weights saved all name
      the first row reaching the best (an invariant proved by induction
      over the epochs); with the driver's constants the run makes 50
      passes; the epoch loss is the mean over all ranks' batches, or
      ZeroDivisionError without batches; an epoch on well-formed input
      succeeds and logs the average of one sequential validation over all
      ranks' cases.
    - [Search]: the rows are labelled 400 ... 20000 with the driver's
      constants (a unit error); the best metric, [best_metric_iterations],
      progress.yaml and the last checkpoint satisfy an invariant that
      makes progress.yaml name the last validation's iteration, not the
      best one (with a concrete run); the architecture batches are drawn in
      order pass after pass ([j mod n_a] of pass [j / n_a]); an empty
      architecture loader raises StopIteration; and with non-negative Dice
      values [best_metric_iterations] is always bound when read, so the
      search never raises UnboundLocalError (proved with [raises_only],
      the exceptions a computation may raise, composed through [bind]).
      The checkpoint named after [best_metric_iterations] survives the run
      and points to itself, and on well-formed oracle input (a batch on
      some rank, Dice rows of the right width, non-negative) every run
      returns a final state, which after at least one validation
      interval has the best checkpoint on disk.
    - [Cli]: [int(str(z)) = z]; a command line of declared options
      parses to the namespace of their last values; without
      [--local_rank] (declared [required=int], hence required) parsing
      exits with status 2; and [main] builds [driver_config] of the fold
      and fold count given on the command line.
    - [LogFormat]: a logged row reads back as the epoch and iteration
      exactly and the decimals as the values rounded at five (time: one)
      places, hence within 5e-6 (time: 0.05) of the logged values; the
      header line is not a row.
    - [FileList]: the loop returns, in order, the dicts of the entries
      whose two files exist, and raises only the KeyError of an entry
      lacking a key.
    - [Pipeline]: no training file of a rank is a validation file of any
      rank; the search's weight and architecture halves are disjoint and
      both disjoint from validation, of the sizes the slicing promises, and
      too few training files make the partition raise.
    - [Checkpoint]: the file of the best iteration holds the best score,
      and training reads back exactly the arrays the search decoded there.
    - [Transforms]: every sample the file loop builds passes both
      pipelines (the training one yields [num_patches_per_image] samples
      with a [label4crop] key), and a sample without image or label stops
      at [LoadImaged] with a KeyError.
    - [Driver]: for every outcome of the library calls, train_dints.py's
      [main] stops before its training loop with NameError ([ndimage] is
      never imported, [EnsureType] not imported in train_dints.py) unless
      an earlier library call fails, and likewise search_dints.py's.

    ** Modelling choices
    - Python integers are [Z] (unbounded, like Python's); [//] is [Z.div]
      (both round towards minus infinity), guarded by ZeroDivisionError.
    - Floats are idealised as [Q]; arithmetic rounding is not modelled,
      NaN is [None] in an [option Q].  The [{:.kf}] formatting of the log
      rounds the exact rational half to even, as Python does for the
      float's exact binary value.  Equalities of rationals are stated with [Qeq].
    - Random shuffles are a parameter: a function producing a permutation,
      the same on every rank (MONAI seeds it with a fixed seed).
    - Loops over data are structural recursion on the list of batches,
      epochs or cases, so every definition is total and no fuel is needed;
      theorems about runs take [run = Ok st] and the success theorems
      ([train_epoch_ok], the witnesses evaluating whole 1000-epoch runs by
      [vm_compute]) show the runs do return.
    - Only rank 0's state is modelled; the other ranks contribute their
      accumulators to [all_reduce].  In the search every rank's
      architecture loader has the same length [n_a], since the halves are
      partitioned with [even_divisible=True].

    ** Plan (later files)
    The console prints, progress.yaml as YAML text, and the per-rank view
    of the search's loss reduction.

    ** Not modelled
    The DiNTS network (not in the sources), autodiff, the optimisers, mixed
    precision scaling, sliding-window inference, image I/O, TensorBoard's
    event files and the numerics of the transforms: library code the
    scripts only call.  The driver
    loops after the NameErrors [Driver] proves are modelled as if the
    missing imports were present. *)

From stdpp Require Import base list sets strings.
From Stdlib Require Import ZArith Lia.

(** Python's exceptions, as far as the drivers can raise them. *)
Inductive py_error : Type :=
| ZeroDivisionError
| IndexError
| KeyError (key : string)
| NameError (name : string)
| UnboundLocalError (name : string)
| RuntimeError (msg : string)
| ValueError (msg : string)
| TypeError (msg : string)
| SystemExit (code : Z)
| StopIteration.

(** A computation that returns a value or raises. *)
Inductive result (A : Type) : Type :=
| Ok (a : A)
| Err (e : py_error).
Arguments Ok {A} a.
Arguments Err {A} e.

Definition bind {A B} (r : result A) (k : A -> result B) : result B :=
  match r with
  | Ok a => k a
  | Err e => Err e
  end.

Definition fmap_result {A B} (f : A -> B) (r : result A) : result B :=
  bind r (fun a => Ok (f a)).

Declare Scope py_scope.
Delimit Scope py_scope with py.
Notation "'let*' x := c 'in' k" := (bind c (fun x => k))
  (at level 10, x name, c at level 100, k at level 200) : py_scope.
Notation "'raise' e" := (Err e) (at level 10) : py_scope.

(** Running a fallible function on every element, stopping at the first
    error (each rank's loop, or the loop over a list). *)
Fixpoint map_result {A B} (f : A -> result B) (l : list A) : result (list B) :=
  match l with
  | [] => Ok []
  | x :: l => bind (f x) (fun y => bind (map_result f l) (fun ys => Ok (y :: ys)))
  end.

(** Python's [a // b] on integers. *)
Definition py_floordiv (a b : Z) : result Z :=
  if Z.eqb b 0 then Err ZeroDivisionError else Ok (Z.div a b).

(** Python's [a % b] on integers: the sign of the divisor, as [Z.modulo]. *)
Definition py_mod (a b : Z) : result Z :=
  if Z.eqb b 0 then Err ZeroDivisionError else Ok (Z.modulo a b).

Create HintDb pyhints.
Create Rewrite HintDb pysimp.

Lemma bind_Ok {A B} (a : A) (k : A -> result B) : bind (Ok a) k = k a.
Proof. reflexivity. Qed.

Lemma bind_Err {A B} (e : py_error) (k : A -> result B) : bind (Err e) k = Err e.
Proof. reflexivity. Qed.

Lemma bind_eq_Ok {A B} (r : result A) (k : A -> result B) (b : B) :
  bind r k = Ok b <-> exists a, r = Ok a /\ k a = Ok b.
Proof. destruct r as [a|e]; simpl; [naive_solver | split; [discriminate | naive_solver]]. Qed.

Lemma py_floordiv_ok a b : b <> 0%Z -> py_floordiv a b = Ok (Z.div a b).
Proof. intros Hb. unfold py_floordiv. by rewrite (proj2 (Z.eqb_neq b 0) Hb). Qed.

Lemma py_mod_ok a b : b <> 0%Z -> py_mod a b = Ok (Z.modulo a b).
Proof. intros Hb. unfold py_mod. by rewrite (proj2 (Z.eqb_neq b 0) Hb). Qed.

Lemma map_result_Forall2 {A B} (f : A -> result B) (l : list A) (ys : list B) :
  Forall2 (fun x y => f x = Ok y) l ys -> map_result f l = Ok ys.
Proof. induction 1 as [|x y l ys Hxy _ IH]; [done|]. simpl. by rewrite Hxy, IH. Qed.

Lemma map_result_Ok {A B} (f : A -> result B) (l : list A) (ys : list B) :
  map_result f l = Ok ys -> Forall2 (fun x y => f x = Ok y) l ys.
Proof.
  revert ys. induction l as [|x l IH]; intros ys; simpl; [intros [= <-]; constructor|].
  destruct (f x) as [y|] eqn:Ex; simpl; [|done].
  destruct (map_result f l) as [ys'|] eqn:El; simpl; [|done].
  intros [= <-]. constructor; [done | by apply IH].
Qed.

#[export] Hint Rewrite @bind_Ok @bind_Err : pysimp.
#[export] Hint Resolve py_floordiv_ok py_mod_ok : pyhints.

(** Run the result monad forward on concrete branches. *)
Ltac py_simp := repeat (autorewrite with pysimp in *; simpl in *).

(** Shared list lemmas. *)
Section ListFacts.
Context {A : Type}.

Lemma take_drop_split (l : list A) (a b : nat) :
  a <= b -> take a l ++ take (b - a) (drop a l) ++ drop b l = l.
Proof.
  intros Hab. rewrite app_assoc, take_take_drop.
  replace (a + (b - a)) with b by lia. apply take_drop.
Qed.

Lemma Permutation_middle_out (x y z : list A) :
  (x ++ z) ++ y ≡ₚ x ++ y ++ z.
Proof.
  rewrite <- app_assoc. apply Permutation_app_head, Permutation_app_comm.
Qed.

Lemma fmap_concat {B} (f : A -> B) (ls : list (list A)) :
  f <$> concat ls = concat ((fun l : list A => f <$> l) <$> ls).
Proof.
  induction ls as [|l ls IH]; [done|].
  rewrite fmap_cons. cbn [concat]. by rewrite fmap_app, IH.
Qed.

Lemma omap_cons {B} (f : A -> option B) (x : A) (l : list A) :
  omap f (x :: l) = match f x with Some y => y :: omap f l | None => omap f l end.
Proof. reflexivity. Qed.

(** Indexing a list by every position below its length. *)
Lemma Forall2_seq_lookup (l : list A) :
  Forall2 (fun i x => l !! i = Some x) (seq 0 (length l)) l.
Proof.
  apply Forall2_lookup. intros i.
  destruct (decide (i < length l)) as [Hi|Hi].
  - rewrite lookup_seq_lt by done.
    destruct (lookup_lt_is_Some_2 l i Hi) as [x Hx]. rewrite Hx. constructor. done.
  - rewrite lookup_seq_ge, lookup_ge_None_2 by lia. constructor.
Qed.

Lemma Forall2_compose {B C} (P : A -> B -> Prop) (R : B -> C -> Prop) l k m :
  Forall2 P l k -> Forall2 R k m -> Forall2 (fun x z => exists y, P x y /\ R y z) l m.
Proof.
  intros Hlk. revert m. induction Hlk as [|x y l k Hxy _ IH]; intros m Hkm;
    inversion Hkm; subst; constructor; eauto.
Qed.

Lemma Forall2_exists {B} (P : A -> B -> Prop) (l : list A) :
  (forall x, x ∈ l -> exists y, P x y) -> exists ys, Forall2 P l ys.
Proof.
  induction l as [|x l IH]; intros Hl; [by exists []|].
  destruct (Hl x) as [y Hy]; [by left|].
  destruct IH as [ys Hys]; [intros x' Hx'; apply Hl; by right|].
  by exists (y :: ys); constructor.
Qed.
Lemma Forall2_Forall_r_impl {B} (P : A -> B -> Prop) (Q : B -> Prop) (l : list A) (k : list B) :
  Forall2 P l k -> (forall x y, x ∈ l -> P x y -> Q y) -> Forall Q k.
Proof.
  induction 1 as [|x y l k Hxy _ IH]; intros HQ; constructor.
  - apply (HQ x y); [set_solver|done].
  - apply IH. intros x' y' Hx'. apply HQ. set_solver.
Qed.
End ListFacts.

(** Counting multiples: after epoch [e], the number [(e + 1) / n] of
    multiples of [n] in [1 .. e + 1] grows by one exactly when [n]
    divides [e + 1]. *)
Lemma succ_div_mod (n e : nat) :
  0 < n ->
  ((e + 1) mod n = 0 /\ (e + 1) / n = e / n + 1 /\ e + 1 = (e / n + 1) * n)
  \/ ((e + 1) mod n <> 0 /\ (e + 1) / n = e / n).
Proof.
  intros Hn. pose proof (Nat.div_mod_eq e n) as He. pose proof (Nat.mod_upper_bound e n ltac:(lia)).
  destruct (decide (e mod n + 1 < n)).
  - right. rewrite <- (Nat.mod_unique (e + 1) n (e / n) (e mod n + 1)) by lia.
    rewrite <- (Nat.div_unique (e + 1) n (e / n) (e mod n + 1)) by lia. split; [lia|done].
  - left. rewrite <- (Nat.mod_unique (e + 1) n (e / n + 1) 0) by lia.
    rewrite <- (Nat.div_unique (e + 1) n (e / n + 1) 0) by lia. split_and!; lia.
Qed.

(** Python's [l[i]] for an index in [0, len(l)). *)
Definition getitem {A} (l : list A) (i : nat) : result A :=
  match l !! i with
  | Some x => Ok x
  | None => Err IndexError
  end.

Lemma getitem_lookup {A} (l : list A) i x : l !! i = Some x -> getitem l i = Ok x.
Proof. unfold getitem. by intros ->. Qed.

Lemma getitem_Ok {A} (l : list A) i x : getitem l i = Ok x -> x ∈ l.
Proof. unfold getitem. destruct (l !! i) eqn:E; [intros [= <-]; by eapply list_elem_of_lookup_2|done]. Qed.

#[export] Hint Resolve getitem_lookup : pyhints.

(** Which exceptions a computation can raise: every [Err e] it returns
    satisfies [P].  Built up through [bind], so a whole handler's
    exceptions follow from those of the calls it makes. *)
Definition raises_only {A} (P : py_error -> Prop) (r : result A) : Prop :=
  forall e, r = Err e -> P e.

Section RaisesOnly.
Context (P : py_error -> Prop).

Lemma raises_only_Ok {A} (a : A) : raises_only P (Ok a).
Proof. by intros e. Qed.

Lemma raises_only_bind {A B} (r : result A) (k : A -> result B) :
  raises_only P r -> (forall a, r = Ok a -> raises_only P (k a)) -> raises_only P (bind r k).
Proof. destruct r as [a|e']; simpl; [intros _ Hk; by apply Hk | intros Hr _ e [= <-]; by apply Hr]. Qed.

Lemma raises_only_raise {A} (e : py_error) : P e -> raises_only P (Err e : result A).
Proof. by intros He e' [= <-]. Qed.

Lemma raises_only_getitem {A} (l : list A) i : P IndexError -> raises_only P (getitem l i).
Proof. unfold getitem. destruct (l !! i); [intros _; apply raises_only_Ok | apply raises_only_raise]. Qed.

Lemma raises_only_py_mod a b : P ZeroDivisionError -> raises_only P (py_mod a b).
Proof. unfold py_mod. destruct (Z.eqb b 0); [apply raises_only_raise | intros _; apply raises_only_Ok]. Qed.

Lemma raises_only_map_result {A B} (f : A -> result B) (l : list A) :
  (forall x, x ∈ l -> raises_only P (f x)) -> raises_only P (map_result f l).
Proof.
  induction l as [|x l IH]; intros Hf; simpl; [apply raises_only_Ok|].
  apply raises_only_bind; [apply Hf; set_solver|]. intros b _.
  apply raises_only_bind; [apply IH; intros y Hy; apply Hf; set_solver|]. intros bs _.
  apply raises_only_Ok.
Qed.
End RaisesOnly.

#[export] Hint Resolve raises_only_Ok raises_only_getitem raises_only_py_mod : pyhints.

(** Floats, idealised as rationals. *)
From Stdlib Require Import QArith.

(** Python's [a / b] on floats: [ZeroDivisionError] on a zero divisor. *)
Definition py_truediv (a b : Q) : result Q :=
  if Qeq_bool b 0 then Err ZeroDivisionError else Ok (a / b).

Lemma py_truediv_ok a b : ~ (b == 0) -> py_truediv a b = Ok (a / b).
Proof.
  intros Hb. unfold py_truediv. destruct (Qeq_bool b 0) eqn:E; [|done].
  apply Qeq_bool_eq in E. contradiction.
Qed.

Lemma py_truediv_zero a b : b == 0 -> py_truediv a b = Err ZeroDivisionError.
Proof. intros Hb. unfold py_truediv. by rewrite (Qeq_eq_bool _ _ Hb). Qed.

Lemma raises_only_py_truediv (P : py_error -> Prop) a b :
  P ZeroDivisionError -> raises_only P (py_truediv a b).
Proof. unfold py_truediv. destruct (Qeq_bool b 0); [apply raises_only_raise | intros _; apply raises_only_Ok]. Qed.

#[export] Hint Resolve raises_only_py_truediv : pyhints.

(** A quotient of non-negative rationals is non-negative. *)
Lemma py_truediv_nonneg a b r : 0 <= a -> 0 <= b -> py_truediv a b = Ok r -> 0 <= r.
Proof.
  unfold py_truediv. destruct (Qeq_bool b 0) eqn:E; [done|]. intros Ha Hb [= <-].
  apply Qle_shift_div_l; [|by rewrite Qmult_0_l].
  apply Qnot_le_lt. intros Hle. assert (b == 0) as Hz by (by apply Qle_antisym).
  apply Qeq_bool_iff in Hz. congruence.
Qed.

(** Sums of rationals are a commutative monoid up to syntactic equality,
    so sums taken in different orders are equal, not only [Qeq]. *)
Section QMonoid.
Implicit Types x y z : Q.

Lemma Qplus_comm_L x y : x + y = y + x.
Proof. destruct x as [a a'], y as [b b']. unfold Qplus. simpl. f_equal; [ring|apply Pos.mul_comm]. Qed.

Lemma Qplus_assoc_L x y z : x + (y + z) = x + y + z.
Proof.
  destruct x as [a a'], y as [b b'], z as [c c']. unfold Qplus. simpl.
  f_equal; [rewrite !Pos2Z.inj_mul; ring|apply Pos.mul_assoc].
Qed.

Lemma Qplus_0_l_L x : 0 + x = x.
Proof. destruct x as [a a']. unfold Qplus. simpl. f_equal. ring. Qed.

Lemma Qplus_0_r_L x : x + 0 = x.
Proof. rewrite Qplus_comm_L. apply Qplus_0_l_L. Qed.
End QMonoid.

#[export] Hint Rewrite Qplus_0_l_L Qplus_0_r_L : pysimp.

(** ** Strings *)

Local Open Scope nat_scope.

(** File names built as [prefix + str(n) + suffix] are distinct for
    distinct [n]: appending on the right is injective too. *)
Lemma string_length_app (s t : string) :
  String.length (s +:+ t) = String.length s + String.length t.
Proof. induction s as [|a s IH]; simpl; [done|by rewrite IH]. Qed.

Lemma string_app_inj_r (s1 s2 t : string) : s1 +:+ t = s2 +:+ t -> s1 = s2.
Proof.
  revert s2. induction s1 as [|a s1 IH]; intros [|b s2] H; try done;
    try (apply (f_equal String.length) in H; rewrite !string_length_app in H;
         cbn [String.length] in H; lia).
  injection H as -> H. by rewrite (IH s2 H).
Qed.
