(* ===== verification/PySlice.v ===== *)
(** Python list slicing, as CPython computes it ([PySlice_AdjustIndices]
    followed by the copy loop of [list_subscript]): [l[a:b]] and
    [l[a:b:k]] for a positive step [k], on [Z] indices where a negative
    index counts from the end and out-of-range bounds are clamped.  The
    drivers slice the dataset list with it (fold split) and MONAI's
    [partition_dataset] slices its index list with it. *)

From stdpp Require Import base list sets.
From Stdlib Require Import ZArith Lia.
From S2P Require Import Prelude.

Module PySlice.

(** One bound of a slice: a negative index wraps once, then clamp to
    [0, n]. *)
Definition adjust_index (n i : Z) : Z :=
  if (i <? 0)%Z then Z.max 0 (i + n) else Z.min i n.

(** [l[a:b]]: omitted bounds are [0] and [len(l)]. *)
Definition slice_bounds (n : Z) (a b : option Z) : Z * Z :=
  (match a with Some i => adjust_index n i | None => 0%Z end,
   match b with Some i => adjust_index n i | None => n end).

(** CPython's [slicelength] for a positive step. *)
Definition slice_length (s e k : Z) : Z :=
  if (s <? e)%Z then ((e - s - 1) / k + 1)%Z else 0%Z.

(** The positions [s, s+k, s+2k, ...] the copy loop visits. *)
Definition slice_indices (n : Z) (a b : option Z) (k : positive) : list nat :=
  let '(s, e) := slice_bounds n a b in
  (fun j => Z.to_nat s + j * Pos.to_nat k)
    <$> seq 0 (Z.to_nat (slice_length s e (Zpos k))).

(** [l[a:b:k]]. *)
Definition getitem_slice {A} (l : list A) (a b : option Z) (k : positive) : list A :=
  omap (fun p => l !! p) (slice_indices (Z.of_nat (length l)) a b k).

(** [l[a:b]] (step 1), as a contiguous copy. *)
Definition py_slice {A} (l : list A) (a b : option Z) : list A :=
  let '(s, e) := slice_bounds (Z.of_nat (length l)) a b in
  take (Z.to_nat (e - s)) (drop (Z.to_nat s) l).

(** ** Lemmas *)

Section Slicing.
Context {A : Type}.
Implicit Types (l : list A).

Lemma adjust_index_nonneg n i :
  (0 <= i)%Z -> adjust_index n i = Z.min i n.
Proof. intros Hi. unfold adjust_index. destruct (Z.ltb_spec i 0); lia. Qed.

Lemma adjust_index_bounds n i :
  (0 <= n)%Z -> (0 <= adjust_index n i <= n)%Z.
Proof. intros Hn. unfold adjust_index. destruct (Z.ltb_spec i 0); lia. Qed.

(** A slice with non-negative bounds is [take]/[drop] on naturals. *)
Lemma py_slice_nonneg l a b :
  (0 <= a)%Z -> (0 <= b)%Z ->
  py_slice l (Some a) (Some b) = take (Z.to_nat b - Z.to_nat a) (drop (Z.to_nat a) l).
Proof.
  intros Ha Hb. unfold py_slice, slice_bounds.
  rewrite !adjust_index_nonneg by lia.
  destruct (decide (length l <= Z.to_nat a)) as [Hge|Hlt].
  - rewrite !drop_ge by lia. by rewrite !take_nil.
  - replace (Z.to_nat (Z.min a (Z.of_nat (length l)))) with (Z.to_nat a) by lia.
    destruct (decide (length l <= Z.to_nat b)).
    + rewrite !take_ge; [done | rewrite length_drop; lia..].
    + f_equal. lia.
Qed.

Lemma py_slice_prefix l b :
  (0 <= b)%Z -> py_slice l None (Some b) = take (Z.to_nat b) l.
Proof.
  intros Hb. unfold py_slice, slice_bounds. rewrite adjust_index_nonneg by lia.
  rewrite drop_0. destruct (decide (length l <= Z.to_nat b)).
  - rewrite !take_ge; [done | lia..].
  - f_equal. lia.
Qed.

Lemma py_slice_suffix l a :
  (0 <= a)%Z -> py_slice l (Some a) None = drop (Z.to_nat a) l.
Proof.
  intros Ha. unfold py_slice, slice_bounds. rewrite adjust_index_nonneg by lia.
  destruct (decide (length l <= Z.to_nat a)).
  - rewrite !drop_ge by lia. by rewrite take_nil.
  - rewrite take_ge; [f_equal; lia | rewrite length_drop; lia].
Qed.

Lemma py_slice_all l : py_slice l None None = l.
Proof. unfold py_slice, slice_bounds. rewrite drop_0, take_ge; [done | lia]. Qed.

(** Every position the strided copy loop visits is in range, so the copy
    never skips an element. *)
Lemma slice_indices_in_range (n : nat) a b k p :
  p ∈ slice_indices (Z.of_nat n) a b k -> p < n.
Proof.
  unfold slice_indices, slice_bounds, slice_length.
  set (s := match a with Some i => _ | None => _ end).
  set (e := match b with Some i => _ | None => _ end).
  assert (0 <= s <= Z.of_nat n)%Z
    by (subst s; destruct a; [apply adjust_index_bounds|]; lia).
  assert (0 <= e <= Z.of_nat n)%Z
    by (subst e; destruct b; [apply adjust_index_bounds|]; lia).
  intros (j & -> & Hj%elem_of_seq)%list_elem_of_fmap.
  destruct (Z.ltb_spec s e); [|lia].
  assert (Hk : (0 < Zpos k)%Z) by lia.
  pose proof (Z.div_pos (e - s - 1) (Zpos k) ltac:(lia) Hk).
  pose proof (Z.mul_div_le (e - s - 1) (Zpos k) Hk).
  assert (Z.of_nat j * Zpos k <= Zpos k * ((e - s - 1) / Zpos k))%Z by nia.
  lia.
Qed.

(** Reading the positions [|pre|, ..., |pre ++ l| - 1] of [pre ++ l]
    yields [l]. *)
Lemma omap_lookup_seq_app (pre l : list A) :
  omap (fun p => (pre ++ l) !! p) (seq (length pre) (length l)) = l.
Proof.
  revert pre. induction l as [|x l IH]; intros pre; [done|].
  simpl. rewrite lookup_app_r, Nat.sub_diag by lia. simpl. f_equal.
  specialize (IH (pre ++ [x])). rewrite <- app_assoc, length_app in IH.
  simpl in IH. by rewrite Nat.add_1_r in IH.
Qed.

Lemma omap_lookup_seq l : omap (fun p => l !! p) (seq 0 (length l)) = l.
Proof. apply (omap_lookup_seq_app []). Qed.

(** Reading the positions of any permutation of all positions yields a
    permutation of the list. *)
Lemma omap_lookup_perm l (ps : list nat) :
  ps ≡ₚ seq 0 (length l) -> omap (fun p => l !! p) ps ≡ₚ l.
Proof. intros Hp. rewrite Hp. by rewrite omap_lookup_seq. Qed.

(** Reading positions that are all in range drops nothing. *)
Lemma length_omap_lookup l (ps : list nat) :
  (forall p, p ∈ ps -> p < length l) -> length (omap (fun p => l !! p) ps) = length ps.
Proof.
  induction ps as [|p ps IH]; intros Hin; [done|]. simpl.
  destruct (lookup_lt_is_Some_2 l p) as [x Hx]; [apply Hin; set_solver|].
  rewrite Hx. simpl. f_equal. apply IH. intros q Hq. apply Hin. set_solver.
Qed.
(** The strided slice [l[i:total:k]] with [i <= total] visits
    [i, i+k, ...] below [total]. *)
Lemma slice_indices_stride (total i : nat) (k : positive) :
  i <= total ->
  slice_indices (Z.of_nat total) (Some (Z.of_nat i)) (Some (Z.of_nat total)) k
  = (fun j => i + j * Pos.to_nat k)
      <$> seq 0 (if decide (i < total) then (total - i - 1) / Pos.to_nat k + 1 else 0).
Proof.
  intros Hi. unfold slice_indices, slice_bounds, slice_length.
  rewrite !adjust_index_nonneg by lia.
  rewrite Z.min_l, Z.min_r, Nat2Z.id by lia. f_equal. f_equal.
  destruct (decide (i < total)) as [Hlt|Hge].
  - rewrite (proj2 (Z.ltb_lt _ _)) by lia.
    replace (Z.of_nat total - Z.of_nat i - 1)%Z with (Z.of_nat (total - i - 1)) by lia.
    rewrite <- positive_nat_Z, <- Nat2Z.inj_div. lia.
  - rewrite (proj2 (Z.ltb_ge _ _)) by lia. done.
Qed.

(** Membership in a stride: the positions below [total] congruent to
    [i] modulo [k]. *)
Lemma elem_of_slice_indices_stride (total i : nat) (k : positive) p :
  i < Pos.to_nat k -> i <= total ->
  p ∈ slice_indices (Z.of_nat total) (Some (Z.of_nat i)) (Some (Z.of_nat total)) k
  <-> p < total /\ p mod Pos.to_nat k = i.
Proof.
  intros Hik Hi. rewrite slice_indices_stride by done.
  set (W := Pos.to_nat k). assert (HW : W <> 0) by lia.
  rewrite list_elem_of_fmap. split.
  - intros (j & -> & Hj%elem_of_seq).
    destruct (decide (i < total)); [|lia].
    pose proof (Nat.Div0.mul_div_le (total - i - 1) W).
    split; [nia|]. rewrite Nat.Div0.mod_add, Nat.mod_small; lia.
  - intros [Hp Hmod]. exists (p / W).
    pose proof (Nat.div_mod p W HW) as Hdm.
    split; [lia|]. apply elem_of_seq.
    destruct (decide (i < total)); [|lia].
    assert (p / W <= (total - i - 1) / W); [|lia].
    apply Nat.div_le_lower_bound; [done|]. nia.
Qed.
End Slicing.

End PySlice.
