(* ===== verification/FoldSplit.v ===== *)
(** The N-fold cross-validation split of both drivers
    (train_dints.py 186-188, search_dints.py 192-194, the same three lines):
    [split = len(data) // num_folds], the validation list is the
    [fold]-th block of [split] items and the training list is everything
    around it.  [fold] and [num_folds] are Python integers parsed from the
    command line, so any sign is possible. *)

From stdpp Require Import base list sets.
From Stdlib Require Import ZArith Lia.
From S2P Require Import Prelude PySlice.
Import PySlice.

Local Open Scope py_scope.

Module FoldSplit.

(** [(list_train, list_valid)] of lines 186-188. *)
Definition fold_split {A} (data : list A) (fold num_folds : Z) : result (list A * list A) :=
  let* split := py_floordiv (Z.of_nat (length data)) num_folds in
  let list_train := py_slice data None (Some (split * fold)%Z)
                    ++ py_slice data (Some (split * (fold + 1))%Z) None in
  let list_valid := py_slice data (Some (split * fold)%Z) (Some (split * (fold + 1))%Z) in
  Ok (list_train, list_valid).

Section Props.
Context {A : Type}.
Implicit Types (data : list A).

(** The block bounds as naturals, for a non-negative fold. *)
Lemma fold_split_nonneg data fold num_folds :
  (0 < num_folds)%Z -> (0 <= fold)%Z ->
  let split := Z.to_nat (Z.of_nat (length data) / num_folds) in
  let a := split * Z.to_nat fold in
  fold_split data fold num_folds
  = Ok (take a data ++ drop (a + split) data, take split (drop a data)).
Proof.
  intros HN Hf split a. unfold fold_split.
  rewrite py_floordiv_ok by lia. simpl.
  assert (0 <= Z.of_nat (length data) / num_folds)%Z by (apply Z.div_pos; lia).
  rewrite py_slice_prefix, py_slice_suffix, py_slice_nonneg by nia.
  subst a split. repeat f_equal; nia.
Qed.

(** C7. For a non-negative fold the split succeeds, and training and
    validation lists together are a permutation of the dataset: no item
    is lost, none duplicated. *)
Theorem fold_split_permutation data fold num_folds :
  (0 < num_folds)%Z -> (0 <= fold)%Z ->
  exists list_train list_valid,
    fold_split data fold num_folds = Ok (list_train, list_valid)
    /\ list_train ++ list_valid ≡ₚ data.
Proof.
  intros HN Hf. rewrite fold_split_nonneg by done. do 2 eexists; split; [done|].
  rewrite Permutation_middle_out, app_assoc. rewrite take_take_drop. by rewrite take_drop.
Qed.

(** C9. A fold in range has exactly [len(data) // num_folds] validation
    items. *)
Theorem fold_split_valid_length data fold num_folds list_train list_valid :
  (0 <= fold < num_folds)%Z ->
  fold_split data fold num_folds = Ok (list_train, list_valid) ->
  Z.of_nat (length list_valid) = (Z.of_nat (length data) / num_folds)%Z.
Proof.
  intros Hf. rewrite fold_split_nonneg by lia. intros [= _ <-].
  pose proof (Z.div_pos (Z.of_nat (length data)) num_folds ltac:(lia) ltac:(lia)).
  pose proof (Z.mul_div_le (Z.of_nat (length data)) num_folds ltac:(lia)).
  rewrite length_take, length_drop. nia.
Qed.

(** Consecutive blocks of size [s] tile a prefix of the list. *)
Lemma blocks_tile data (s n : nat) :
  concat ((fun f => take s (drop (s * f) data)) <$> seq 0 n) = take (n * s) data.
Proof.
  induction n as [|n IH]; [done|].
  rewrite seq_S, fmap_app, concat_app, IH. simpl. rewrite app_nil_r.
  replace (s * n) with (n * s) by lia. rewrite take_take_drop. f_equal; lia.
Qed.

(** C8. The validation lists of folds [0 .. num_folds-1], in order, tile
    the first [num_folds * split] items: each such item is validated in
    exactly one fold, and the last [len(data) mod num_folds] items are
    never validated. *)
Theorem fold_split_valid_tiling data (num_folds : nat) (valids : list (list A)) :
  0 < num_folds ->
  Forall2 (fun f list_valid => exists list_train,
             fold_split data (Z.of_nat f) (Z.of_nat num_folds) = Ok (list_train, list_valid))
          (seq 0 num_folds) valids ->
  concat valids = take (num_folds * (length data / num_folds)) data.
Proof.
  intros HN Hall. rewrite <- blocks_tile. f_equal.
  apply list_eq_Forall2. rewrite Forall2_fmap_r. apply Forall2_flip.
  eapply Forall2_impl; [exact Hall|]. intros f v [tr Hf].
  rewrite fold_split_nonneg in Hf by lia. injection Hf as _ <-.
  rewrite <- Nat2Z.inj_div, !Nat2Z.id. done.
Qed.

(** With no folds the split raises before slicing. *)
Theorem fold_split_zero_folds data fold :
  fold_split data fold 0 = Err ZeroDivisionError.
Proof. reflexivity. Qed.
End Props.


(** A fold past the last one validates the remainder: five items, two
    folds, fold [2] validates only the fifth item. *)
Example fold_split_fold_past_end :
  fold_split [0; 1; 2; 3; 4] 2 2 = Ok ([0; 1; 2; 3], [4]).
Proof. reflexivity. Qed.

(** ** Witnesses *)

Lemma fold_split_permutation_witness :
  exists list_train list_valid,
    fold_split [0; 1; 2; 3; 4] 1 2 = Ok (list_train, list_valid)
    /\ list_train ++ list_valid ≡ₚ [0; 1; 2; 3; 4].
Proof. apply fold_split_permutation; lia. Defined.

Lemma fold_split_valid_length_witness :
  Z.of_nat (length [2; 3]) = (Z.of_nat (length [0; 1; 2; 3; 4]) / 2)%Z.
Proof. apply (fold_split_valid_length [0; 1; 2; 3; 4] 1 2 [0; 1; 4] [2; 3]); [lia | reflexivity]. Defined.

Lemma fold_split_valid_tiling_witness :
  concat [[0; 1]; [2; 3]] = take (2 * (length [0; 1; 2; 3; 4] / 2)) [0; 1; 2; 3; 4].
Proof.
  apply (fold_split_valid_tiling [0; 1; 2; 3; 4] 2 [[0; 1]; [2; 3]]); [lia|].
  repeat constructor; eexists; reflexivity.
Defined.

End FoldSplit.
