(* ===== verification/Partition.v ===== *)
(** Sharding the data across ranks.  Both drivers call
    [partition_dataset(data, shuffle, num_partitions=world_size,
    even_divisible)[rank]] (train_dints.py 202 and 216, search_dints.py
    212, 215 and 229).  The class [Partitioner] states what the drivers
    rely on; [partition_dataset] models MONAI's implementation
    ([monai.data.utils.partition_dataset], branch without [ratios]), which
    is library code outside this repository, and discharges the class. *)

From stdpp Require Import base list sets strings.
From Stdlib Require Import ZArith Lia.
From S2P Require Import Prelude PySlice.
Import PySlice.

Local Open Scope py_scope.

Module Partition.

(** Python's [math.ceil(a / b)] on non-negative integers. *)
Definition ceil_div (a b : nat) : nat := (a + b - 1) / b.

(** The interface: shards, one per rank.  Without padding they are a
    permutation of the data; with padding ([even_divisible]) they all have
    [ceil(len / W)] items, cover the data and contain nothing else; and
    whenever the call succeeds its shards hold only items of the data. *)
Class Partitioner := {
  partition : forall {A : Type}, list A -> nat -> bool -> bool -> result (list (list A));
  partition_exact : forall A (data : list A) W shuffle,
    0 < W <= length data ->
    exists shards, partition data W shuffle false = Ok shards
      /\ length shards = W /\ concat shards ≡ₚ data;
  partition_padded : forall A (data : list A) W shuffle,
    0 < W <= length data ->
    exists shards, partition data W shuffle true = Ok shards
      /\ length shards = W
      /\ Forall (fun s => length s = ceil_div (length data) W) shards
      /\ (forall x, x ∈ data -> exists s, s ∈ shards /\ x ∈ s)
      /\ (forall s x, s ∈ shards -> x ∈ s -> x ∈ data);
  partition_sound : forall A (data : list A) W shuffle even_divisible shards,
    partition data W shuffle even_divisible = Ok shards ->
    forall s x, s ∈ shards -> x ∈ s -> x ∈ data
}.

(** The drivers' calls, on rank [rank] of [world_size]. *)
Section Calls.
Context `{Partitioner}.

(** train_dints.py 202: [partition_dataset(data=train_files, shuffle=True,
    num_partitions=world_size, even_divisible=True)[rank]]. *)
Definition train_shard {A} (train_files : list A) (world_size rank : nat) : result (list A) :=
  let* shards := partition train_files world_size true true in
  getitem shards rank.

(** train_dints.py 216: [partition_dataset(data=val_files, shuffle=False,
    num_partitions=world_size, even_divisible=False)[rank]]. *)
Definition val_shard {A} (val_files : list A) (world_size rank : nat) : result (list A) :=
  let* shards := partition val_files world_size false false in
  getitem shards rank.
End Calls.

(** ** Strided shards of a list *)

Section Strides.
Context {B : Type}.

Lemma concat_fmap_omap {C D} (f : C -> option D) (g : nat -> list C) (l : list nat) :
  concat ((fun i => omap f (g i)) <$> l) = omap f (concat (g <$> l)).
Proof.
  induction l as [|i l IH]; [done|].
  rewrite !fmap_cons. cbn [concat]. by rewrite omap_app, IH.
Qed.

Lemma bind_concat_fmap {C} (g : nat -> list C) (l : list nat) :
  l ≫= g = concat (g <$> l).
Proof.
  induction l as [|i l IH]; [done|].
  rewrite fmap_cons. cbn [concat]. by rewrite <- IH.
Qed.

Let stride_idx (total i : nat) (k : positive) :=
  slice_indices (Z.of_nat total) (Some (Z.of_nat i)) (Some (Z.of_nat total)) k.

(** The positions [i::k] for [i < k] together visit every position
    below [total] exactly once. *)
Lemma strides_perm (total : nat) (k : positive) :
  Pos.to_nat k <= total ->
  concat ((fun i => stride_idx total i k) <$> seq 0 (Pos.to_nat k)) ≡ₚ seq 0 total.
Proof.
  intros Hk. rewrite <- bind_concat_fmap. apply NoDup_Permutation.
  - apply NoDup_bind; [| |apply NoDup_seq].
    + intros i1 i2 p Hi1%elem_of_seq Hi2%elem_of_seq H1 H2.
      apply elem_of_slice_indices_stride in H1, H2; lia.
    + intros i Hi%elem_of_seq. unfold stride_idx. rewrite slice_indices_stride by lia.
      apply NoDup_fmap_2_strong; [|apply NoDup_seq]. intros ???? ; nia.
  - apply NoDup_seq.
  - intros p. rewrite list_elem_of_bind, elem_of_seq. split.
    + intros (i & Hp & Hi%elem_of_seq).
      apply elem_of_slice_indices_stride in Hp; lia.
    + intros Hp. exists (p mod Pos.to_nat k).
      pose proof (Nat.mod_upper_bound p (Pos.to_nat k) ltac:(lia)).
      rewrite elem_of_seq. split; [|lia].
      apply elem_of_slice_indices_stride; lia.
Qed.

(** The shards [L[i::k]], [i < k], are a permutation of [L]. *)
Lemma strided_shards_perm (L : list B) (k : positive) :
  Pos.to_nat k <= length L ->
  concat ((fun i => getitem_slice L (Some (Z.of_nat i)) (Some (Z.of_nat (length L))) k)
            <$> seq 0 (Pos.to_nat k)) ≡ₚ L.
Proof.
  intros Hk. unfold getitem_slice.
  rewrite concat_fmap_omap. apply omap_lookup_perm. by apply strides_perm.
Qed.

(** With [length L = n * k] every shard has [n] items. *)
Lemma strided_shard_length (L : list B) (k : positive) (n i : nat) :
  length L = n * Pos.to_nat k -> 0 < n -> i < Pos.to_nat k ->
  length (getitem_slice L (Some (Z.of_nat i)) (Some (Z.of_nat (length L))) k) = n.
Proof.
  intros HL Hn Hi. unfold getitem_slice.
  rewrite length_omap_lookup.
  2:{ intros p Hp. apply elem_of_slice_indices_stride in Hp; [lia|lia|nia]. }
  rewrite slice_indices_stride, length_fmap, length_seq by nia.
  destruct (decide (i < length L)) as [_|]; [|nia].
  replace (length L - i - 1) with ((n - 1) * Pos.to_nat k + (Pos.to_nat k - 1 - i)) by nia.
  rewrite Nat.div_add_l, Nat.div_small by lia. lia.
Qed.
End Strides.

Lemma elem_of_concat {C} (x : C) (ls : list (list C)) :
  x ∈ concat ls <-> exists l, l ∈ ls /\ x ∈ l.
Proof. rewrite list_elem_of_In, in_concat. setoid_rewrite list_elem_of_In. naive_solver. Qed.

Lemma pos_of_nat_id (W : nat) : 0 < W -> Pos.to_nat (Pos.of_nat W) = W.
Proof. intros HW. apply Nat2Pos.id. lia. Qed.

Lemma ceil_div_bounds (n W : nat) :
  0 < W -> n <= ceil_div n W * W < n + W.
Proof.
  intros HW. unfold ceil_div.
  pose proof (Nat.div_mod (n + W - 1) W ltac:(lia)).
  pose proof (Nat.mod_upper_bound (n + W - 1) W ltac:(lia)). nia.
Qed.

Lemma elem_of_omap_lookup {C} (l : list C) (ps : list nat) x :
  x ∈ omap (fun j => l !! j) ps <-> exists p, p ∈ ps /\ l !! p = Some x.
Proof. apply list_elem_of_omap. Qed.

(** The shards of an index list [idx] of length [total], each read back
    through [data], are a permutation of [idx] read through [data]. *)
Lemma shards_concat_perm {C} (data : list C) (idx : list nat) (W total : nat) :
  length idx = total -> 0 < W <= total ->
  concat ((fun i => omap (fun j => data !! j)
             (getitem_slice idx (Some (Z.of_nat i)) (Some (Z.of_nat total))
                            (Pos.of_nat W))) <$> seq 0 W)
  ≡ₚ omap (fun j => data !! j) idx.
Proof.
  intros <- HW. rewrite concat_fmap_omap. f_equiv.
  pose proof (strided_shards_perm idx (Pos.of_nat W)) as Hs.
  rewrite pos_of_nat_id in Hs by lia. apply Hs. lia.
Qed.

Section Monai.
(** [np.random.RandomState(seed).shuffle]: the same permutation on
    every rank, since every rank passes the same seed. *)
Variable rs_shuffle : list nat -> list nat.
Hypothesis rs_shuffle_perm : forall l, rs_shuffle l ≡ₚ l.

(** MONAI's [partition_dataset(data, num_partitions=W, shuffle,
    drop_last, even_divisible)] without ratios. *)
Definition partition_dataset {A} (data : list A) (num_partitions : nat)
    (shuffle even_divisible drop_last : bool) : result (list (list A)) :=
  let data_len := length data in
  let indices := seq 0 data_len in
  let indices := if shuffle then rs_shuffle indices else indices in
  if decide (num_partitions = 0) then
    raise (ValueError "must specify number of partitions or ratios."%string)
  else if negb even_divisible && drop_last then
    raise (RuntimeError "drop_last only works when even_divisible is True."%string)
  else if decide (data_len < num_partitions) then
    raise (RuntimeError "there is no enough data to be split into partitions."%string)
  else
    let num_samples :=
      if drop_last && negb (Nat.eqb (data_len mod num_partitions) 0)
      then ceil_div (data_len - num_partitions) num_partitions
      else ceil_div data_len num_partitions in
    let total_size := if even_divisible then num_samples * num_partitions else data_len in
    let indices :=
      if negb drop_last && Nat.ltb data_len total_size
      then indices ++ py_slice indices None (Some (Z.of_nat (total_size - data_len)))
      else py_slice indices None (Some (Z.of_nat total_size)) in
    Ok ((fun i => omap (fun j => data !! j)
                    (getitem_slice indices (Some (Z.of_nat i)) (Some (Z.of_nat total_size))
                                   (Pos.of_nat num_partitions)))
        <$> seq 0 num_partitions).

Lemma shuffled_perm (n : nat) (shuffle : bool) :
  (if shuffle then rs_shuffle (seq 0 n) else seq 0 n) ≡ₚ seq 0 n.
Proof. destruct shuffle; [apply rs_shuffle_perm | done]. Qed.

(** The padded index list of [even_divisible]: [total] positions, all
    of them positions of the data. *)
Lemma padded_indices (idx : list nat) (n total : nat) :
  idx ≡ₚ seq 0 n -> n <= total <= n + n ->
  let idx' := if Nat.ltb n total
              then idx ++ py_slice idx None (Some (Z.of_nat (total - n)))
              else py_slice idx None (Some (Z.of_nat total)) in
  length idx' = total /\ forall p, p ∈ idx' <-> p < n.
Proof.
  intros Hidx Htot idx'. pose proof (Permutation_length Hidx) as Hlen.
  rewrite length_seq in Hlen. subst idx'.
  assert (Hmem : forall p, p ∈ idx <-> p < n) by (intros p; rewrite Hidx, elem_of_seq; lia).
  destruct (Nat.ltb_spec n total).
  - rewrite py_slice_prefix, length_app, length_take, Nat2Z.id by lia.
    split; [lia|]. intros p. rewrite elem_of_app, <- Hmem.
    split; [intros [|(i & Hi & _)%elem_of_take]; [done|by eapply list_elem_of_lookup_2]|auto].
  - rewrite py_slice_prefix, Nat2Z.id, take_ge by lia. split; [lia|done].
Qed.

(** Without padding (validation: [even_divisible=False]) the shards
    are a permutation of the data: every item is validated by exactly
    one rank. *)
Theorem partition_dataset_exact {A} (data : list A) W shuffle :
  0 < W <= length data ->
  exists shards, partition_dataset data W shuffle false false = Ok shards
    /\ length shards = W /\ concat shards ≡ₚ data.
Proof.
  intros HW. unfold partition_dataset.
  rewrite decide_False by lia. simpl. rewrite decide_False by lia.
  pose proof (shuffled_perm (length data) shuffle) as Hidx.
  destruct (padded_indices _ (length data) (length data) Hidx) as [Hlen _]; [lia|].
  rewrite Nat.ltb_irrefl in Hlen |- *. simpl.
  eexists; split; [done|]. split; [by rewrite length_fmap, length_seq|].
  rewrite shards_concat_perm by lia.
  rewrite py_slice_prefix, Nat2Z.id, take_ge by (rewrite ?Hidx, ?length_seq; lia).
  by rewrite Hidx, omap_lookup_seq.
Qed.

(** With padding (training: [even_divisible=True]) every rank gets
    exactly [ceil(len / W)] items, every item goes to some rank, and the
    padding only repeats items of the data. *)
Theorem partition_dataset_padded {A} (data : list A) W shuffle :
  0 < W <= length data ->
  exists shards, partition_dataset data W shuffle true false = Ok shards
    /\ length shards = W
    /\ Forall (fun s => length s = ceil_div (length data) W) shards
    /\ (forall x, x ∈ data -> exists s, s ∈ shards /\ x ∈ s)
    /\ (forall s x, s ∈ shards -> x ∈ s -> x ∈ data).
Proof.
  intros HW. unfold partition_dataset.
  rewrite decide_False by lia. simpl. rewrite decide_False by lia.
  pose proof (ceil_div_bounds (length data) W ltac:(lia)) as Hb.
  set (total := ceil_div (length data) W * W).
  pose proof (shuffled_perm (length data) shuffle) as Hidx.
  destruct (padded_indices _ (length data) total Hidx) as [Hlen Hmem]; [lia|].
  set (idx' := if Nat.ltb _ total then _ else _) in Hlen, Hmem |- *.
  eexists; split; [done|].
  pose proof (shards_concat_perm data idx' W total Hlen ltac:(lia)) as Hcat.
  assert (Hin : forall s x, s ∈ (fun i => omap (fun j => data !! j)
             (getitem_slice idx' (Some (Z.of_nat i)) (Some (Z.of_nat total))
                            (Pos.of_nat W))) <$> seq 0 W ->
                x ∈ s -> x ∈ omap (fun j => data !! j) idx').
  { intros s x Hs Hx. rewrite <- Hcat, elem_of_concat. eauto. }
  split_and!.
  - by rewrite length_fmap, length_seq.
  - apply Forall_forall. intros s (i & -> & Hi%elem_of_seq)%list_elem_of_fmap.
    rewrite length_omap_lookup.
    + rewrite <- Hlen. apply strided_shard_length; rewrite ?pos_of_nat_id; lia.
    + intros p Hp. unfold getitem_slice in Hp.
      apply elem_of_omap_lookup in Hp as (q & _ & Hq).
      apply Hmem. by eapply list_elem_of_lookup_2.
  - intros x (p & Hp)%list_elem_of_lookup.
    assert (Hx : x ∈ omap (fun j => data !! j) idx').
    { apply elem_of_omap_lookup. exists p. split; [apply Hmem|done].
      by eapply lookup_lt_Some. }
    rewrite <- Hcat, elem_of_concat in Hx. done.
  - intros s x Hs Hx. apply Hin in Hx; [|done].
    apply elem_of_omap_lookup in Hx as (p & _ & Hp).
    by eapply list_elem_of_lookup_2.
Qed.
(** Whatever the flags, a shard only holds items of the data. *)
Lemma partition_dataset_sound {A} (data : list A) W shuffle even_divisible drop_last shards :
  partition_dataset data W shuffle even_divisible drop_last = Ok shards ->
  forall s x, s ∈ shards -> x ∈ s -> x ∈ data.
Proof.
  unfold partition_dataset.
  destruct (decide (W = 0)); [done|]. destruct (negb even_divisible && drop_last); [done|].
  destruct (decide (length data < W)); [done|]. intros [= <-] s x (i & -> & _)%list_elem_of_fmap.
  intros (p & _ & Hp)%elem_of_omap_lookup. by eapply list_elem_of_lookup_2.
Qed.
End Monai.

(** MONAI's function implements the interface, for any seeded shuffle. *)
Definition monai_partitioner (rs_shuffle : list nat -> list nat)
    (Hperm : forall l, rs_shuffle l ≡ₚ l) : Partitioner := {|
  partition A data W shuffle even_divisible :=
    partition_dataset rs_shuffle data W shuffle even_divisible false;
  partition_exact A data W shuffle :=
    partition_dataset_exact rs_shuffle Hperm data W shuffle;
  partition_padded A data W shuffle :=
    partition_dataset_padded rs_shuffle Hperm data W shuffle;
  partition_sound A data W shuffle even_divisible :=
    partition_dataset_sound rs_shuffle data W shuffle even_divisible false
|}.

(** ** The drivers' shards *)

Section Shards.
Context `{Partitioner}.

Lemma val_shards_perm {A} (val_files : list A) (world_size : nat) :
  0 < world_size <= length val_files ->
  exists shards,
    Forall2 (fun rank shard => val_shard val_files world_size rank = Ok shard)
            (seq 0 world_size) shards
    /\ concat shards ≡ₚ val_files.
Proof.
  intros HW. destruct (partition_exact A val_files world_size false HW) as (shards & Hp & Hl & Hc).
  exists shards. split; [|done].
  replace (seq 0 world_size) with (seq 0 (length shards)) by (by rewrite Hl).
  eapply Forall2_impl; [apply Forall2_seq_lookup|]. intros r s Hs.
  unfold val_shard. rewrite Hp. simpl. by apply getitem_lookup.
Qed.


End Shards.

(** C14. With MONAI's partitioner, fewer validation files than ranks
    make every rank raise: a fold whose validation list is shorter than
    the number of GPUs stops the run. *)
Theorem val_shard_too_few (rs_shuffle : list nat -> list nat)
    (Hperm : forall l, rs_shuffle l ≡ₚ l) {A} (val_files : list A) (world_size rank : nat) :
  0 < world_size -> length val_files < world_size ->
  @val_shard (monai_partitioner rs_shuffle Hperm) A val_files world_size rank
  = Err (RuntimeError "there is no enough data to be split into partitions.").
Proof.
  intros HW Hlt. unfold val_shard. simpl. unfold partition_dataset.
  rewrite decide_False by lia. simpl. by rewrite decide_True.
Qed.

(** Five validation cases on two ranks: ranks get cases [0,2,4] and [1,3]. *)
Lemma partition_dataset_exact_witness :
  exists shards,
    partition_dataset (fun l => l) [10; 11; 12; 13; 14] 2 false false false = Ok shards
    /\ length shards = 2 /\ concat shards ≡ₚ [10; 11; 12; 13; 14].
Proof.
  apply (partition_dataset_exact (fun l => l) (fun l => Permutation_refl l)).
  simpl. lia.
Defined.

(** Five training cases on three ranks: two each, the first case padded in. *)
Lemma partition_dataset_padded_witness :
  exists shards,
    partition_dataset (fun l => l) [10; 11; 12; 13; 14] 3 true true false = Ok shards
    /\ length shards = 3
    /\ Forall (fun s => length s = ceil_div 5 3) shards
    /\ (forall x, x ∈ [10; 11; 12; 13; 14] -> exists s, s ∈ shards /\ x ∈ s)
    /\ (forall s x, s ∈ shards -> x ∈ s -> x ∈ [10; 11; 12; 13; 14]).
Proof.
  apply (partition_dataset_padded (fun l => l) (fun l => Permutation_refl l)).
  simpl. lia.
Defined.



Lemma val_shard_too_few_witness :
  @val_shard (monai_partitioner (fun l => l) (fun l => Permutation_refl l)) nat [10] 2 1
  = Err (RuntimeError "there is no enough data to be split into partitions.").
Proof. apply val_shard_too_few; simpl; lia. Defined.

End Partition.
