(* ===== verification/FileList.v ===== *)
(** The file lists both drivers build from the dataset JSON
    (train_dints.py 183-215, search_dints.py 189-228): the entries of
    [json_data[args.json_key]] are dicts whose ["image"] and ["label"]
    paths are joined to [args.root] with [os.path.join]; an entry is kept,
    as the dict [{"image": str_img, "label": str_seg}], only when both
    files exist.  JSON objects and the file dicts are [gmap string string];
    the file system is the predicate [path_exists] ([os.path.exists] at the
    time the list is built). *)

From stdpp Require Import base list sets gmap strings.
From Stdlib Require Import Ascii ZArith Lia.
From S2P Require Import Prelude.

Local Open Scope py_scope.

Module FileList.

(** A JSON object with string values, and the dicts the drivers build. *)
Definition item := gmap string string.

(** [d[k]] on a dict. *)
Definition getkey (d : item) (k : string) : result string :=
  match d !! k with
  | Some v => Ok v
  | None => raise (KeyError k)
  end.

(** [path.endswith("/")]. *)
Definition ends_with_sep (path : string) : bool :=
  match String.get (String.length path - 1) path with
  | Some c => bool_decide (c = "/"%char)
  | None => false
  end.

(** [posixpath.join(a, b)]: an absolute [b] replaces [a]; otherwise [b]
    is appended, with a separator unless [a] is empty or ends in one. *)
Definition posix_join (a b : string) : string :=
  if String.prefix "/" b then b
  else if bool_decide (a = "") || ends_with_sep a then a +:+ b
  else a +:+ "/" +:+ b.

(** [{"image": str_img, "label": str_seg}]. *)
Definition file_dict (str_img str_seg : string) : item :=
  <["label" := str_seg]> {["image" := str_img]}.

(** The loop over [range(len(list))] (train_dints.py 191-199 and 206-214):
    join, test both files, skip ([continue]) or append. *)
Fixpoint build_files (root : string) (path_exists : string -> bool) (l : list item)
    : result (list item) :=
  match l with
  | [] => Ok []
  | it :: l =>
      let* img := getkey it "image" in
      let* seg := getkey it "label" in
      let str_img := posix_join root img in
      let str_seg := posix_join root seg in
      if negb (path_exists str_img) || negb (path_exists str_seg) then
        build_files root path_exists l
      else
        let* files := build_files root path_exists l in
        Ok (file_dict str_img str_seg :: files)
  end.

(** [json_data[args.json_key]] (train_dints.py 186-188). *)
Definition json_list (json_data : gmap string (list item)) (json_key : string)
    : result (list item) :=
  match json_data !! json_key with
  | Some l => Ok l
  | None => raise (KeyError json_key)
  end.

(** ** Specification *)

(** The two joined paths of an entry that has both keys. *)
Definition item_paths (root : string) (it : item) : option (string * string) :=
  img ← it !! "image"; seg ← it !! "label"; Some (posix_join root img, posix_join root seg).

Definition has_keys (it : item) : Prop := is_Some (it !! "image") /\ is_Some (it !! "label").

Lemma build_files_app root path_exists l1 l2 a :
  build_files root path_exists (l1 ++ l2) = Ok a ->
  exists a1 a2, build_files root path_exists l1 = Ok a1
    /\ build_files root path_exists l2 = Ok a2 /\ a = a1 ++ a2.
Proof.
  revert a. induction l1 as [|it l1 IH]; intros a; simpl; [by exists [], a|].
  unfold getkey. destruct (it !! "image") as [img|], (it !! "label") as [seg|]; simpl; try done.
  destruct (_ || _).
  - intros (a1 & a2 & -> & -> & ->)%IH. by exists a1, a2.
  - destruct (build_files root path_exists (l1 ++ l2)) as [r|] eqn:E; simpl; [|done].
    intros [= <-]. destruct (IH r eq_refl) as (a1 & a2 & -> & -> & ->). by exists (file_dict (posix_join root img) (posix_join root seg) :: a1), a2.
Qed.

Lemma build_files_app_Ok root path_exists l1 l2 a1 a2 :
  build_files root path_exists l1 = Ok a1 -> build_files root path_exists l2 = Ok a2 ->
  build_files root path_exists (l1 ++ l2) = Ok (a1 ++ a2).
Proof.
  revert a1. induction l1 as [|it l1 IH]; intros a1; simpl; [by intros [= <-] ->|].
  unfold getkey. destruct (it !! "image"), (it !! "label"); simpl; try done.
  destruct (_ || _); [by apply IH|].
  destruct (build_files root path_exists l1) as [r|]; simpl; [|done].
  intros [= <-] H2. by rewrite (IH r eq_refl H2).
Qed.

(** Every dict the loop builds is a [file_dict]. *)
Lemma build_files_dicts root path_exists l fs :
  build_files root path_exists l = Ok fs -> Forall (fun f => exists a b, f = file_dict a b) fs.
Proof.
  revert fs. induction l as [|it l IH]; intros fs; simpl; [by intros [= <-]|].
  unfold getkey. destruct (it !! "image"), (it !! "label"); simpl; try done.
  destruct (_ || _); [apply IH|].
  destruct (build_files root path_exists l) as [r|]; simpl; [|done].
  intros [= <-]. constructor; [by eexists _, _|]. by apply IH.
Qed.

(** C27. On entries that all have both keys, the loop returns, in order,
    the dict of the joined paths of each entry whose two files exist. *)
Theorem build_files_spec root path_exists (l : list item) :
  Forall has_keys l ->
  build_files root path_exists l
  = Ok ((fun p => file_dict p.1 p.2)
          <$> filter (fun p => path_exists p.1 && path_exists p.2 = true) (omap (item_paths root) l)).
Proof.
  induction 1 as [|it l [[img Hi] [seg Hs]] _ IH]; [done|]. simpl.
  unfold getkey, item_paths. rewrite Hi, Hs. simpl. rewrite filter_cons. simpl.
  destruct (path_exists (posix_join root img)), (path_exists (posix_join root seg));
    simpl; rewrite ?IH; try done.
Qed.

(** The loop raises only [KeyError], and only for an entry lacking
    ["image"], or having ["image"] but lacking ["label"]. *)
Theorem build_files_key_error root path_exists (l : list item) e :
  build_files root path_exists l = Err e ->
  exists it, it ∈ l /\ ((it !! "image" = None /\ e = KeyError "image")
                        \/ (is_Some (it !! "image") /\ it !! "label" = None /\ e = KeyError "label")).
Proof.
  induction l as [|it l IH]; simpl; [done|]. unfold getkey.
  destruct (it !! "image") as [img|] eqn:Hi; simpl; [|intros [= <-]; exists it; set_solver].
  destruct (it !! "label") as [seg|] eqn:Hs; simpl;
    [|intros [= <-]; exists it; split; [set_solver|right; eauto]].
  destruct (_ || _); [|destruct (build_files root path_exists l) eqn:E; simpl; [done|intros [= <-]]];
    intros; destruct IH as (it' & ? & ?); try done; exists it'; set_solver.
Qed.

(** ** Witnesses *)

Definition demo_item (img seg : string) : item := <["label" := seg]> {["image" := img]}.

Lemma build_files_spec_witness :
  build_files "/data" (fun p => bool_decide (p <> "/data/b.nii"))
    [demo_item "a.nii" "a_seg.nii"; demo_item "b.nii" "b_seg.nii"; demo_item "/scratch/c.nii" "c_seg.nii"]
  = Ok ((fun p => file_dict p.1 p.2)
          <$> filter (fun p => (fun q => bool_decide (q <> "/data/b.nii")) p.1
                               && (fun q => bool_decide (q <> "/data/b.nii")) p.2 = true)
                (omap (item_paths "/data")
                   [demo_item "a.nii" "a_seg.nii"; demo_item "b.nii" "b_seg.nii";
                    demo_item "/scratch/c.nii" "c_seg.nii"])).
Proof. apply build_files_spec. repeat constructor; by eexists. Defined.

End FileList.
