(* ===== verification/Pipeline.v ===== *)
(** The data each rank of train_dints.py trains and validates on
    (lines 183-216): the dataset list read from the JSON file, its fold
    split ([FoldSplit]), the two file lists ([FileList]) and the rank's
    shards of them ([Partition]), composed as [main] composes them.  The
    sharding is used through the [Partitioner] interface. *)

From stdpp Require Import base list sets gmap strings.
From Stdlib Require Import ZArith Lia.
From S2P Require Import Prelude PySlice FoldSplit Partition FileList.
Import PySlice FoldSplit Partition FileList.

Local Open Scope py_scope.

Module Pipeline.

Section Data.
Context `{Partitioner}.

(** Lines 183-216 on rank [rank] of [world_size]: [(train_files, val_files)]. *)
Definition train_data (json_data : gmap string (list item)) (json_key root : string)
    (path_exists : string -> bool) (fold num_folds : Z) (world_size rank : nat)
    : result (list item * list item) :=
  let* data := json_list json_data json_key in
  let* sp := fold_split data fold num_folds in
  let* train_files := build_files root path_exists sp.1 in
  let* train_files := train_shard train_files world_size rank in
  let* val_files := build_files root path_exists sp.2 in
  let* val_files := val_shard val_files world_size rank in
  Ok (train_files, val_files).

Lemma shard_sound_train {A} (files : list A) W rank t x :
  train_shard files W rank = Ok t -> x ∈ t -> x ∈ files.
Proof.
  unfold train_shard. destruct (partition files W true true) as [shards|] eqn:E; simpl; [|done].
  intros Ht%getitem_Ok Hx. by eapply partition_sound.
Qed.

Lemma shard_sound_val {A} (files : list A) W rank t x :
  val_shard files W rank = Ok t -> x ∈ t -> x ∈ files.
Proof.
  unfold val_shard. destruct (partition files W false false) as [shards|] eqn:E; simpl; [|done].
  intros Ht%getitem_Ok Hx. by eapply partition_sound.
Qed.

(** The file lists of a non-negative fold: the dataset's files split in
    three consecutive blocks, the middle one being the validation files. *)
Lemma fold_files root path_exists data fold num_folds all :
  (0 < num_folds)%Z -> (0 <= fold)%Z -> build_files root path_exists data = Ok all ->
  exists list_train list_valid a1 am a3,
    fold_split data fold num_folds = Ok (list_train, list_valid)
    /\ build_files root path_exists list_train = Ok (a1 ++ a3)
    /\ build_files root path_exists list_valid = Ok am /\ all = a1 ++ am ++ a3.
Proof.
  intros HN Hf Hall. rewrite fold_split_nonneg by done.
  set (s := Z.to_nat (Z.of_nat (length data) / num_folds)). set (a := s * Z.to_nat fold).
  rewrite <- (take_drop_split data a (a + s)) in Hall by lia.
  replace (a + s - a) with s in Hall by lia.
  apply build_files_app in Hall as (a1 & r & H1 & (am & a3 & Hm & H3 & ->)%build_files_app & ->).
  exists (take a data ++ drop (a + s) data), (take s (drop a data)), a1, am, a3.
  split_and!; [done| |done|done]. by apply build_files_app_Ok.
Qed.

(** C29. No data leakage: when the dataset's file dicts are distinct, no
    file any rank trains on is validated by any rank. *)
Theorem train_data_no_leakage json_data json_key root path_exists fold num_folds world_size
    data all rank1 rank2 t1 v1 t2 v2 :
  (0 < num_folds)%Z -> (0 <= fold)%Z ->
  json_list json_data json_key = Ok data -> build_files root path_exists data = Ok all -> NoDup all ->
  train_data json_data json_key root path_exists fold num_folds world_size rank1 = Ok (t1, v1) ->
  train_data json_data json_key root path_exists fold num_folds world_size rank2 = Ok (t2, v2) ->
  t1 ## v2.
Proof.
  intros HN Hf Hj Hall Hnd. unfold train_data. rewrite Hj. cbn [bind].
  destruct (fold_files root path_exists data fold num_folds all HN Hf Hall)
    as (lt & lv & a1 & am & a3 & -> & Ht & Hv & ->).
  cbn [bind fst snd]. rewrite Ht, Hv. cbn [bind].
  destruct (train_shard (a1 ++ a3) world_size rank1) as [s1|] eqn:E1; cbn [bind]; [|done].
  destruct (val_shard am world_size rank1); cbn [bind]; [|done]. intros [= <- _].
  destruct (train_shard (a1 ++ a3) world_size rank2); cbn [bind]; [|done].
  destruct (val_shard am world_size rank2) as [s2|] eqn:E2; cbn [bind]; [|done]. intros [= _ <-].
  intros x Hx1%(shard_sound_train _ _ _ _ _ E1) Hx2%(shard_sound_val _ _ _ _ _ E2).
  rewrite <- Permutation_middle_out, NoDup_app in Hnd. destruct Hnd as (_ & Hdis & _).
  by apply (Hdis x Hx1).
Qed.
End Data.

(** ** The search driver's data (search_dints.py 189-229) *)

Section SearchData.
Context `{Partitioner}.
(** [random.shuffle(train_files)] (line 209), a permutation of the list. *)
Variable py_shuffle : list item -> list item.
Hypothesis py_shuffle_perm : forall l, py_shuffle l ≡ₚ l.

(** Lines 209-216: the shuffled training files are cut in halves, the
    first [len // 2] for the weight steps and the rest for the
    architecture steps, and each half is sharded with padding. *)
Definition search_halves (train_files : list item) (world_size rank : nat)
    : result (list item * list item) :=
  let train_files := py_shuffle train_files in
  let half := (Z.of_nat (length train_files) / 2)%Z in
  let* train_files_w := train_shard (py_slice train_files None (Some half)) world_size rank in
  let* train_files_a := train_shard (py_slice train_files (Some half) None) world_size rank in
  Ok (train_files_w, train_files_a).

(** Lines 189-229 on rank [rank]: [(train_files_w, train_files_a, val_files)]. *)
Definition search_data (json_data : gmap string (list item)) (json_key root : string)
    (path_exists : string -> bool) (fold num_folds : Z) (world_size rank : nat)
    : result (list item * list item * list item) :=
  let* data := json_list json_data json_key in
  let* sp := fold_split data fold num_folds in
  let* train_files := build_files root path_exists sp.1 in
  let* halves := search_halves train_files world_size rank in
  let* val_files := build_files root path_exists sp.2 in
  let* val_files := val_shard val_files world_size rank in
  Ok (halves.1, halves.2, val_files).

Lemma search_halves_split (train_files : list item) :
  let l := py_shuffle train_files in
  py_slice l None (Some (Z.of_nat (length l) / 2)%Z) = take (length train_files / 2) l
  /\ py_slice l (Some (Z.of_nat (length l) / 2)%Z) None = drop (length train_files / 2) l.
Proof.
  intros l. assert (Hl : length l = length train_files) by apply Permutation_length, py_shuffle_perm.
  rewrite py_slice_prefix, py_slice_suffix by (apply Z.div_pos; lia).
  rewrite Hl. change 2%Z with (Z.of_nat 2). rewrite <- Nat2Z.inj_div, Nat2Z.id. done.
Qed.

(** With at least [world_size] files in the weight half, every rank
    gets a weight shard of [ceil((n // 2) / world_size)] files and a
    non-empty architecture shard of [ceil((n - n // 2) / world_size)]
    files, [n] being the number of training files: the architecture
    loader is never empty. *)
Theorem search_halves_sizes (train_files : list item) world_size rank :
  0 < world_size <= length train_files / 2 -> rank < world_size ->
  exists w a, search_halves train_files world_size rank = Ok (w, a)
    /\ length w = ceil_div (length train_files / 2) world_size
    /\ length a = ceil_div (length train_files - length train_files / 2) world_size
    /\ 0 < length a.
Proof.
  intros HW Hr. destruct (search_halves_split train_files) as [Hw Ha].
  assert (Hl : length (py_shuffle train_files) = length train_files)
    by apply Permutation_length, py_shuffle_perm.
  pose proof (Nat.Div0.mul_div_le (length train_files) 2).
  unfold search_halves. rewrite Hw, Ha.
  destruct (partition_padded _ (take (length train_files / 2) (py_shuffle train_files)) world_size true)
    as (sw & Pw & Lw & Fw & _); [rewrite length_take, Hl; lia|].
  destruct (partition_padded _ (drop (length train_files / 2) (py_shuffle train_files)) world_size true)
    as (sa & Pa & La & Fa & _); [rewrite length_drop, Hl; lia|].
  destruct (lookup_lt_is_Some_2 sw rank ltac:(lia)) as [w Ew].
  destruct (lookup_lt_is_Some_2 sa rank ltac:(lia)) as [a Ea].
  exists w, a. unfold train_shard. rewrite Pw, Pa. cbn [bind].
  rewrite (getitem_lookup _ _ _ Ew), (getitem_lookup _ _ _ Ea). cbn [bind].
  rewrite (Forall_lookup_1 _ _ _ _ Fw Ew), (Forall_lookup_1 _ _ _ _ Fa Ea), length_take, length_drop, Hl.
  split_and!; [done|f_equal; lia|done|]. unfold ceil_div.
  apply Nat.div_str_pos. lia.
Qed.
End SearchData.

(** C32. With fewer than [2 * world_size] training files the weight half
    is too small for MONAI's [partition_dataset] with [even_divisible]:
    the search stops with [RuntimeError] at line 212, although training
    the same fold only needs [world_size] files. *)
Theorem search_halves_too_few rs_shuffle (Hperm : forall l, rs_shuffle l ≡ₚ l)
    py_shuffle (py_shuffle_perm : forall l, py_shuffle l ≡ₚ l) (train_files : list item) world_size rank :
  0 < world_size -> length train_files / 2 < world_size ->
  @search_halves (monai_partitioner rs_shuffle Hperm) py_shuffle train_files world_size rank
  = Err (RuntimeError "there is no enough data to be split into partitions.").
Proof.
  intros HW Hlt. destruct (search_halves_split py_shuffle py_shuffle_perm train_files) as [Hw _].
  unfold search_halves. rewrite Hw. unfold train_shard. simpl. unfold partition_dataset.
  rewrite decide_False by lia. simpl. rewrite decide_True; [done|].
  change ((Nat.divmod (length train_files) 1 0 1).1) with (length train_files / 2).
  rewrite length_take. lia.
Qed.

(** ** Witnesses *)

(** MONAI's partitioner with the identity as the seeded shuffle. *)
Definition id_partitioner : Partitioner := monai_partitioner (fun l => l) (fun l => Permutation_refl l).

Definition demo_list : list item :=
  [demo_item "a.nii" "a_seg.nii"; demo_item "b.nii" "b_seg.nii";
   demo_item "c.nii" "c_seg.nii"; demo_item "d.nii" "d_seg.nii"].

Definition demo_json : gmap string (list item) := {["training" := demo_list]}.

Definition demo_files : list item :=
  Eval vm_compute in
  match build_files "/data" (fun _ => true) demo_list with Ok l => l | Err _ => [] end.

Definition demo_train_data (rank : nat) : list item * list item :=
  Eval vm_compute in
  match @train_data id_partitioner demo_json "training" "/data" (fun _ => true) 0 2 2 rank with
  | Ok p => p
  | Err _ => ([], [])
  end.

Definition demo_search_data (rank : nat) : list item * list item * list item :=
  Eval vm_compute in
  match @search_data id_partitioner (fun l => l) demo_json "training" "/data" (fun _ => true) 0 2 1 rank with
  | Ok p => p
  | Err _ => ([], [], [])
  end.

Lemma train_data_no_leakage_witness :
  (demo_train_data 0).1 ## (demo_train_data 1).2.
Proof.
  apply (@train_data_no_leakage id_partitioner demo_json "training" "/data" (fun _ => true) 0 2 2
           demo_list demo_files 0 1 _ (demo_train_data 0).2 (demo_train_data 1).1 _);
    [lia | lia | reflexivity | vm_compute; reflexivity | apply (bool_decide_unpack _); vm_compute; reflexivity
    | vm_compute; reflexivity | vm_compute; reflexivity].
Defined.


Lemma search_halves_too_few_witness :
  @search_halves id_partitioner (fun l => l) demo_files 3 0
  = Err (RuntimeError "there is no enough data to be split into partitions.").
Proof.
  apply (search_halves_too_few (fun l => l) (fun l => Permutation_refl l) (fun l => l)
           (fun l => Permutation_refl l)); vm_compute; lia.
Defined.

End Pipeline.
