(* ===== verification/Metric.v ===== *)
(** The validation metric of both drivers: the accumulator
    [metric] (train_dints.py 443, 495-499; search_dints.py 539, 590-594),
    its sum across ranks by [dist.all_reduce] (505 / 600) and the average
    rank 0 reports (508-513 / 603-608).  A Dice value of
    [compute_meandice] is [option Q], [None] standing for NaN (a class
    absent from the ground truth); a case's [value[0, :]] is the list of
    its [output_classes - 1] Dice values. *)

From stdpp Require Import base list sets.
From Stdlib Require Import QArith ZArith Lia Lqa.
From S2P Require Import Prelude Partition.
Import Partition.

Local Open Scope py_scope.
Local Open Scope nat_scope.

Module Metric.

(** [torch.nan_to_num(v, nan=0.0)] *)
Definition nan_to_num (v : option Q) : Q :=
  match v with Some q => q | None => 0%Q end.

(** [torch.isnan(v).float()] *)
Definition isnan (v : option Q) : Q :=
  match v with Some _ => 0%Q | None => 1%Q end.

(** [metric = torch.zeros((output_classes - 1) * 2)] *)
Definition metric_zeros (output_classes : nat) : list Q :=
  replicate ((output_classes - 1) * 2) 0%Q.

(** The loop of lines 495-499 over the classes of one case:
    [val0 = nan_to_num(value[0, c])], [val1 = 1 - isnan(value[0, 0])],
    [metric[2c] += val0 * val1], [metric[2c+1] += val1].  The two indices
    are below [len(metric)] for every class, so [alter] (which ignores an
    index out of range) never meets one. *)
Fixpoint class_loop (value : list (option Q)) (cs : list nat) (metric : list Q)
    : result (list Q) :=
  match cs with
  | [] => Ok metric
  | c :: cs =>
      let* v_c := getitem value c in
      let* v_0 := getitem value 0 in
      let val0 := nan_to_num v_c in
      let val1 := (1 - isnan v_0)%Q in
      let metric := alter (fun m => m + val0 * val1)%Q (2 * c) metric in
      let metric := alter (fun m => m + val1)%Q (2 * c + 1) metric in
      class_loop value cs metric
  end.

Definition case_update (output_classes : nat) (value : list (option Q)) (metric : list Q)
    : result (list Q) :=
  class_loop value (seq 0 (output_classes - 1)) metric.

(** One rank's validation loop (lines 452-501), given the Dice row of each
    of its cases. *)
Fixpoint validate (output_classes : nat) (values : list (list (option Q))) (metric : list Q)
    : result (list Q) :=
  match values with
  | [] => Ok metric
  | value :: values =>
      let* metric := case_update output_classes value metric in
      validate output_classes values metric
  end.

(** [dist.all_reduce(metric, op=SUM)]: the element-wise sum of the ranks'
    tensors. *)
Definition vec_add (a b : list Q) : list Q := zip_with Qplus a b.

Definition all_reduce_sum (len : nat) (ms : list (list Q)) : list Q :=
  foldr vec_add (replicate len 0%Q) ms.

(** [metric[2c] / metric[2c+1]] for each class (lines 508-509, computed
    again in 511-512, where the first zero count raises). *)
Fixpoint class_scores (metric : list Q) (cs : list nat) : result (list Q) :=
  match cs with
  | [] => Ok []
  | c :: cs =>
      let* num := getitem metric (2 * c) in
      let* den := getitem metric (2 * c + 1) in
      let* r := py_truediv num den in
      let* rs := class_scores metric cs in
      Ok (r :: rs)
  end.

(** [avg_metric] of lines 510-513. *)
Definition avg_metric (output_classes : nat) (metric : list Q) : result Q :=
  let* scores := class_scores metric (seq 0 (output_classes - 1)) in
  py_truediv (foldl Qplus 0%Q scores) (inject_Z (Z.of_nat (output_classes - 1))).

(** ** Specification: what the reported score is meant to be *)

(** The defined Dice values of class [c] over the cases. *)
Definition defined_dice (c : nat) (values : list (list (option Q))) : list Q :=
  omap (fun value => mjoin (value !! c)) values.

(** The mean Dice of class [c] over the cases where it is defined. *)
Definition spec_class_mean (c : nat) (values : list (list (option Q))) : Q :=
  (foldr Qplus 0 (defined_dice c values) / inject_Z (Z.of_nat (length (defined_dice c values))))%Q.

(** The average over the foreground classes of those means. *)
Definition spec_avg (output_classes : nat) (values : list (list (option Q))) : Q :=
  (foldr Qplus 0 ((fun c => spec_class_mean c values) <$> seq 0 (output_classes - 1))
   / inject_Z (Z.of_nat (output_classes - 1)))%Q.

(** ** The accumulator as a vector sum *)

Section Vectors.
Implicit Types (a b c m : list Q).

Lemma vec_add_assoc a b c : vec_add a (vec_add b c) = vec_add (vec_add a b) c.
Proof.
  revert b c. induction a as [|x a IH]; intros [|y b] [|z c]; try done.
  simpl. by rewrite Qplus_assoc_L, IH.
Qed.

Lemma vec_add_comm a b : vec_add a b = vec_add b a.
Proof.
  revert b. induction a as [|x a IH]; intros [|y b]; try done.
  simpl. by rewrite Qplus_comm_L, IH.
Qed.

Lemma vec_add_zeros_l m : vec_add (replicate (length m) 0%Q) m = m.
Proof. induction m as [|x m IH]; [done|]. simpl. by rewrite Qplus_0_l_L, IH. Qed.

Lemma length_vec_add a b : length a = length b -> length (vec_add a b) = length a.
Proof. intros Hl. unfold vec_add. rewrite length_zip_with. lia. Qed.

(** Adding at one index commutes with adding a vector. *)
Lemma alter_vec_add (x : Q) i a b :
  alter (fun q => q + x)%Q i (vec_add a b) = vec_add (alter (fun q => q + x)%Q i a) b.
Proof.
  revert i b. induction a as [|y a IH]; intros [|i] [|z b]; try done; simpl.
  - f_equal. rewrite <- !Qplus_assoc_L. f_equal. apply Qplus_comm_L.
  - f_equal. apply IH.
Qed.
End Vectors.

#[export] Hint Rewrite vec_add_zeros_l : pysimp.

Section Accumulator.
Variable output_classes : nat.
Notation C := output_classes.
Notation zeros := (metric_zeros output_classes).

Lemma class_loop_length value cs m m' :
  class_loop value cs m = Ok m' -> length m' = length m.
Proof.
  revert m. induction cs as [|c cs IH]; intros m; simpl; [by intros [= ->]|].
  destruct (getitem value c), (getitem value 0); try done; simpl.
  intros Hl. apply IH in Hl. by rewrite Hl, !length_alter.
Qed.

Lemma class_loop_error value cs m e :
  class_loop value cs m = Err e -> e = IndexError.
Proof.
  unfold getitem. revert m. induction cs as [|c cs IH]; intros m; simpl; [done|].
  destruct (getitem value c) eqn:E1, (getitem value 0) eqn:E2; simpl; try apply IH;
    unfold getitem in *; repeat case_match; congruence.
Qed.

(** The loop over the classes commutes with adding a vector to the
    accumulator. *)
Lemma class_loop_vec_add value cs a b :
  class_loop value cs (vec_add a b) = fmap_result (fun m => vec_add m b) (class_loop value cs a).
Proof.
  revert a. induction cs as [|c cs IH]; intros a; [done|]. simpl.
  destruct (getitem value c), (getitem value 0); try done; simpl.
  by rewrite !alter_vec_add, IH.
Qed.

(** A case adds the same vector whatever the accumulator holds. *)
Lemma case_update_shift value m :
  length m = length zeros ->
  case_update C value m = fmap_result (fun d => vec_add d m) (case_update C value zeros).
Proof.
  intros Hl. unfold case_update, metric_zeros in *. rewrite length_replicate in Hl.
  rewrite <- (vec_add_zeros_l m) at 1. rewrite Hl. apply class_loop_vec_add.
Qed.

Lemma validate_length values m m' :
  validate C values m = Ok m' -> length m' = length m.
Proof.
  revert m. induction values as [|v vs IH]; intros m; simpl; [by intros [= ->]|].
  destruct (case_update C v m) as [m1|] eqn:E; [|done]. simpl.
  intros H%IH. rewrite H. by eapply class_loop_length.
Qed.

Lemma validate_app xs ys m :
  validate C (xs ++ ys) m = bind (validate C xs m) (validate C ys).
Proof.
  revert m. induction xs as [|v xs IH]; intros m; [done|]. simpl.
  destruct (case_update C v m); [apply IH|done].
Qed.

Lemma validate_vec_add values a b :
  validate C values (vec_add a b) = fmap_result (fun m => vec_add m b) (validate C values a).
Proof.
  revert a. induction values as [|v vs IH]; intros a; [done|]. simpl.
  unfold case_update. rewrite class_loop_vec_add.
  destruct (class_loop v _ a); [apply IH|done].
Qed.
Lemma case_update_length value m m' :
  case_update C value m = Ok m' -> length m' = length m.
Proof. apply class_loop_length. Qed.

(** The order of the cases does not matter: [validate] only adds. *)
Lemma validate_perm xs ys m :
  length m = length zeros -> xs ≡ₚ ys -> validate C xs m = validate C ys m.
Proof.
  intros Hl Hp. revert m Hl. induction Hp as [|v xs ys _ IH|y x l|xs ys zs _ IH1 _ IH2];
    intros m Hl; simpl.
  - done.
  - destruct (case_update C v m) as [m1|] eqn:E; simpl; [|done].
    apply IH. apply case_update_length in E. lia.
  - rewrite (case_update_shift x m), (case_update_shift y m) by done.
    destruct (case_update C y zeros) as [dy|ey] eqn:Ey,
             (case_update C x zeros) as [dx|ex] eqn:Ex; simpl.
    + apply case_update_length in Ey as Ly, Ex as Lx.
      rewrite (case_update_shift y (vec_add dx m)), (case_update_shift x (vec_add dy m))
        by (rewrite length_vec_add; lia).
      rewrite Ey, Ex. simpl. by rewrite !vec_add_assoc, (vec_add_comm dx dy).
    + apply case_update_length in Ey.
      rewrite (case_update_shift x (vec_add dy m)) by (rewrite length_vec_add; lia).
      by rewrite Ex.
    + apply case_update_length in Ex.
      rewrite (case_update_shift y (vec_add dx m)) by (rewrite length_vec_add; lia).
      by rewrite Ey.
    + apply class_loop_error in Ey, Ex. by subst.
  - rewrite IH1 by done. by apply IH2.
Qed.

(** Enough entries in every Dice row: the loop never raises. *)
Lemma class_loop_ok value cs m :
  (forall c, c ∈ cs -> c < length value) -> exists m', class_loop value cs m = Ok m'.
Proof.
  revert m. induction cs as [|c cs IH]; intros m Hcs; [by eexists|]. simpl.
  assert (Hc : c < length value) by (apply Hcs; set_solver).
  destruct (lookup_lt_is_Some_2 value c Hc) as [vc Hvc].
  destruct (lookup_lt_is_Some_2 value 0 ltac:(lia)) as [v0 Hv0].
  rewrite (getitem_lookup _ _ _ Hvc), (getitem_lookup _ _ _ Hv0). simpl.
  apply IH. intros c' Hc'. apply Hcs. set_solver.
Qed.

Lemma validate_ok values m :
  (forall value, value ∈ values -> C - 1 <= length value) ->
  exists m', validate C values m = Ok m'.
Proof.
  revert m. induction values as [|v vs IH]; intros m Hvs; [by eexists|]. simpl.
  destruct (class_loop_ok v (seq 0 (C - 1)) m) as [m1 Hm1].
  { intros c Hc%elem_of_seq. pose proof (Hvs v ltac:(set_solver)). lia. }
  unfold case_update. rewrite Hm1. simpl. apply IH. intros v' Hv'. apply Hvs. set_solver.
Qed.
End Accumulator.

(** Entry [i] of the all-reduced tensor is the sum of the ranks' entries. *)
Lemma all_reduce_sum_lookup (n i : nat) (ms : list (list Q)) :
  Forall (fun m => length m = n) ms -> i < n ->
  all_reduce_sum n ms !! i = Some (foldr (fun m acc => default 0%Q (m !! i) + acc)%Q 0%Q ms).
Proof.
  intros Hms Hi. induction Hms as [|m ms Hm _ IH]; simpl.
  - by rewrite lookup_replicate_2.
  - unfold vec_add at 1. rewrite lookup_zip_with, IH.
    destruct (lookup_lt_is_Some_2 m i ltac:(lia)) as [x ->]. done.
Qed.

Lemma length_all_reduce_sum (n : nat) (ms : list (list Q)) :
  Forall (fun m => length m = n) ms -> length (all_reduce_sum n ms) = n.
Proof.
  induction 1 as [|m ms Hm _ IH]; simpl; [apply length_replicate|].
  rewrite length_vec_add; lia.
Qed.

Lemma validate_all_reduce_sum (output_classes : nat) (vs : list (list (list (option Q))))
    (ms : list (list Q)) :
  Forall2 (fun values m => validate output_classes values (metric_zeros output_classes) = Ok m) vs ms ->
  validate output_classes (concat vs) (metric_zeros output_classes)
  = Ok (all_reduce_sum ((output_classes - 1) * 2) ms).
Proof.
  induction 1 as [|values m vs ms Hm _ IH]; [done|]. simpl.
  rewrite validate_app, Hm. simpl.
  pose proof (validate_length _ _ _ _ Hm) as Hl.
  unfold metric_zeros in *. rewrite length_replicate in Hl.
  transitivity (fmap_result (fun r => vec_add r m)
    (validate output_classes (concat vs) (replicate ((output_classes - 1) * 2) 0%Q))).
  { rewrite <- validate_vec_add. f_equal. rewrite <- Hl. symmetry. apply vec_add_zeros_l. }
  rewrite IH. simpl. f_equal. apply vec_add_comm.
Qed.

(** C6. Summing the ranks' accumulators ([dist.all_reduce]) gives what one
    process would accumulate over all the ranks' cases in turn. *)
Theorem validate_all_reduce (output_classes : nat) (vs : list (list (list (option Q))))
    (ms : list (list Q)) :
  Forall2 (fun values m => validate output_classes values (metric_zeros output_classes) = Ok m) vs ms ->
  validate output_classes (concat vs) (metric_zeros output_classes)
  = Ok (all_reduce_sum ((output_classes - 1) * 2) ms).
Proof. apply validate_all_reduce_sum. Qed.

(** ** Closed form of the accumulator *)

(** [1 - isnan(value[0, 0])]: whether class 0 of a case is defined. *)
Definition valid0 (value : list (option Q)) : Q := (1 - isnan (mjoin (value !! 0%nat)))%Q.

(** What ends in [metric[2c]] and [metric[2c+1]] after all cases. *)
Definition num_sum (c : nat) (values : list (list (option Q))) : Q :=
  foldr (fun value acc => nan_to_num (mjoin (value !! c)) * valid0 value + acc)%Q 0%Q values.

Definition den_sum (values : list (list (option Q))) : Q :=
  foldr (fun value acc => valid0 value + acc)%Q 0%Q values.

(** The loop over the consecutive classes [s, s+k) adds to the entries
    [2c] and [2c+1] of those classes and leaves the entries below [2s]
    alone. *)
Lemma class_loop_seq_lookup value s k m m' :
  class_loop value (seq s k) m = Ok m' ->
  (forall i, i < 2 * s -> m' !! i = m !! i)
  /\ (forall c, s <= c < s + k ->
        m' !! (2 * c) = (fun x => x + nan_to_num (mjoin (value !! c)) * valid0 value)%Q <$> m !! (2 * c)
        /\ m' !! (2 * c + 1) = (fun x => x + valid0 value)%Q <$> m !! (2 * c + 1)).
Proof.
  revert s m. induction k as [|k IH]; intros s m; cbn [seq class_loop].
  - intros [= ->]. split; [done | lia].
  - unfold getitem, valid0.
    destruct (value !! s) as [vs|] eqn:Es, (value !! 0) as [v0|] eqn:E0; cbn [bind]; try done.
    intros Hm. destruct (IH (S s) _ Hm) as [Hlow Hcls]. split.
    + intros i Hi. rewrite Hlow by lia. by rewrite !list_lookup_alter_ne by lia.
    + intros c Hc. destruct (decide (c = s)) as [->|Hne].
      * rewrite !Hlow by lia. rewrite Es. split.
        -- rewrite list_lookup_alter_ne by lia. by rewrite list_lookup_alter_eq.
        -- rewrite list_lookup_alter_eq. by rewrite list_lookup_alter_ne by lia.
      * rewrite (proj1 (Hcls c ltac:(lia))), (proj2 (Hcls c ltac:(lia))).
        rewrite !(list_lookup_alter_ne _ _ (2 * s + 1)), !(list_lookup_alter_ne _ _ (2 * s)) by lia.
        unfold valid0. by rewrite E0.
Qed.

Lemma case_update_zeros_lookup output_classes value d c :
  case_update output_classes value (metric_zeros output_classes) = Ok d ->
  c < output_classes - 1 ->
  d !! (2 * c) = Some (nan_to_num (mjoin (value !! c)) * valid0 value)%Q
  /\ d !! (2 * c + 1) = Some (valid0 value).
Proof.
  intros Hd Hc. apply class_loop_seq_lookup in Hd as [_ Hcls].
  destruct (Hcls c ltac:(lia)) as [-> ->]. unfold metric_zeros.
  rewrite !lookup_replicate_2 by lia. simpl. by rewrite !Qplus_0_l_L.
Qed.

Lemma validate_closed output_classes values m :
  validate output_classes values (metric_zeros output_classes) = Ok m ->
  forall c, c < output_classes - 1 ->
    m !! (2 * c) = Some (num_sum c values) /\ m !! (2 * c + 1) = Some (den_sum values).
Proof.
  revert m. induction values as [|v vs IH]; intros m; cbn [validate].
  - intros [= <-] c Hc. unfold metric_zeros. rewrite !lookup_replicate_2 by lia. done.
  - destruct (case_update output_classes v _) as [d|] eqn:Hd; [|done]. cbn [bind].
    intros Hm c Hc.
    assert (Hl : length d = (output_classes - 1) * 2)
      by (rewrite (case_update_length _ _ _ _ Hd); apply length_replicate).
    rewrite <- (vec_add_zeros_l d), Hl, validate_vec_add in Hm.
    change (replicate ((output_classes - 1) * 2) 0%Q) with (metric_zeros output_classes) in Hm.
    destruct (validate output_classes vs _) as [r|] eqn:Hr; simpl in Hm; [|done].
    injection Hm as <-.
    destruct (IH r eq_refl c Hc) as [Hn Hd'].
    destruct (case_update_zeros_lookup _ _ _ c Hd Hc) as [Dn Dd].
    unfold vec_add. rewrite !lookup_zip_with, Hn, Hd', Dn, Dd. simpl.
    split; f_equal; apply Qplus_comm_L.
Qed.

(** C4. The accumulator after a rank's loop, in closed form: for every
    foreground class [c], [metric[2c]] is the sum over the cases of
    [nan_to_num(value[c]) * (1 - isnan(value[0]))] and [metric[2c+1]] the
    number of cases whose class 0 is defined. *)
Theorem validate_closed_form output_classes values m :
  validate output_classes values (metric_zeros output_classes) = Ok m ->
  forall c, c < output_classes - 1 ->
    m !! (2 * c) = Some (num_sum c values) /\ m !! (2 * c + 1) = Some (den_sum values).
Proof. apply validate_closed. Qed.

(** ** Refinement against the specification *)

(** Class [c] of a case is NaN exactly when class 0 is: the condition
    under which testing [value[0, 0]] for every class is harmless. *)
Definition nan_aligned (c : nat) (value : list (option Q)) : Prop :=
  isnan (mjoin (value !! c)) = isnan (mjoin (value !! 0%nat)).

Section Refinement.
Local Open Scope Q_scope.

Lemma foldl_Qplus (a : Q) (l : list Q) : foldl Qplus a l = (a + foldr Qplus 0 l)%Q.
Proof.
revert a. induction l as [|x l IH]; intros a; simpl; [by rewrite Qplus_0_r_L|].
by rewrite IH, Qplus_assoc_L.
Qed.

Lemma foldr_Qplus_fmap_ext (f g : nat -> Q) (cs : list nat) :
(forall c, c ∈ cs -> f c == g c) -> foldr Qplus 0 (f <$> cs) == foldr Qplus 0 (g <$> cs).
Proof.
induction cs as [|c cs IH]; intros Hfg; simpl; [reflexivity|].
rewrite (Hfg c), IH; [reflexivity| |]; set_solver.
Qed.

Lemma num_sum_aligned c values :
Forall (nan_aligned c) values -> num_sum c values == foldr Qplus 0 (defined_dice c values).
Proof.
induction 1 as [|v vs Hv _ IH]; [reflexivity|].
unfold num_sum, defined_dice in *. rewrite omap_cons. cbn [foldr].
unfold valid0. rewrite <- Hv. rewrite IH.
destruct (mjoin (v !! c)); cbn [foldr nan_to_num isnan]; ring.
Qed.

Lemma den_sum_aligned c values :
Forall (nan_aligned c) values ->
den_sum values == inject_Z (Z.of_nat (length (defined_dice c values))).
Proof.
induction 1 as [|v vs Hv _ IH]; [reflexivity|].
unfold den_sum, defined_dice in *. rewrite omap_cons. cbn [foldr].
unfold valid0. rewrite <- Hv. rewrite IH.
destruct (mjoin (v !! c)); cbn [foldr length isnan]; [|ring].
rewrite Nat2Z.inj_succ, <- Z.add_1_l, inject_Z_plus. ring.
Qed.

Lemma den_sum_nonneg values : 0 <= den_sum values.
Proof.
induction values as [|v vs IH]; simpl; [discriminate|].
unfold valid0. destruct (mjoin (v !! 0%nat)); simpl; lra.
Qed.

(** The count is zero exactly when no case has class 0 defined. *)
Lemma den_sum_zero values :
den_sum values == 0 <-> Forall (fun value => mjoin (value !! 0%nat) = None) values.
Proof.
induction values as [|v vs IH]; simpl; [split; [constructor|reflexivity]|].
rewrite Forall_cons, <- IH. pose proof (den_sum_nonneg vs).
unfold valid0. destruct (mjoin (v !! 0%nat)); simpl.
- split; [lra|]. intros [[=] _].
- split; [intros H0; split; [done|lra] | intros [_ H0]; rewrite H0; ring].
Qed.

(** The scores of classes whose entries are [num c] and [den]. *)
Lemma class_scores_closed m (num : nat -> Q) (den : Q) cs :
(forall c, c ∈ cs -> m !! (2 * c)%nat = Some (num c) /\ m !! (2 * c + 1)%nat = Some den) ->
~ den == 0 ->
class_scores m cs = Ok ((fun c => num c / den)%Q <$> cs).
Proof.
intros Hcs Hden. induction cs as [|c cs IH]; [done|]. cbn [class_scores].
destruct (Hcs c ltac:(set_solver)) as [Hn Hd].
rewrite (getitem_lookup _ _ _ Hn), (getitem_lookup _ _ _ Hd). cbn [bind].
rewrite py_truediv_ok by done. cbn [bind]. rewrite IH; [done|]. intros c' Hc'. apply Hcs. set_solver.
Qed.

Lemma class_scores_zero m (num : nat -> Q) (den : Q) c cs :
m !! (2 * c)%nat = Some (num c) -> m !! (2 * c + 1)%nat = Some den -> den == 0 ->
class_scores m (c :: cs) = Err ZeroDivisionError.
Proof.
intros Hn Hd Hz. cbn [class_scores].
rewrite (getitem_lookup _ _ _ Hn), (getitem_lookup _ _ _ Hd). cbn [bind].
by rewrite py_truediv_zero.
Qed.
End Refinement.

Lemma classes_nonzero output_classes :
  2 <= output_classes -> ~ (inject_Z (Z.of_nat (output_classes - 1)) == 0)%Q.
Proof. intros HC Hz. unfold Qeq in Hz. simpl in Hz. lia. Qed.

(** The reported average in closed form, once some case has class 0. *)
Lemma avg_metric_closed output_classes values m :
  2 <= output_classes ->
  validate output_classes values (metric_zeros output_classes) = Ok m ->
  ~ (den_sum values == 0)%Q ->
  avg_metric output_classes m
  = Ok (foldl Qplus 0 ((fun c => num_sum c values / den_sum values)%Q <$> seq 0 (output_classes - 1))
        / inject_Z (Z.of_nat (output_classes - 1)))%Q.
Proof.
  intros HC Hm Hden. pose proof (validate_closed _ _ _ Hm) as Hcf.
  unfold avg_metric.
  rewrite (class_scores_closed m (fun c => num_sum c values) (den_sum values)); [|..|done].
  2:{ intros c Hc%elem_of_seq. apply Hcf. lia. }
  cbn [bind]. by rewrite py_truediv_ok by (by apply classes_nonzero).
Qed.

Lemma den_sum_Exists values :
  Exists (fun value => mjoin (value !! 0%nat) <> None) values -> ~ (den_sum values == 0)%Q.
Proof.
  rewrite den_sum_zero. intros Hex Hall. apply Exists_exists in Hex as (v & Hv & Hn).
  apply Hn. by eapply Forall_forall in Hall.
Qed.

(** ** Which exceptions validation raises, and the sign of its result *)

Section Raises.
Context (P : py_error -> Prop) (HI : P IndexError) (HZ : P ZeroDivisionError).

Lemma class_loop_raises value cs m : raises_only P (class_loop value cs m).
Proof.
  revert m. induction cs as [|c cs IH]; intros m; simpl; [apply raises_only_Ok|].
  apply raises_only_bind; [by apply raises_only_getitem|intros v_c _].
  apply raises_only_bind; [by apply raises_only_getitem|intros v_0 _]. apply IH.
Qed.

Lemma validate_raises C values m : raises_only P (validate C values m).
Proof.
  revert m. induction values as [|v vs IH]; intros m; simpl; [apply raises_only_Ok|].
  apply raises_only_bind; [apply class_loop_raises | intros m' _; apply IH].
Qed.

Lemma avg_metric_raises C m : raises_only P (avg_metric C m).
Proof.
  unfold avg_metric. apply raises_only_bind; [|intros; by apply raises_only_py_truediv].
  generalize (seq 0 (C - 1)). intros cs. induction cs as [|c cs IH]; simpl; [apply raises_only_Ok|].
  apply raises_only_bind; [by apply raises_only_getitem|intros num _].
  apply raises_only_bind; [by apply raises_only_getitem|intros den _].
  apply raises_only_bind; [by apply raises_only_py_truediv|intros r _].
  apply raises_only_bind; [exact IH|intros; apply raises_only_Ok].
Qed.
End Raises.

(** Dice values are non-negative where defined. *)
Definition dice_nonneg (values : list (list (option Q))) : Prop :=
  Forall (Forall (fun v => 0 <= nan_to_num v)%Q) values.

Lemma class_loop_nonneg value cs m m' :
  Forall (fun v => 0 <= nan_to_num v)%Q value -> Forall (Qle 0) m ->
  class_loop value cs m = Ok m' -> Forall (Qle 0) m'.
Proof.
  intros Hv. revert m. induction cs as [|c cs IH]; intros m Hm; simpl; [by intros [= <-]|].
  unfold getitem. destruct (value !! c) as [vc|] eqn:Ec, (value !! 0) as [v0|] eqn:E0; simpl; try done.
  assert (H0 : (0 <= nan_to_num vc)%Q) by (rewrite Forall_lookup in Hv; exact (Hv c vc Ec)).
  assert (H1 : (0 <= 1 - isnan v0)%Q) by (destruct v0; simpl; lra).
  apply IH. apply Forall_alter; [apply Forall_alter; [done|]|]; intros x _ Hx.
  - pose proof (Qmult_le_0_compat _ _ H0 H1). lra.
  - lra.
Qed.

Lemma validate_nonneg C values m m' :
  dice_nonneg values -> Forall (Qle 0) m -> validate C values m = Ok m' -> Forall (Qle 0) m'.
Proof.
  revert m. induction values as [|v vs IH]; intros m Hv Hm; simpl; [by intros [= <-]|].
  inversion Hv as [|? ? Hv0 Hvs]; subst.
  destruct (case_update C v m) as [m1|] eqn:E; simpl; [|done].
  apply IH; [done|]. by eapply class_loop_nonneg.
Qed.

Lemma all_reduce_sum_nonneg n ms :
  Forall (Forall (Qle 0)) ms -> Forall (Qle 0) (all_reduce_sum n ms).
Proof.
  induction 1 as [|m ms Hm _ IH]; simpl.
  - apply Forall_replicate. apply Qle_refl.
  - unfold vec_add. apply Forall_lookup_2. intros i x. rewrite lookup_zip_with.
    rewrite Forall_lookup in Hm, IH.
    destruct (m !! i) as [a|] eqn:Ea, (all_reduce_sum n ms !! i) as [b|] eqn:Eb; simpl; try done.
    intros [= <-]. pose proof (Hm i a Ea). pose proof (IH i b Eb). lra.
Qed.

Lemma avg_metric_nonneg C m a :
  Forall (Qle 0) m -> avg_metric C m = Ok a -> (0 <= a)%Q.
Proof.
  intros Hm. unfold avg_metric.
  assert (Hs : forall cs scores, class_scores m cs = Ok scores -> Forall (Qle 0) scores).
  { induction cs as [|c cs IH]; intros scores; cbn [class_scores]; [by intros [= <-]|].
    destruct (getitem m (2 * c)) as [num|] eqn:En; cbn [bind]; [|done].
    destruct (getitem m (2 * c + 1)) as [den|] eqn:Ed; cbn [bind]; [|done].
    destruct (py_truediv num den) as [r|] eqn:Er; cbn [bind]; [|done].
    destruct (class_scores m cs) as [rs|]; cbn [bind]; [|done]. intros [= <-].
    constructor; [|by apply IH]. unfold getitem in En, Ed. rewrite Forall_lookup in Hm.
    destruct (m !! (2 * c)) eqn:E1; [|done]. destruct (m !! (2 * c + 1)) eqn:E2; [|done].
    injection En as <-. injection Ed as <-.
    eapply py_truediv_nonneg; [exact (Hm _ _ E1) | exact (Hm _ _ E2) | exact Er]. }
  destruct (class_scores m _) as [scores|] eqn:E; simpl; [|done].
  apply py_truediv_nonneg; [|apply (Qle_trans _ (inject_Z 0)); [apply Qle_refl|]; rewrite <- Zle_Qle; lia].
  apply Hs in E. clear Hs.
  assert (Hf : forall acc, (0 <= acc)%Q -> (0 <= foldl Qplus acc scores)%Q).
  { induction E as [|x xs Hx _ IH]; intros acc Hacc; simpl; [done|]. apply IH. lra. }
  apply Hf, Qle_refl.
Qed.

(** C1. Refinement: when, in every case, each foreground class is NaN
    exactly when class 0 is, and some case has class 0, the reported
    [avg_metric] is the average over the foreground classes of the mean
    Dice over the cases where the class is defined. *)
Theorem avg_metric_refines output_classes values m :
  2 <= output_classes ->
  validate output_classes values (metric_zeros output_classes) = Ok m ->
  (forall c, c < output_classes - 1 -> Forall (nan_aligned c) values) ->
  Exists (fun value => mjoin (value !! 0%nat) <> None) values ->
  exists a, avg_metric output_classes m = Ok a /\ (a == spec_avg output_classes values)%Q.
Proof.
  intros HC Hm Hal Hex. rewrite (avg_metric_closed _ _ _ HC Hm (den_sum_Exists _ Hex)).
  eexists; split; [done|]. unfold spec_avg.
  apply Qdiv_comp; [|reflexivity]. rewrite foldl_Qplus, Qplus_0_l_L.
  apply foldr_Qplus_fmap_ext. intros c Hc%elem_of_seq.
  unfold spec_class_mean. specialize (Hal c ltac:(lia)).
  by rewrite (num_sum_aligned c values Hal), (den_sum_aligned c values Hal).
Qed.

(** C5. The reported average raises [ZeroDivisionError] exactly when no
    validation case (on any rank) has class 0 defined, in particular when
    there are no validation cases at all. *)
Theorem avg_metric_zero_division output_classes values m :
  2 <= output_classes ->
  validate output_classes values (metric_zeros output_classes) = Ok m ->
  avg_metric output_classes m = Err ZeroDivisionError
  <-> Forall (fun value => mjoin (value !! 0%nat) = None) values.
Proof.
  intros HC Hm. pose proof (validate_closed _ _ _ Hm) as Hcf.
  rewrite <- den_sum_zero. unfold avg_metric. split.
  - intros Herr. destruct (Qeq_dec (den_sum values) 0) as [|Hden]; [done|].
    rewrite (class_scores_closed m (fun c => num_sum c values) (den_sum values)) in Herr;
      [|intros c Hc%elem_of_seq; apply Hcf; lia|done].
    cbn [bind] in Herr. by rewrite py_truediv_ok in Herr by (by apply classes_nonzero).
  - intros Hz. destruct (output_classes - 1) as [|k] eqn:Ek; [lia|]. cbn [seq].
    destruct (Hcf 0%nat ltac:(lia)) as [Hn Hd].
    by rewrite (class_scores_zero m (fun c => num_sum c values) (den_sum values) 0%nat).
Qed.


(** C3. Distributed validation refines sequential validation: whatever
    partitioner shards the validation files without padding (MONAI's does,
    [Partition.monai_partitioner]), every rank gets its shard
    ([val_shard], line 216) and its loop succeeds, and the sum of the
    ranks' accumulators ([dist.all_reduce], line 505) is the accumulator of
    one process running over all validation files in their original
    order. *)
Section Distributed.
Context `{Partitioner}.

Theorem distributed_validation {F : Type} (val_files : list F) (world_size output_classes : nat)
    (dice : F -> list (option Q)) :
  0 < world_size <= length val_files ->
  (forall f, output_classes - 1 <= length (dice f)) ->
  exists ms,
    Forall2 (fun rank m => exists shard,
               val_shard val_files world_size rank = Ok shard
               /\ validate output_classes (dice <$> shard) (metric_zeros output_classes) = Ok m)
            (seq 0 world_size) ms
    /\ validate output_classes (dice <$> val_files) (metric_zeros output_classes)
       = Ok (all_reduce_sum ((output_classes - 1) * 2) ms).
Proof.
  intros HW Hdice.
  destruct (val_shards_perm val_files world_size HW) as (shards & Hranks & Hcat).
  destruct (Forall2_exists (fun shard m =>
    validate output_classes (dice <$> shard) (metric_zeros output_classes) = Ok m) shards)
    as [ms Hms].
  { intros shard _. apply validate_ok. intros v (f & -> & _)%list_elem_of_fmap. apply Hdice. }
  exists ms. split; [by eapply Forall2_compose|].
  rewrite <- (validate_all_reduce_sum _ ((fun s : list F => dice <$> s) <$> shards) ms).
  - rewrite <- fmap_concat. apply validate_perm; [done|]. by rewrite Hcat.
  - by apply Forall2_fmap_l.
Qed.
End Distributed.

(** ** Witnesses *)

Lemma validate_all_reduce_witness :
  validate 3 (concat [[[Some 1; None]]; [[None; Some 1]]]%Q) (metric_zeros 3)
  = Ok (all_reduce_sum ((3 - 1) * 2) [[1; 1; 0; 1]; [0; 0; 0; 0]]%Q).
Proof. apply validate_all_reduce. repeat constructor. Defined.

Lemma distributed_validation_witness :
  exists ms,
    Forall2 (fun rank m => exists shard,
      @val_shard (monai_partitioner (fun l => l) (fun l => Permutation_refl l))
        nat [0; 1; 2] 2 rank = Ok shard
      /\ validate 3 ((fun f : nat => [Some (inject_Z (Z.of_nat f)); None]) <$> shard)
                  (metric_zeros 3) = Ok m) (seq 0 2) ms
    /\ validate 3 ((fun f : nat => [Some (inject_Z (Z.of_nat f)); None]) <$> [0; 1; 2])
                 (metric_zeros 3)
       = Ok (all_reduce_sum ((3 - 1) * 2) ms).
Proof.
  apply (@distributed_validation (monai_partitioner (fun l => l) (fun l => Permutation_refl l))).
  - simpl. lia.
  - intros f. simpl. lia.
Defined.

Lemma validate_closed_form_witness :
  [1; 1; 0; 1]%Q !! (2 * 0) = Some (num_sum 0 [[Some 1; None]]%Q)
  /\ [1; 1; 0; 1]%Q !! (2 * 0 + 1) = Some (den_sum [[Some 1; None]]%Q).
Proof. apply (validate_closed_form 3 [[Some 1; None]]%Q); [reflexivity | lia]. Defined.

Lemma avg_metric_refines_witness :
  exists a, avg_metric 3 [1; 1; 1 # 2; 1]%Q = Ok a
    /\ (a == spec_avg 3 [[Some 1; Some (1 # 2)]; [None; None]]%Q)%Q.
Proof.
  apply (avg_metric_refines 3 [[Some 1; Some (1 # 2)]; [None; None]]%Q).
  - lia.
  - reflexivity.
  - intros c Hc. destruct c as [|[|c]]; [..|lia]; repeat constructor.
  - left. discriminate.
Defined.

Lemma avg_metric_zero_division_witness :
  avg_metric 3 [0; 0; 0; 0]%Q = Err ZeroDivisionError
  <-> Forall (fun value => mjoin (value !! 0%nat) = None) [[None; Some 1]]%Q.
Proof. apply (avg_metric_zero_division 3 [[None; Some 1]]%Q); [lia | reflexivity]. Defined.

End Metric.
