(* ===== verification/Config.v ===== *)
(** The constants both drivers set at the top of [main]
    (train_dints.py 156-173, search_dints.py 162-179: the same values), and
    the two numbers the scripts parse from the command line ([--fold],
    [--num_folds]).  Floats are rationals. *)

From stdpp Require Import base list.
From Stdlib Require Import QArith ZArith.
From S2P Require Import Prelude.

Module Config.

Record config := {
  amp : bool;
  determ : bool;
  fold : Z;
  input_channels : nat;
  learning_rate : Q;
  learning_rate_gamma : Q;
  learning_rate_step_size : nat;
  num_images_per_batch : nat;
  num_epochs : nat;
  num_epochs_per_validation : nat;
  num_folds : Z;
  num_patches_per_image : nat;
  num_sw_batch_size : nat;
  output_classes : nat;
  overlap_ratio : Q;
  patch_size : nat * nat * nat;
  patch_size_valid : nat * nat * nat;
  spacing : list Q
}.

(** Lines 156-173, with [fold = int(args.fold)] and
    [num_folds = int(args.num_folds)]. *)
Definition driver_config (fold_arg num_folds_arg : Z) : config := {|
  amp := true;
  determ := false;
  fold := fold_arg;
  input_channels := 1%nat;
  learning_rate := 1 # 10000;
  learning_rate_gamma := 1;
  learning_rate_step_size := 1000%nat;
  num_images_per_batch := 2%nat;
  num_epochs := 1000%nat;
  num_epochs_per_validation := 20%nat;
  num_folds := num_folds_arg;
  num_patches_per_image := 1%nat;
  num_sw_batch_size := 6%nat;
  output_classes := 3%nat;
  overlap_ratio := 625 # 1000;
  patch_size := (96, 96, 96)%nat;
  patch_size_valid := (96, 96, 96)%nat;
  spacing := [1; 1; 1]
|}.

End Config.
