(* ===== verification/Cli.v ===== *)
(** The command line both drivers parse (train_dints.py 95-149,
    search_dints.py 96-150) and the two integers they read from it
    ([fold = int(args.fold)], [num_folds = int(args.num_folds)], train
    158/166).  [argparse] and [int] are library code: they are modelled
    here from CPython's behaviour for what the drivers use, store actions
    with one argument and the [-h/--help] action, on ASCII input.
    [parse_optional] follows [ArgumentParser._parse_optional] (exact option
    strings, [--opt=value], unambiguous abbreviations, negative numbers and
    strings with a space as arguments); [consume] follows the left-to-right
    loop of [_parse_known_args]; an error is [SystemExit(2)], the help
    [SystemExit(0)].  Combined short flags ([-hh]) are outside the model:
    [-hX] is an error, as it is when [-X] is no option. *)

From stdpp Require Import base list strings gmap.
From Stdlib Require Import Ascii ZArith Lia DecimalString DecimalPos.
From S2P Require Import Prelude Config.
Import Config.

Local Open Scope py_scope.

Module Cli.

(** ** [int(s)] and [str(z)] *)

(** [str.isspace] on ASCII: space, \t, \n, \v, \f, \r. *)
Definition is_space (c : ascii) : bool :=
  let n := nat_of_ascii c in (n =? 32) || ((9 <=? n) && (n <=? 13)).

Definition is_digit (c : ascii) : bool :=
  let n := nat_of_ascii c in (48 <=? n) && (n <=? 57).

Fixpoint lstrip (l : list ascii) : list ascii :=
  match l with c :: l' => if is_space c then lstrip l' else l | [] => [] end.

Definition strip (l : list ascii) : list ascii := rev (lstrip (rev (lstrip l))).

Fixpoint rest_ok (l : list ascii) : bool :=
  match l with
  | [] => true
  | c :: l' =>
      if Ascii.eqb c "_" then
        match l' with d :: l'' => is_digit d && rest_ok l'' | [] => false end
      else is_digit c && rest_ok l'
  end.

Definition digits_ok (l : list ascii) : bool :=
  match l with c :: l' => is_digit c && rest_ok l' | [] => false end.

(** The optional sign in front of the digits. *)
Definition sign (l : list ascii) : bool * list ascii :=
  match l with
  | c :: b => if Ascii.eqb c "-" then (true, b) else if Ascii.eqb c "+" then (false, b) else (false, l)
  | [] => (false, [])
  end.

Definition int_error : py_error := ValueError "invalid literal for int() with base 10".

Definition py_int (s : string) : result Z :=
  let l := strip (String.list_ascii_of_string s) in
  let '(neg, body) := sign l in
  if digits_ok body then
    match NilEmpty.uint_of_string
            (String.string_of_list_ascii (filter (fun c => negb (Ascii.eqb c "_")) body)) with
    | Some d => let n := Z.of_N (N.of_uint d) in Ok (if neg then (- n)%Z else n)
    | None => raise int_error
    end
  else raise int_error.

Definition py_str (z : Z) : string :=
  match z with
  | Z0 => "0"
  | Zpos p => NilEmpty.string_of_uint (Pos.to_uint p)
  | Zneg p => String "-" (NilEmpty.string_of_uint (Pos.to_uint p))
  end.

(** ** argparse *)

(** The values argparse tests for truth: [required=True] or [required=int]. *)
Inductive pyobj := PBool (b : bool) | PClass (name : string).
Definition truthy (o : pyobj) : bool := match o with PBool b => b | PClass _ => true end.

Inductive action := Store (required : pyobj) (default : option string) | Help.

Record opt := { opt_strings : list string; opt_dest : string; opt_action : action }.

(** [parser.add_argument("--name", action="store", required=..., default=...)]. *)
Definition add_argument (name : string) (required : pyobj) (default : option string) : opt :=
  {| opt_strings := ["--" +:+ name]; opt_dest := name; opt_action := Store required default |}.

(** [ArgumentParser(add_help=True)] registers [-h, --help] first. *)
Definition help_opt : opt := {| opt_strings := ["-h"; "--help"]; opt_dest := "help"; opt_action := Help |}.

(** A command-line token after [_parse_optional]. *)
Inductive tok :=
| TOpt (o : opt) (s : string) (explicit : option string)
| TUnknown (s : string)
| TArg (s : string)
| TDashDash.

Definition option_strings (p : list opt) : list (opt * string) :=
  concat ((fun o => (fun s => (o, s)) <$> opt_strings o) <$> p).

Definition exact (p : list opt) (s : string) : option opt :=
  fst <$> head (filter (fun os => os.2 = s) (option_strings p)).

(** [arg_string.split('=', 1)]. *)
Fixpoint split_eq (s : string) : option (string * string) :=
  match s with
  | EmptyString => None
  | String c s' =>
      if Ascii.eqb c "=" then Some (EmptyString, s')
      else (fun '(a, b) => (String c a, b)) <$> split_eq s'
  end.

Fixpoint break_dot (l : list ascii) : option (list ascii * list ascii) :=
  match l with
  | [] => None
  | c :: l' => if Ascii.eqb c "." then Some ([], l') else (fun '(a, b) => (c :: a, b)) <$> break_dot l'
  end.

Definition digits1 (l : list ascii) : bool := negb (bool_decide (l = [])) && forallb is_digit l.

(** [_negative_number_matcher]: [^-\d+$|^-\d*\.\d+$]. *)
Definition negative_number (s : string) : bool :=
  match String.list_ascii_of_string s with
  | c :: l =>
      Ascii.eqb c "-" &&
      (digits1 l || match break_dot l with Some (a, b) => forallb is_digit a && digits1 b | None => false end)
  | [] => false
  end.

(** [_get_option_tuples]: the options an abbreviation may stand for. *)
Definition option_tuples (p : list opt) (s : string) : list (opt * string * option string) :=
  if String.prefix "--" s then
    let '(pre, ea) := match split_eq s with Some (a, b) => (a, Some b) | None => (s, None) end in
    (fun '(o, os) => (o, os, ea)) <$> filter (fun os => String.prefix pre os.2 = true) (option_strings p)
  else
    let short := String.substring 0 2 s in
    omap (fun '(o, os) =>
            if bool_decide (os = short) then Some (o, os, Some (String.substring 2 (String.length s - 2) s))
            else if String.prefix s os then Some (o, os, None) else None)
         (option_strings p).

(** [_parse_optional]. *)
Definition parse_optional (p : list opt) (s : string) : result tok :=
  if negb (String.prefix "-" s) || bool_decide (s = "") then Ok (TArg s)
  else match exact p s with
  | Some o => Ok (TOpt o s None)
  | None =>
    if bool_decide (String.length s = 1) then Ok (TArg s)
    else match (match split_eq s with
                | Some (os, ea) => (fun o => (o, os, ea)) <$> exact p os
                | None => None
                end) with
    | Some (o, os, ea) => Ok (TOpt o os (Some ea))
    | None =>
      match option_tuples p s with
      | [(o, os, ea)] => Ok (TOpt o os ea)
      | _ :: _ :: _ => raise (SystemExit 2)
      | [] => if negative_number s then Ok (TArg s)
              else if bool_decide (" "%char ∈ String.list_ascii_of_string s) then Ok (TArg s)
              else Ok (TUnknown s)
      end
    end
  end.

(** The classification of all tokens; after ["--"] every token is an argument. *)
Fixpoint classify (p : list opt) (argv : list string) : result (list tok) :=
  match argv with
  | [] => Ok []
  | s :: argv' =>
      if bool_decide (s = "--") then Ok (TDashDash :: (TArg <$> argv'))
      else let* t := parse_optional p s in
           let* ts := classify p argv' in
           Ok (t :: ts)
  end.

(** [consume_optional] and [consume_positionals] of [_parse_known_args],
    left to right: a store action takes its explicit argument or the next
    token, which must be an argument; [--help] prints the help and exits;
    unknown options and arguments (the parser has no positionals) are the
    extras. *)
Fixpoint consume (toks : list tok) (seen : gmap string string) (extras : list string)
    : result (gmap string string * list string) :=
  match toks with
  | [] => Ok (seen, extras)
  | TOpt o s ea :: rest =>
      match opt_action o, ea with
      | Store _ _, Some v => consume rest (<[opt_dest o := v]> seen) extras
      | Store _ _, None =>
          match rest with
          | TArg v :: rest' => consume rest' (<[opt_dest o := v]> seen) extras
          | _ => raise (SystemExit 2)
          end
      | Help, None => raise (SystemExit 0)
      | Help, Some _ => raise (SystemExit 2)
      end
  | TUnknown s :: rest => consume rest seen (extras ++ [s])
  | TArg s :: rest => consume rest seen (extras ++ [s])
  | TDashDash :: rest => consume rest seen (extras ++ ["--"])
  end.

Definition required_dests (p : list opt) : list string :=
  omap (fun o => match opt_action o with Store r _ => if truthy r then Some (opt_dest o) else None | Help => None end) p.

(** [args.dest] for each store action: the last value given, or the default. *)
Definition namespace := gmap string (option string).

Definition make_namespace (p : list opt) (seen : gmap string string) : namespace :=
  list_to_map (omap (fun o => match opt_action o with
                              | Store _ d => Some (opt_dest o, match seen !! opt_dest o with Some v => Some v | None => d end)
                              | Help => None
                              end) p).

(** [parser.parse_args(argv)]: an error is [SystemExit(2)]. *)
Definition parse_args (p : list opt) (argv : list string) : result namespace :=
  let* toks := classify p argv in
  let* r := consume toks ∅ [] in
  if bool_decide (Forall (fun d => is_Some (r.1 !! d)) (required_dests p)) then
    if bool_decide (r.2 = []) then Ok (make_namespace p r.1) else raise (SystemExit 2)
  else raise (SystemExit 2).

(** [argparse.ArgumentParser(description="training")] with the arguments
    of train_dints.py 95-148 (search_dints.py 96-149).  [--local_rank]
    is declared [required=int]: the class [int] is truthy, so the option
    is required. *)
Definition driver_parser : list opt := [
  help_opt;
  add_argument "arch_ckpt" (PBool true) None;
  add_argument "checkpoint" (PBool false) None;
  add_argument "fold" (PBool true) None;
  add_argument "json" (PBool true) None;
  add_argument "json_key" (PBool true) None;
  add_argument "local_rank" (PClass "int") None;
  add_argument "num_folds" (PBool true) None;
  add_argument "output_root" (PBool true) None;
  add_argument "root" (PBool true) None].

(** train_dints.py 158 and 166: [int(args.fold)] on the parsed
    namespace ([int(None)] is a TypeError). *)
Definition arg_int (ns : namespace) (d : string) : result Z :=
  match ns !! d with
  | Some (Some v) => py_int v
  | _ => raise (TypeError "int() argument must be a string, a bytes-like object or a real number")
  end.

(** [args = parser.parse_args()], then the configuration of lines
    156-173 with [fold = int(args.fold)] and
    [num_folds = int(args.num_folds)]. *)
Definition main_config (argv : list string) : result config :=
  let* ns := parse_args driver_parser argv in
  let* fold := arg_int ns "fold" in
  let* num_folds := arg_int ns "num_folds" in
  Ok (driver_config fold num_folds).

(** ** Specification of a command line *)

(** The dests of the store actions. *)
Definition store_names : list string :=
  ["arch_ckpt"; "checkpoint"; "fold"; "json"; "json_key"; "local_rank"; "num_folds";
   "output_root"; "root"].

(** [--name value] for each pair, in order. *)
Definition render (vals : list (string * string)) : list string :=
  concat ((fun nv => ["--" +:+ nv.1; nv.2]) <$> vals).

(** Options the parser knows, with values that do not look like options. *)
Definition plain_args (vals : list (string * string)) : Prop :=
  Forall (fun nv => nv.1 ∈ store_names /\ String.prefix "-" nv.2 = false) vals.

(** The value of the last pair naming [d]: argparse keeps the last. *)
Fixpoint last_value (vals : list (string * string)) (d : string) : option string :=
  match vals with
  | [] => None
  | nv :: vals' =>
      match last_value vals' d with
      | Some w => Some w
      | None => if bool_decide (nv.1 = d) then Some nv.2 else None
      end
  end.

(** ** Lemmas *)

Lemma digits_of_uint d : Forall (fun c => is_digit c = true) (String.list_ascii_of_string (NilEmpty.string_of_uint d)).
Proof. induction d; simpl; constructor; auto. Qed.

Lemma rest_ok_digits l : Forall (fun c => is_digit c = true) l -> rest_ok l = true.
Proof.
  induction 1 as [|c l Hc _ IH]; [done|]. simpl.
  destruct (Ascii.eqb_spec c "_") as [->|]; [done|]. by rewrite Hc, IH.
Qed.

Lemma filter_digits l : Forall (fun c => is_digit c = true) l -> filter (fun c => negb (Ascii.eqb c "_")) l = l.
Proof.
  induction 1 as [|c l Hc _ IH]; [done|]. rewrite filter_cons.
  destruct (Ascii.eqb_spec c "_") as [->|]; [done|]. simpl. by rewrite IH.
Qed.

Lemma digit_not_space c : is_digit c = true -> is_space c = false.
Proof.
  unfold is_digit, is_space. set (n := nat_of_ascii c).
  destruct (Nat.eqb_spec n 32), (Nat.leb_spec 9 n), (Nat.leb_spec n 13), (Nat.leb_spec 48 n),
    (Nat.leb_spec n 57); simpl; lia.
Qed.

Lemma digit_not_sign c : is_digit c = true -> Ascii.eqb c "-" = false /\ Ascii.eqb c "+" = false.
Proof.
  intros H. split; destruct (Ascii.eqb_spec c "-"), (Ascii.eqb_spec c "+"); subst; done.
Qed.

Lemma lstrip_id c l : is_space c = false -> lstrip (c :: l) = c :: l.
Proof. simpl. by intros ->. Qed.

Lemma strip_id l :
  (forall c l', l = c :: l' -> is_space c = false) ->
  (forall l' d, l = l' ++ [d] -> is_space d = false) -> strip l = l.
Proof.
  intros Hh Ht. unfold strip. destruct l as [|c l0]; [done|].
  rewrite lstrip_id by (by eapply Hh).
  destruct (exists_last (l:=c :: l0) ltac:(done)) as (l' & d & Heq). rewrite Heq, rev_unit.
  rewrite lstrip_id by (by eapply Ht). by rewrite <- rev_unit, rev_involutive.
Qed.

Lemma uint_string_nonempty p : String.list_ascii_of_string (NilEmpty.string_of_uint (Pos.to_uint p)) <> [].
Proof.
  pose proof (Unsigned.to_uint_nonnil p). destruct (Pos.to_uint p); simpl; done.
Qed.

Lemma py_int_digits (neg : bool) p l :
  l = String.list_ascii_of_string (NilEmpty.string_of_uint (Pos.to_uint p)) ->
  sign (strip ((if neg then ["-"%char] else []) ++ l)) = (neg, l) ->
  py_int (String.string_of_list_ascii ((if neg then ["-"%char] else []) ++ l))
  = Ok (if neg then Zneg p else Zpos p).
Proof.
  intros Hl Hs. unfold py_int. rewrite String.list_ascii_of_string_of_list_ascii, Hs.
  pose proof (digits_of_uint (Pos.to_uint p)) as Hd. rewrite <- Hl in Hd.
  pose proof (uint_string_nonempty p) as Hne. rewrite <- Hl in Hne.
  destruct l as [|c l']; [done|]. apply Forall_cons in Hd as Hd'. destruct Hd' as [Hc Hl'].
  cbn [digits_ok]. rewrite Hc, rest_ok_digits by done. cbn [andb].
  rewrite filter_digits by done. rewrite Hl, String.string_of_list_ascii_of_string, NilEmpty.usu.
  cbn [N.of_uint]. rewrite Unsigned.of_to. by destruct neg.
Qed.

(** [int(str(z)) == z]. *)
Lemma py_int_str z : py_int (py_str z) = Ok z.
Proof.
  destruct z as [|p|p]; [reflexivity| |].
  all: cbn [py_str].
  all: rewrite <- (String.string_of_list_ascii_of_string (NilEmpty.string_of_uint _)).
  all: remember (String.list_ascii_of_string (NilEmpty.string_of_uint (Pos.to_uint p))) as l eqn:Hl.
  all: pose proof (digits_of_uint (Pos.to_uint p)) as Hd; rewrite <- Hl in Hd.
  all: pose proof (uint_string_nonempty p) as Hne; rewrite <- Hl in Hne.
  all: assert (Hlast : forall l' d, l = l' ++ [d] -> is_space d = false)
         by (intros l' d Heq; rewrite Heq, Forall_app, Forall_singleton in Hd; apply digit_not_space, Hd).
  all: destruct l as [|c l0]; [done|]; apply Forall_cons in Hd as [Hc _].
  - apply (py_int_digits false p (c :: l0)); [done|]. cbn [app].
    rewrite strip_id; [|intros ? ? [= <- _]; by apply digit_not_space|done].
    cbn [sign]. by destruct (digit_not_sign c Hc) as [-> ->].
  - change (String "-" (String.string_of_list_ascii (c :: l0)))
      with (String.string_of_list_ascii (["-"%char] ++ c :: l0)).
    apply (py_int_digits true p (c :: l0)); [done|]. cbn [app].
    rewrite strip_id; [done|intros ? ? [= <- _]; done|].
    intros l' d Heq. destruct l' as [|x l']; [discriminate|]. injection Heq as _ Heq. by eapply Hlast.
Qed.


(** Case analysis on a name of [store_names]. *)
Ltac store_cases H := unfold store_names in H; set_unfold in H; destruct_or! H; subst; try contradiction.

Lemma classify_store n v rest :
  n ∈ store_names -> String.prefix "-" v = false ->
  exists r, classify driver_parser (("--" +:+ n) :: v :: rest)
            = let* ts := classify driver_parser rest in
              Ok (TOpt (add_argument n r None) ("--" +:+ n) None :: TArg v :: ts).
Proof.
  intros Hn Hv. assert (Hvd : bool_decide (v = "--") = false).
  { apply bool_decide_eq_false. intros ->. discriminate. }
  assert (Hpv : parse_optional driver_parser v = Ok (TArg v)) by (unfold parse_optional; by rewrite Hv).
  store_cases Hn; eexists; cbn [classify]; rewrite Hvd, Hpv; cbn [bind];
    destruct (classify driver_parser rest); reflexivity.
Qed.

(** A rendered command line is classified option by option and each
    value lands in [seen], later ones over earlier ones. *)
Lemma render_parse vals seen :
  plain_args vals ->
  exists toks, classify driver_parser (render vals) = Ok toks
    /\ consume toks seen [] = Ok (foldl (fun m nv => <[nv.1 := nv.2]> m) seen vals, []).
Proof.
  intros Hv. revert seen. induction Hv as [|[n v] vals [Hn Hp] _ IH]; intros seen; [by eexists|].
  cbn [render fmap list_fmap concat app fst snd]. fold (render vals).
  destruct (classify_store n v (render vals) Hn Hp) as [r ->].
  destruct (IH (<[n := v]> seen)) as (toks & -> & Hc). cbn [bind].
  eexists. split; [reflexivity|]. exact Hc.
Qed.

Lemma foldl_insert_lookup vals (seen : gmap string string) d :
  foldl (fun m nv => <[nv.1 := nv.2]> m) seen vals !! d
  = match last_value vals d with Some w => Some w | None => seen !! d end.
Proof.
  revert seen. induction vals as [|[n v] vals IH]; intros seen; [done|]. cbn [foldl last_value fst snd].
  rewrite IH. destruct (last_value vals d); [done|]. rewrite lookup_insert.
  by destruct (decide (n = d)); [rewrite bool_decide_true|rewrite bool_decide_false].
Qed.

Lemma last_value_in vals d : d ∈ vals.*1 -> is_Some (last_value vals d).
Proof.
  induction vals as [|[n v] vals IH]; cbn; [by intros ?%not_elem_of_nil|].
  intros [->|Hd]%elem_of_cons.
  - destruct (last_value vals n); [done|]. by rewrite bool_decide_true.
  - destruct (IH Hd) as [w ->]. by eexists.
Qed.

Lemma make_namespace_lookup seen d :
  d ∈ store_names -> make_namespace driver_parser seen !! d = Some (seen !! d).
Proof.
  intros Hd. transitivity (Some (match seen !! d with Some v => Some v | None => None end)).
  - store_cases Hd; reflexivity.
  - by destruct (seen !! d).
Qed.

Lemma last_value_notin vals d : d ∉ vals.*1 -> last_value vals d = None.
Proof.
  induction vals as [|[n v] vals IH]; cbn; [done|]. intros Hd.
  rewrite IH by set_solver. rewrite bool_decide_false by set_solver. done.
Qed.

(** What [parse_args] makes of a rendered command line. *)
Lemma parse_args_render vals :
  plain_args vals ->
  parse_args driver_parser (render vals)
  = let seen := foldl (fun m nv => <[nv.1 := nv.2]> m) ∅ vals in
    if bool_decide (Forall (fun d => is_Some (seen !! d)) (required_dests driver_parser))
    then Ok (make_namespace driver_parser seen) else raise (SystemExit 2).
Proof.
  intros Hv. destruct (render_parse vals ∅ Hv) as (toks & Hcl & Hc).
  unfold parse_args. rewrite Hcl. cbn [bind]. rewrite Hc. cbn [bind fst snd].
  by rewrite (bool_decide_true ([] = [])).
Qed.

Lemma parse_args_ok vals :
  plain_args vals -> (forall d, d ∈ required_dests driver_parser -> d ∈ vals.*1) ->
  exists ns, parse_args driver_parser (render vals) = Ok ns
    /\ forall d, d ∈ store_names -> ns !! d = Some (last_value vals d).
Proof.
  intros Hv Hreq. rewrite parse_args_render by done. cbn zeta.
  rewrite bool_decide_true.
  - eexists. split; [reflexivity|]. intros d Hd.
    rewrite make_namespace_lookup, foldl_insert_lookup by done. by destruct (last_value vals d).
  - apply Forall_forall. intros d Hd. rewrite foldl_insert_lookup.
    by destruct (last_value_in _ _ (Hreq d Hd)) as [w ->].
Qed.

(** ** Properties of the command line *)

(** C11. Round trip of the command line: every [--name value] pair of
    options the drivers declare, with values that do not start with a
    dash, covering the required options, parses to a namespace whose
    attribute for each option is the value of its last occurrence, or
    [None] when it is not given ([--checkpoint]). *)
Theorem parse_args_roundtrip vals :
  plain_args vals -> (forall d, d ∈ required_dests driver_parser -> d ∈ vals.*1) ->
  exists ns, parse_args driver_parser (render vals) = Ok ns
    /\ forall d, d ∈ store_names -> ns !! d = Some (last_value vals d).
Proof. apply parse_args_ok. Qed.

(** C24. [--local_rank] is declared with [required=int]: the class [int] is
    truthy, so the option is required, and a command line without it (as
    torchrun, which passes the rank in the environment, produces) makes
    [parse_args] exit with status 2, however complete the rest is. *)
Theorem parse_args_local_rank_required vals :
  plain_args vals -> "local_rank" ∉ vals.*1 ->
  parse_args driver_parser (render vals) = Err (SystemExit 2).
Proof.
  intros Hv Hn. rewrite parse_args_render by done. cbn zeta.
  rewrite bool_decide_false; [done|]. intros HF. rewrite Forall_forall in HF.
  destruct (HF "local_rank") as [w Hw]; [cbn; set_solver|].
  by rewrite foldl_insert_lookup, last_value_notin, lookup_empty in Hw.
Qed.

(** C39. The configuration [main] builds from its command line: with the
    fold and the fold count given as decimal numerals ([str] of
    non-negative integers), [int(args.fold)] and [int(args.num_folds)]
    read them back and the configuration is [driver_config fold
    num_folds]. *)
Theorem main_config_args vals (f k : nat) :
  plain_args vals -> (forall d, d ∈ required_dests driver_parser -> d ∈ vals.*1) ->
  last_value vals "fold" = Some (py_str (Z.of_nat f)) ->
  last_value vals "num_folds" = Some (py_str (Z.of_nat k)) ->
  main_config (render vals) = Ok (driver_config (Z.of_nat f) (Z.of_nat k)).
Proof.
  intros Hv Hreq Hf Hk. destruct (parse_args_ok vals Hv Hreq) as (ns & Hns & Hlook).
  unfold main_config. rewrite Hns. cbn [bind]. unfold arg_int.
  rewrite Hlook, Hf by (unfold store_names; set_solver). cbn [bind]. rewrite py_int_str. cbn [bind].
  rewrite Hlook, Hk by (unfold store_names; set_solver). cbn [bind]. by rewrite py_int_str.
Qed.

(** ** Witnesses *)

Definition demo_vals : list (string * string) :=
  [("arch_ckpt", "search_code_280.pth"); ("fold", "0"); ("json", "dataset.json");
   ("json_key", "training"); ("local_rank", "0"); ("num_folds", "5");
   ("output_root", "out"); ("root", "/data"); ("fold", "1")].

Lemma demo_vals_plain : plain_args demo_vals.
Proof. repeat constructor. Qed.

Lemma demo_vals_required d : d ∈ required_dests driver_parser -> d ∈ demo_vals.*1.
Proof. cbn. set_solver. Qed.

Lemma parse_args_roundtrip_witness :
  plain_args demo_vals /\ (forall d, d ∈ required_dests driver_parser -> d ∈ demo_vals.*1)
  /\ exists ns, parse_args driver_parser (render demo_vals) = Ok ns
       /\ forall d, d ∈ store_names -> ns !! d = Some (last_value demo_vals d).
Proof.
  split; [exact demo_vals_plain|]. split; [exact demo_vals_required|].
  exact (parse_args_roundtrip demo_vals demo_vals_plain demo_vals_required).
Defined.

Lemma parse_args_local_rank_required_witness :
  plain_args (delete 4 demo_vals) /\ "local_rank" ∉ (delete 4 demo_vals).*1
  /\ parse_args driver_parser (render (delete 4 demo_vals)) = Err (SystemExit 2).
Proof.
  assert (H1 : plain_args (delete 4 demo_vals)) by (repeat constructor).
  assert (H2 : "local_rank" ∉ (delete 4 demo_vals).*1) by (cbn; set_solver).
  split; [exact H1|]. split; [exact H2|]. exact (parse_args_local_rank_required _ H1 H2).
Defined.

Lemma main_config_args_witness :
  plain_args demo_vals /\ (forall d, d ∈ required_dests driver_parser -> d ∈ demo_vals.*1)
  /\ last_value demo_vals "fold" = Some (py_str (Z.of_nat 1))
  /\ last_value demo_vals "num_folds" = Some (py_str (Z.of_nat 5))
  /\ main_config (render demo_vals) = Ok (driver_config (Z.of_nat 1) (Z.of_nat 5)).
Proof.
  assert (Hf : last_value demo_vals "fold" = Some (py_str (Z.of_nat 1))) by reflexivity.
  assert (Hk : last_value demo_vals "num_folds" = Some (py_str (Z.of_nat 5))) by reflexivity.
  split; [exact demo_vals_plain|]. split; [exact demo_vals_required|].
  split; [exact Hf|]. split; [exact Hk|].
  exact (main_config_args demo_vals 1 5 demo_vals_plain demo_vals_required Hf Hk).
Defined.

End Cli.
