(* ===== verification/Train.v ===== *)
(** The training driver's rank-0 state across its epoch loop
    (train_dints.py 349-543): the pass over the rank's batches with the
    loss accumulator [loss_torch] and the iteration counter [idx_iter]
    (389-428), the cross-rank average loss (430-436), the validation
    (Metric) and the report of rank 0 (507-538): best metric, best epoch,
    [best_metric_model.pth], [progress.yaml] and [accuracy_history.csv].
    The network is an oracle: each epoch's input gives every rank's batch
    losses and the Dice rows of its validation cases. *)

From stdpp Require Import base list sets.
From Stdlib Require Import QArith ZArith Lia Lqa.
From S2P Require Import Prelude Metric Config.
Import Metric Config.

Local Open Scope py_scope.
Local Open Scope nat_scope.

Module Train.

(** A line of accuracy_history.csv: the header of line 364 or the row of
    line 538 (epoch, metric, loss, lr, time, iter). *)
Inductive csv_line :=
| csv_header
| csv_row (epoch : Z) (metric loss lr time : Q) (iter : nat).

(** progress.yaml (lines 522-527). *)
Record progress := {
  best_avg_dice_score : Q;
  best_avg_dice_score_epoch : Z;
  best_avg_dice_score_iteration : nat
}.

(** Rank 0's bookkeeping (lines 349-353) and the files it writes. *)
Record state := {
  best_metric : Q;
  best_metric_epoch : Z;
  idx_iter : nat;
  history_file : list csv_line;
  progress_file : option progress;
  best_model_saves : list Z
}.

(** Lines 349-364: the counters, and the header appended to
    accuracy_history.csv (opened in mode "a" over what [existing] holds). *)
Definition init_state (existing : list csv_line) : state := {|
  best_metric := (-1)%Q;
  best_metric_epoch := (-1)%Z;
  idx_iter := 0;
  history_file := existing ++ [csv_header];
  progress_file := None;
  best_model_saves := []
|}.

(** What one epoch of the run depends on besides the state. *)
Record epoch_input := {
  batch_losses : list (list Q);               (* per rank: [loss.item()] of each batch *)
  val_dice : list (list (list (option Q)));   (* per rank: Dice row of each case *)
  elapsed : Q                                 (* [(time.time() - start_time) / 60.0] *)
}.

(** Lines 392-428 on one rank: per batch [loss_torch[0] += loss],
    [loss_torch[1] += 1.0], [idx_iter += 1]. *)
Fixpoint train_pass (losses : list Q) (loss_torch : list Q) (iter : nat) : list Q * nat :=
  match losses with
  | [] => (loss_torch, iter)
  | loss :: losses =>
      let loss_torch := alter (fun x => x + loss)%Q 0 loss_torch in
      let loss_torch := alter (fun x => x + 1)%Q 1 loss_torch in
      train_pass losses loss_torch (S iter)
  end.

(** Lines 389-428 on one rank: [loss_torch = torch.zeros(2)] at the start
    of the epoch, then the pass over its batches. *)
Definition rank_loss_torch (losses : list Q) : list Q :=
  fst (train_pass losses (replicate 2 0%Q) 0).

(** Lines 430-435: [dist.all_reduce(loss_torch, SUM)], then on rank 0
    [loss_torch[0] / loss_torch[1]]. *)
Definition epoch_loss (loss_torchs : list (list Q)) : result Q :=
  let loss_torch := all_reduce_sum 2 loss_torchs in
  let* total := getitem loss_torch 0 in
  let* count := getitem loss_torch 1 in
  py_truediv total count.

(** Lines 516-538 on rank 0: a strictly better [avg_metric] becomes the
    best, its epoch [epoch + 1] is recorded, the weights are saved and
    progress.yaml rewritten; a row is appended to accuracy_history.csv in
    any case. *)
Definition train_report (cfg : config) (epoch : nat) (avg loss lr time : Q) (st : state) : state :=
  let st :=
    if Qle_bool avg (best_metric st) then st
    else {| best_metric := avg;
            best_metric_epoch := (Z.of_nat epoch + 1)%Z;
            idx_iter := idx_iter st;
            history_file := history_file st;
            progress_file := Some {| best_avg_dice_score := avg;
                                     best_avg_dice_score_epoch := (Z.of_nat epoch + 1)%Z;
                                     best_avg_dice_score_iteration := idx_iter st |};
            best_model_saves := best_model_saves st ++ [(Z.of_nat epoch + 1)%Z] |} in
  {| best_metric := best_metric st;
     best_metric_epoch := best_metric_epoch st;
     idx_iter := idx_iter st;
     history_file := history_file st
       ++ [csv_row (Z.of_nat ((epoch + 1) * num_epochs_per_validation cfg)) avg loss lr time (idx_iter st)];
     progress_file := progress_file st;
     best_model_saves := best_model_saves st |}.

(** One iteration of the epoch loop (lines 380-543), seen from rank 0.
    No scheduler is set, so [optimizer.param_groups[0]["lr"]] stays
    [learning_rate]. *)
Definition train_epoch (cfg : config) (epoch : nat) (inp : epoch_input) (st : state) : result state :=
  let C := output_classes cfg in
  let iter := match batch_losses inp with
              | losses0 :: _ => snd (train_pass losses0 (replicate 2 0%Q) (idx_iter st))
              | [] => idx_iter st
              end in
  let* loss := epoch_loss (rank_loss_torch <$> batch_losses inp) in
  let* ms := map_result (fun values => validate C values (metric_zeros C)) (val_dice inp) in
  let* avg := avg_metric C (all_reduce_sum ((C - 1) * 2) ms) in
  Ok (train_report cfg epoch avg loss (learning_rate cfg) (elapsed inp)
        {| best_metric := best_metric st; best_metric_epoch := best_metric_epoch st;
           idx_iter := iter; history_file := history_file st;
           progress_file := progress_file st; best_model_saves := best_model_saves st |}).

Fixpoint train_loop (cfg : config) (inputs : nat -> epoch_input) (epochs : list nat) (st : state)
    : result state :=
  match epochs with
  | [] => Ok st
  | epoch :: epochs =>
      let* st := train_epoch cfg epoch (inputs epoch) st in
      train_loop cfg inputs epochs st
  end.

(** Line 367: [for epoch in range(num_epochs // num_epochs_per_validation)]. *)
Definition train_run (cfg : config) (existing : list csv_line) (inputs : nat -> epoch_input)
    : result state :=
  let* n := py_floordiv (Z.of_nat (num_epochs cfg)) (Z.of_nat (num_epochs_per_validation cfg)) in
  train_loop cfg inputs (seq 0 (Z.to_nat n)) (init_state existing).

(** ** The invariant of rank 0's bookkeeping *)

(** Row [i] of this run's accuracy_history.csv is labelled epoch
    [(i + 1) * num_epochs_per_validation]. *)
Definition rows_labelled (cfg : config) (rows : list csv_line) : Prop :=
  forall i line, rows !! i = Some line ->
    exists m l lr t it, line = csv_row (Z.of_nat ((i + 1) * num_epochs_per_validation cfg)) m l lr t it.

(** The best metric bounds every row and is the metric of the first row
    reaching it; its epoch, progress.yaml and the last weights saved all
    point to that row. *)
Definition best_consistent (cfg : config) (rows : list csv_line) (st : state) : Prop :=
  (forall i ep m l lr t it, rows !! i = Some (csv_row ep m l lr t it) -> (m <= best_metric st)%Q)
  /\ ((best_metric st = (-1)%Q /\ best_metric_epoch st = (-1)%Z
       /\ progress_file st = None /\ best_model_saves st = [])
      \/ exists i ep l lr t it,
           rows !! i = Some (csv_row ep (best_metric st) l lr t it)
           /\ best_metric_epoch st = (Z.of_nat i + 1)%Z
           /\ (forall j ep' m' l' lr' t' it', j < i ->
                 rows !! j = Some (csv_row ep' m' l' lr' t' it') -> (m' < best_metric st)%Q)
           /\ progress_file st = Some {| best_avg_dice_score := best_metric st;
                                         best_avg_dice_score_epoch := (Z.of_nat i + 1)%Z;
                                         best_avg_dice_score_iteration := it |}
           /\ last (best_model_saves st) = Some (Z.of_nat i + 1)%Z).

(** The number of batches of rank 0 in an epoch. *)
Definition rank0_batches (inp : epoch_input) : nat :=
  match batch_losses inp with losses0 :: _ => length losses0 | [] => 0 end.

(** ** The loss accumulator *)

Section LossFacts.
Local Open Scope Q_scope.

(** One rank's pass: the sum of its losses and the number of its batches. *)
Lemma train_pass_closed (losses : list Q) (a b : Q) (iter : nat) :
  train_pass losses [a; b] iter
  = ([foldl Qplus a losses; foldl (fun x _ => x + 1) b losses], (iter + length losses)%nat).
Proof.
  revert a b iter. induction losses as [|l ls IH]; intros a b iter; simpl.
  - by rewrite Nat.add_0_r.
  - rewrite IH. f_equal. lia.
Qed.

Lemma foldl_count {X} (b : Q) (l : list X) :
  foldl (fun x _ => x + 1) b l == b + inject_Z (Z.of_nat (length l)).
Proof.
  revert b. induction l as [|x l IH]; intros b; simpl; [ring|].
  rewrite IH, Nat2Z.inj_succ, <- Z.add_1_l, inject_Z_plus. ring.
Qed.

(** All ranks' losses, and their number. *)
Definition total_loss (batch_losses : list (list Q)) : Q :=
  foldr (fun losses acc => foldl Qplus 0 losses + acc) 0 batch_losses.

Definition total_batches (batch_losses : list (list Q)) : nat :=
  foldr (fun losses acc => length losses + acc)%nat 0%nat batch_losses.

Lemma pass_firsts (bl : list (list Q)) :
  foldr (fun m acc => default 0 (m !! 0%nat) + acc) 0
    (rank_loss_torch <$> bl) = total_loss bl.
Proof.
  induction bl as [|ls bl IH]; [done|].
  rewrite fmap_cons. cbn [foldr]. rewrite IH. unfold rank_loss_torch. cbn [replicate]. by rewrite train_pass_closed.
Qed.

Lemma pass_seconds (bl : list (list Q)) :
  foldr (fun m acc => default 0 (m !! 1%nat) + acc) 0
    (rank_loss_torch <$> bl)
  == inject_Z (Z.of_nat (total_batches bl)).
Proof.
  induction bl as [|ls bl IH]; [reflexivity|].
  rewrite fmap_cons. cbn [foldr]. rewrite IH. unfold rank_loss_torch. cbn [replicate]. rewrite train_pass_closed.
  cbn [default lookup list_lookup fst]. unfold total_batches. cbn [foldr].
  rewrite foldl_count, Nat2Z.inj_add, inject_Z_plus. fold (total_batches bl). unfold id. ring.
Qed.

(** The cross-rank accumulator holds the total loss and the total number
    of batches. *)
Lemma epoch_loss_sums (bl : list (list Q)) :
  let loss_torchs := rank_loss_torch <$> bl in
  all_reduce_sum 2 loss_torchs !! 0%nat = Some (total_loss bl)
  /\ exists count, all_reduce_sum 2 loss_torchs !! 1%nat = Some count
       /\ count == inject_Z (Z.of_nat (total_batches bl)).
Proof.
  intros loss_torchs.
  assert (Hl : Forall (fun m => length m = 2%nat) loss_torchs).
  { apply Forall_fmap, Forall_forall. intros ls _. unfold rank_loss_torch. simpl. by rewrite train_pass_closed. }
  rewrite !all_reduce_sum_lookup by (done || lia).
  unfold loss_torchs. split; [by rewrite pass_firsts|]. eexists; split; [done|]. apply pass_seconds.
Qed.
End LossFacts.

(** The loss division raises only what [getitem] and [/] raise. *)
Lemma epoch_loss_raises (P : py_error -> Prop) (loss_torchs : list (list Q)) :
  P IndexError -> P ZeroDivisionError -> raises_only P (epoch_loss loss_torchs).
Proof.
  intros HI HZ. unfold epoch_loss.
  apply raises_only_bind; [by apply raises_only_getitem|intros total _].
  apply raises_only_bind; [by apply raises_only_getitem|intros count _].
  by apply raises_only_py_truediv.
Qed.

(** ** Preservation by the report of one epoch *)

Lemma lookup_snoc_lt {X} (l : list X) (x : X) i : i < length l -> (l ++ [x]) !! i = l !! i.
Proof. intros Hi. by apply lookup_app_l. Qed.

Lemma lookup_snoc_eq {X} (l : list X) (x : X) : (l ++ [x]) !! length l = Some x.
Proof. by rewrite lookup_app_r, Nat.sub_diag by lia. Qed.

Lemma lookup_snoc_Some {X} (l : list X) (x y : X) i :
  (l ++ [x]) !! i = Some y -> (i < length l /\ l !! i = Some y) \/ (i = length l /\ y = x).
Proof.
  intros H. destruct (decide (i < length l)).
  - left. by rewrite lookup_snoc_lt in H.
  - right. apply lookup_lt_Some in H as Hl. rewrite length_app in Hl. simpl in Hl.
    assert (i = length l) as -> by lia. rewrite lookup_snoc_eq in H. by injection H.
Qed.

Lemma train_report_labelled cfg epoch avg loss lr time st rows :
  length rows = epoch -> rows_labelled cfg rows ->
  rows_labelled cfg (rows ++ [csv_row (Z.of_nat ((epoch + 1) * num_epochs_per_validation cfg))
                                avg loss lr time (idx_iter st)]).
Proof.
  intros Hlen Hlab i line [[Hi Hl] | [-> ->]]%lookup_snoc_Some; [by apply Hlab|].
  rewrite Hlen. eauto 6.
Qed.

(** A row that does not beat the best leaves the bookkeeping consistent. *)
Lemma best_consistent_keep cfg rows st row_ep avg loss lr time it :
  (avg <= best_metric st)%Q -> best_consistent cfg rows st ->
  best_consistent cfg (rows ++ [csv_row row_ep avg loss lr time it]) st.
Proof.
  intros Hle [Hbound Hbest]. split.
  - intros i ep m l lr' t it' [[_ H] | [_ [= _ <- _ _ _ _]]]%lookup_snoc_Some; [|done].
    by eapply Hbound.
  - destruct Hbest as [Hnone | (i & ep & l & lr' & t & it' & Hi & Hrest)]; [by left|].
    right. exists i, ep, l, lr', t, it'. split; [|split_and!; try apply Hrest].
    + rewrite lookup_snoc_lt; [done|]. by eapply lookup_lt_Some.
    + intros j ep' m' l' lr'' t' it'' Hj Hl. apply (proj1 (proj2 Hrest) j ep' m' l' lr'' t' it'' Hj).
      rewrite lookup_snoc_lt in Hl; [done|]. apply lookup_lt_Some in Hi. lia.
Qed.

(** A row that beats the best becomes the best, with its epoch, its
    progress.yaml and a new save of the weights. *)
Lemma best_consistent_improve cfg rows st st' row_ep avg loss lr time it :
  (best_metric st < avg)%Q -> best_consistent cfg rows st ->
  best_metric st' = avg ->
  best_metric_epoch st' = (Z.of_nat (length rows) + 1)%Z ->
  progress_file st' = Some {| best_avg_dice_score := avg;
                              best_avg_dice_score_epoch := (Z.of_nat (length rows) + 1)%Z;
                              best_avg_dice_score_iteration := it |} ->
  best_model_saves st' = best_model_saves st ++ [(Z.of_nat (length rows) + 1)%Z] ->
  best_consistent cfg (rows ++ [csv_row row_ep avg loss lr time it]) st'.
Proof.
  intros Hlt [Hbound _] Hb He Hp Hs. unfold best_consistent. rewrite Hb. split.
  - intros i ep m l lr' t it' [[_ H] | [_ [= _ <- _ _ _ _]]]%lookup_snoc_Some; [|apply Qle_refl].
    apply Qlt_le_weak. eapply Qle_lt_trans; [by eapply Hbound | done].
  - right. exists (length rows), row_ep, loss, lr, time, it.
    rewrite He, Hp, Hs, last_snoc. split_and!; [apply lookup_snoc_eq|done| |done|done].
    intros j ep' m' l' lr' t' it' Hj Hl. rewrite lookup_snoc_lt in Hl by done.
    eapply Qle_lt_trans; [by eapply Hbound | done].
Qed.

(** The report of epoch [epoch] appends the row of that epoch and keeps
    the bookkeeping consistent. *)
Lemma train_report_inv cfg epoch avg loss lr time st prefix rows :
  history_file st = prefix ++ rows -> length rows = epoch ->
  rows_labelled cfg rows -> best_consistent cfg rows st ->
  let row := csv_row (Z.of_nat ((epoch + 1) * num_epochs_per_validation cfg))
                     avg loss lr time (idx_iter st) in
  let st' := train_report cfg epoch avg loss lr time st in
  history_file st' = prefix ++ rows ++ [row] /\ idx_iter st' = idx_iter st
  /\ rows_labelled cfg (rows ++ [row]) /\ best_consistent cfg (rows ++ [row]) st'.
Proof.
  intros Hh Hlen Hlab Hcons row st'. subst st'.
  pose proof (train_report_labelled cfg epoch avg loss lr time st rows Hlen Hlab) as Hlab'.
  unfold train_report. destruct (Qle_bool avg (best_metric st)) eqn:E; cbn -[Qle_bool].
  - rewrite Hh, <- app_assoc. split_and!; try done.
    apply best_consistent_keep; [by apply Qle_bool_imp_le | done].
  - rewrite Hh, <- app_assoc. split_and!; try done.
    eapply best_consistent_improve; [|done|done| | |]; cbn; try (by rewrite Hlen).
    apply Qnot_le_lt. intros Hle. apply Qle_bool_iff in Hle. congruence.
Qed.

Lemma train_epoch_inv cfg epoch inp st st' prefix rows :
  train_epoch cfg epoch inp st = Ok st' ->
  history_file st = prefix ++ rows -> length rows = epoch ->
  rows_labelled cfg rows -> best_consistent cfg rows st ->
  exists row, history_file st' = prefix ++ rows ++ [row]
    /\ idx_iter st' = idx_iter st + rank0_batches inp
    /\ rows_labelled cfg (rows ++ [row]) /\ best_consistent cfg (rows ++ [row]) st'.
Proof.
  intros He Hh Hlen Hlab Hcons. unfold train_epoch in He.
  destruct (epoch_loss _) as [loss|]; [|done]. cbn [bind] in He.
  destruct (map_result _ _) as [ms|]; [|done]. cbn [bind] in He.
  destruct (avg_metric _ _) as [avg|]; [|done]. cbn [bind] in He. injection He as <-.
  match goal with |- context [train_report _ _ _ _ _ _ ?s] => set (st1 := s) end.
  destruct (train_report_inv cfg epoch avg loss (learning_rate cfg) (elapsed inp) st1 prefix rows)
    as (H1 & H2 & H3 & H4); [exact Hh|exact Hlen|exact Hlab|exact Hcons|].
  eexists. split_and!; [exact H1| |exact H3|exact H4].
  rewrite H2. cbn. unfold rank0_batches.
  destruct (batch_losses inp) as [|l0 ?]; [lia|]. cbn [replicate]. rewrite train_pass_closed. done.
Qed.

Lemma train_loop_inv cfg inputs k n st st' prefix rows :
  train_loop cfg inputs (seq k n) st = Ok st' ->
  history_file st = prefix ++ rows -> length rows = k ->
  rows_labelled cfg rows -> best_consistent cfg rows st ->
  exists rows', history_file st' = prefix ++ rows' /\ length rows' = k + n
    /\ idx_iter st' = idx_iter st + sum_list_with (fun e => rank0_batches (inputs e)) (seq k n)
    /\ rows_labelled cfg rows' /\ best_consistent cfg rows' st'.
Proof.
  revert k st rows. induction n as [|n IH]; intros k st rows Hl Hh Hlen Hlab Hcons; cbn in Hl.
  - injection Hl as <-. exists rows. split_and!; try done; lia.
  - destruct (train_epoch cfg k (inputs k) st) as [st1|] eqn:E1; [|done]. cbn [bind] in Hl.
    destruct (train_epoch_inv _ _ _ _ _ prefix rows E1 Hh Hlen Hlab Hcons) as (row & Hh1 & Hi1 & Hlab1 & Hc1).
    destruct (IH (S k) st1 (rows ++ [row]) Hl) as (rows' & ? & ? & Hi & ? & ?);
      [by rewrite Hh1, app_assoc | rewrite length_app; simpl; lia | done | done |].
    exists rows'. split_and!; try done; [lia|]. rewrite Hi, Hi1. simpl. lia.
Qed.

Lemma init_state_inv cfg existing :
  rows_labelled cfg [] /\ best_consistent cfg [] (init_state existing).
Proof.
  split; [intros i line Hi; by rewrite lookup_nil in Hi|].
  split; [intros i ep m l lr t it Hi; by rewrite lookup_nil in Hi|]. by left.
Qed.

(** C16. Whatever the network does, after a successful run the rows this
    run appended to accuracy_history.csv are labelled epoch
    [(i+1) * num_epochs_per_validation], every row's metric is at most
    [best_metric], [best_metric] is the metric of the first row reaching
    it, and [best_metric_epoch], progress.yaml and the last save of
    best_metric_model.pth all name that row (as pass [i + 1]). *)
Theorem train_run_inv cfg existing inputs st :
  train_run cfg existing inputs = Ok st ->
  exists rows, history_file st = existing ++ csv_header :: rows
    /\ rows_labelled cfg rows /\ best_consistent cfg rows st.
Proof.
  unfold train_run. destruct (py_floordiv _ _) as [n|]; [|done]. cbn [bind]. intros Hl.
  destruct (init_state_inv cfg existing) as [Hlab Hc].
  destruct (train_loop_inv cfg inputs 0 (Z.to_nat n) _ st (existing ++ [csv_header]) [] Hl)
    as (rows & Hh & _ & _ & ? & ?); [by rewrite app_nil_r|done|done|done|].
  exists rows. split_and!; try done. by rewrite Hh, <- app_assoc.
Qed.

(** C17. The driver's configuration makes [num_epochs // num_epochs_per_validation]
    = 50 passes: a successful run appends 50 rows labelled epochs 20, 40,
    ..., 1000 while rank 0 trains on [idx_iter] = its batches of 50 passes
    over its shard, not of 1000 epochs. *)
Theorem train_run_schedule fold_arg num_folds_arg existing inputs st :
  train_run (driver_config fold_arg num_folds_arg) existing inputs = Ok st ->
  exists rows, history_file st = existing ++ csv_header :: rows
    /\ length rows = 50 /\ rows_labelled (driver_config fold_arg num_folds_arg) rows
    /\ idx_iter st = sum_list_with (fun e => rank0_batches (inputs e)) (seq 0 50).
Proof.
  unfold train_run. cbn -[train_loop]. intros Hl.
  destruct (init_state_inv (driver_config fold_arg num_folds_arg) existing) as [Hlab Hc].
  destruct (train_loop_inv _ inputs 0 50 _ st (existing ++ [csv_header]) [] Hl)
    as (rows & Hh & Hlen & Hi & ? & _); [by rewrite app_nil_r|done|done|done|].
  exists rows. split_and!; try done. by rewrite Hh, <- app_assoc.
Qed.

Lemma train_report_history cfg epoch avg loss lr time st :
  history_file (train_report cfg epoch avg loss lr time st)
  = history_file st ++ [csv_row (Z.of_nat ((epoch + 1) * num_epochs_per_validation cfg))
                          avg loss lr time (idx_iter st)].
Proof. unfold train_report. by destruct (Qle_bool avg (best_metric st)). Qed.

Lemma epoch_loss_mean_eq (bl : list (list Q)) :
  0 < total_batches bl ->
  exists loss, epoch_loss (rank_loss_torch <$> bl) = Ok loss
    /\ (loss == total_loss bl / inject_Z (Z.of_nat (total_batches bl)))%Q.
Proof.
  intros Hn. destruct (epoch_loss_sums bl) as [H0 (count & H1 & Hc)].
  unfold epoch_loss. rewrite (getitem_lookup _ _ _ H0), (getitem_lookup _ _ _ H1). cbn [bind].
  rewrite py_truediv_ok.
  - eexists; split; [done|]. by rewrite Hc.
  - rewrite Hc. unfold Qeq. simpl. lia.
Qed.

(** C18. The epoch loss rank 0 reports is the mean over all ranks' batches:
    the all-reduced [loss_torch] holds the sum of every batch loss and the
    number of batches. *)
Theorem epoch_loss_mean (bl : list (list Q)) :
  0 < total_batches bl ->
  exists loss, epoch_loss (rank_loss_torch <$> bl) = Ok loss
    /\ (loss == total_loss bl / inject_Z (Z.of_nat (total_batches bl)))%Q.
Proof. apply epoch_loss_mean_eq. Qed.

(** C19. When no rank has a training batch (every loader empty, or no
    rank at all), [loss_torch[0] / loss_torch[1]] raises
    [ZeroDivisionError]. *)
Theorem epoch_loss_no_batches (bl : list (list Q)) :
  total_batches bl = 0 -> epoch_loss (rank_loss_torch <$> bl) = Err ZeroDivisionError.
Proof.
  intros Hn. destruct (epoch_loss_sums bl) as [H0 (count & H1 & Hc)].
  unfold epoch_loss. rewrite (getitem_lookup _ _ _ H0), (getitem_lookup _ _ _ H1). cbn [bind].
  apply py_truediv_zero. by rewrite Hc, Hn.
Qed.

(** C20. One epoch of the distributed run succeeds when some rank has a
    batch, every Dice row has a column per foreground class and some
    validation case has class 0; it appends one row, labelled
    [(epoch + 1) * num_epochs_per_validation], whose metric is the
    [avg_metric] of one sequential validation over all ranks' cases, whose
    loss is the mean batch loss and whose iteration count is [idx_iter]
    advanced by rank 0's batches. *)
Theorem train_epoch_ok cfg epoch inp st :
  2 <= output_classes cfg -> 0 < total_batches (batch_losses inp) ->
  (forall values value, values ∈ val_dice inp -> value ∈ values ->
     output_classes cfg - 1 <= length value) ->
  Exists (fun value => mjoin (value !! 0) <> None) (concat (val_dice inp)) ->
  exists st' m avg loss,
    train_epoch cfg epoch inp st = Ok st'
    /\ validate (output_classes cfg) (concat (val_dice inp)) (metric_zeros (output_classes cfg)) = Ok m
    /\ avg_metric (output_classes cfg) m = Ok avg
    /\ (loss == total_loss (batch_losses inp) / inject_Z (Z.of_nat (total_batches (batch_losses inp))))%Q
    /\ history_file st' = history_file st
         ++ [csv_row (Z.of_nat ((epoch + 1) * num_epochs_per_validation cfg)) avg loss
               (learning_rate cfg) (elapsed inp) (idx_iter st + rank0_batches inp)].
Proof.
  intros HC Hb Hrows Hex. set (C := output_classes cfg).
  destruct (epoch_loss_mean_eq _ Hb) as (loss & Hl & Hq).
  destruct (Forall2_exists (fun values m => validate C values (metric_zeros C) = Ok m) (val_dice inp))
    as [ms Hms].
  { intros values Hv. apply validate_ok. intros value. by apply Hrows. }
  pose proof (validate_all_reduce_sum C _ _ Hms) as Hall.
  pose proof (avg_metric_closed C _ _ HC Hall (den_sum_Exists _ Hex)) as Havg.
  unfold train_epoch. fold C. rewrite Hl. cbn [bind].
  rewrite (map_result_Forall2 _ _ _ Hms). cbn [bind]. rewrite Havg. cbn [bind].
  do 4 eexists. split_and!; [done|exact Hall|exact Havg|exact Hq|].
  rewrite train_report_history. cbn. do 3 f_equal. unfold rank0_batches.
  destruct (batch_losses inp) as [|l0 ?]; [lia|]. cbn [replicate]. by rewrite train_pass_closed.
Qed.

(** ** Witnesses *)

(** A run on one rank: two batches an epoch, one validation case whose
    class-0 Dice is 1 and whose class-1 Dice grows with the epoch, so the
    best metric improves at every pass. *)
Definition demo_inputs (e : nat) : epoch_input := {|
  batch_losses := [[1 # 2; 1 # 4]];
  val_dice := [[[Some 1%Q; Some (inject_Z (Z.of_nat e) / 50)%Q; Some 0%Q]]];
  elapsed := inject_Z (Z.of_nat e)
|}.

Definition demo_state : state :=
  Eval vm_compute in
  match train_run (driver_config 0 5) [] demo_inputs with Ok st => st | Err _ => init_state [] end.

Lemma train_run_inv_witness :
  train_run (driver_config 0 5) [] demo_inputs = Ok demo_state
  /\ exists rows, history_file demo_state = [] ++ csv_header :: rows
       /\ rows_labelled (driver_config 0 5) rows
       /\ best_consistent (driver_config 0 5) rows demo_state.
Proof.
  assert (Hrun : train_run (driver_config 0 5) [] demo_inputs = Ok demo_state)
    by (vm_compute; reflexivity).
  split; [exact Hrun | exact (train_run_inv _ _ _ _ Hrun)].
Defined.

Lemma train_run_schedule_witness :
  train_run (driver_config 0 5) [] demo_inputs = Ok demo_state
  /\ exists rows, history_file demo_state = [] ++ csv_header :: rows
       /\ length rows = 50 /\ rows_labelled (driver_config 0 5) rows
       /\ idx_iter demo_state = sum_list_with (fun e => rank0_batches (demo_inputs e)) (seq 0 50).
Proof.
  assert (Hrun : train_run (driver_config 0 5) [] demo_inputs = Ok demo_state)
    by (vm_compute; reflexivity).
  split; [exact Hrun | exact (train_run_schedule _ _ _ _ _ Hrun)].
Defined.

Lemma epoch_loss_mean_witness :
  exists loss, epoch_loss (rank_loss_torch <$> [[1; 2]; [3]]%Q) = Ok loss
    /\ (loss == total_loss [[1; 2]; [3]]%Q / inject_Z (Z.of_nat (total_batches [[1; 2]; [3]]%Q)))%Q.
Proof. apply epoch_loss_mean. simpl. lia. Defined.

Lemma epoch_loss_no_batches_witness :
  epoch_loss (rank_loss_torch <$> ([[]; []] : list (list Q))) = Err ZeroDivisionError.
Proof. apply epoch_loss_no_batches. reflexivity. Defined.

Lemma train_epoch_ok_witness :
  exists st' m avg loss,
    train_epoch (driver_config 0 5) 0 (demo_inputs 3) (init_state []) = Ok st'
    /\ validate 3 (concat (val_dice (demo_inputs 3))) (metric_zeros 3) = Ok m
    /\ avg_metric 3 m = Ok avg
    /\ (loss == total_loss (batch_losses (demo_inputs 3))
                / inject_Z (Z.of_nat (total_batches (batch_losses (demo_inputs 3)))))%Q
    /\ history_file st' = history_file (init_state [])
         ++ [csv_row (Z.of_nat ((0 + 1) * 20)) avg loss (1 # 10000) (elapsed (demo_inputs 3))
               (idx_iter (init_state []) + rank0_batches (demo_inputs 3))].
Proof.
  apply (train_epoch_ok (driver_config 0 5)); simpl; [lia | lia | |].
  - intros vs v ->%list_elem_of_singleton ->%list_elem_of_singleton. simpl. lia.
  - constructor. simpl. discriminate.
Defined.

End Train.
