(* ===== verification/Search.v ===== *)
(** The search driver's loop (search_dints.py 366-650) seen from rank 0:
    every batch of [train_loader_w] is a weight step followed by an
    architecture step on the next batch of [train_loader_a], drawn from
    one iterator that is restarted when it runs out (456-461); the loss of
    the weight steps is all-reduced each epoch (527-532); every
    [num_epochs_per_validation] epochs the validation of [Metric] runs and
    rank 0 saves a [search_code_<idx_iter>.pth] checkpoint, rewrites
    progress.yaml and appends a row to accuracy_history.csv (534-648).
    The network, the architecture decoding and both optimisers are an
    oracle; every rank's [train_loader_a] has the same length (the halves
    are partitioned with [even_divisible=True], see [Pipeline]). *)

From stdpp Require Import base list sets gmap strings pretty.
From Stdlib Require Import QArith ZArith Lia Lqa.
From S2P Require Import Prelude Metric Config Train.
Import Metric Config.

Local Open Scope py_scope.
Local Open Scope nat_scope.

Module Search.

(** The dictionary saved at lines 617-627, without the decoded
    architecture ([node_a], [code_a], [code_a_max], [code_c]) that the
    network produces. *)
Record search_code := {
  iter_num : nat;
  epochs : nat;
  best_dsc : Q;
  best_path : nat
}.

(** Rank 0's variables (lines 367-371, 384) and the files it writes.
    [best_metric_iterations] is first bound at line 614, hence an option;
    [arch_iter] is [dataloader_a_iterator] as (number of [iter] calls
    after the first, batches it has yielded); [arch_samples] lists the
    batches the architecture steps drew, as (pass, position). *)
Record state := {
  best_metric : Q;
  best_metric_epoch : Z;
  best_metric_iterations : option nat;
  idx_iter : nat;
  arch_iter : nat * nat;
  arch_samples : list (nat * nat);
  history_file : list Train.csv_line;
  progress_file : option Train.progress;
  search_codes : gmap string search_code
}.

(** Lines 367-384: the counters, the csv header, and the iterator over
    [train_loader_a] created once before the loop. *)
Definition init_state (existing : list Train.csv_line) : state := {|
  best_metric := (-1)%Q;
  best_metric_epoch := (-1)%Z;
  best_metric_iterations := None;
  idx_iter := 0;
  arch_iter := (0, 0);
  arch_samples := [];
  history_file := existing ++ [Train.csv_header];
  progress_file := None;
  search_codes := ∅
|}.

(** Lines 456-461 on a loader of [n_a] batches: [next] on the iterator,
    and on [StopIteration] a fresh iterator and [next] again, which raises
    [StopIteration] out of the loop when the loader is empty. *)
Definition arch_next (n_a : nat) (it : nat * nat) : result ((nat * nat) * (nat * nat)) :=
  let '(pass, pos) := it in
  if decide (pos < n_a) then Ok ((pass, pos), (pass, S pos))
  else if decide (0 < n_a) then Ok ((S pass, 0), (S pass, 1))
  else raise StopIteration.

(** One batch of [train_loader_w] (lines 414-461): the weight step's loss
    into [loss_torch], [idx_iter += 1], then the batch of the
    architecture step. *)
Definition weight_step (n_a : nat) (loss : Q) (loss_torch : list Q) (st : state)
    : result (list Q * state) :=
  let loss_torch := alter (fun x => x + loss)%Q 0 loss_torch in
  let loss_torch := alter (fun x => x + 1)%Q 1 loss_torch in
  let* r := arch_next n_a (arch_iter st) in
  Ok (loss_torch,
      {| best_metric := best_metric st; best_metric_epoch := best_metric_epoch st;
         best_metric_iterations := best_metric_iterations st;
         idx_iter := S (idx_iter st); arch_iter := r.2; arch_samples := arch_samples st ++ [r.1];
         history_file := history_file st; progress_file := progress_file st;
         search_codes := search_codes st |}).

(** Line 414: [for batch_data in train_loader_w]. *)
Fixpoint search_pass (n_a : nat) (losses : list Q) (loss_torch : list Q) (st : state)
    : result (list Q * state) :=
  match losses with
  | [] => Ok (loss_torch, st)
  | loss :: losses =>
      let* r := weight_step n_a loss loss_torch st in
      search_pass n_a losses r.1 r.2
  end.

(** The file name of line 628, in [args.output_root]. *)
Definition search_code_file (idx_iter : nat) : string :=
  "search_code_" +:+ pretty idx_iter +:+ ".pth".

(** Lines 611-648 on rank 0: a strictly better [avg_metric] becomes the
    best with [best_metric_iterations = idx_iter]; whether or not it
    improved, the checkpoint of the current [idx_iter] is saved with
    [best_path = best_metric_iterations] (unbound until the first
    improvement), progress.yaml is rewritten with the current [idx_iter]
    and a row is appended to accuracy_history.csv. *)
Definition search_report (cfg : config) (epoch : nat) (avg loss lr time : Q) (st : state)
    : result state :=
  let '(best, best_epoch, best_iters) :=
    if Qle_bool avg (best_metric st)
    then (best_metric st, best_metric_epoch st, best_metric_iterations st)
    else (avg, (Z.of_nat epoch + 1)%Z, Some (idx_iter st)) in
  let* bp := match best_iters with
             | Some i => Ok i
             | None => raise (UnboundLocalError "best_metric_iterations")
             end in
  Ok {| best_metric := best; best_metric_epoch := best_epoch;
        best_metric_iterations := best_iters;
        idx_iter := idx_iter st; arch_iter := arch_iter st; arch_samples := arch_samples st;
        history_file := history_file st
          ++ [Train.csv_row (Z.of_nat ((epoch + 1) * num_epochs_per_validation cfg))
                avg loss lr time (idx_iter st)];
        progress_file := Some {| Train.best_avg_dice_score := best;
                                 Train.best_avg_dice_score_epoch := best_epoch;
                                 Train.best_avg_dice_score_iteration := idx_iter st |};
        search_codes := <[search_code_file (idx_iter st) :=
                           {| iter_num := idx_iter st; epochs := epoch + 1;
                              best_dsc := best; best_path := bp |}]> (search_codes st) |}.

(** One iteration of the epoch loop (lines 388-650).  Rank 0's batches are
    the first list of [batch_losses]; the other ranks contribute their
    [loss_torch] to the all-reduce. *)
Definition search_epoch (cfg : config) (n_a : nat) (epoch : nat) (inp : Train.epoch_input)
    (st : state) : result state :=
  let C := output_classes cfg in
  let* r := search_pass n_a (default [] (head (Train.batch_losses inp))) (replicate 2 0%Q) st in
  let st := r.2 in
  let* loss := Train.epoch_loss (r.1 :: (Train.rank_loss_torch <$> tail (Train.batch_losses inp))) in
  let* k := py_mod (Z.of_nat (epoch + 1)) (Z.of_nat (num_epochs_per_validation cfg)) in
  if Z.eqb k 0 then
    let* ms := map_result (fun values => validate C values (metric_zeros C)) (Train.val_dice inp) in
    let* avg := avg_metric C (all_reduce_sum ((C - 1) * 2) ms) in
    search_report cfg epoch avg loss (learning_rate cfg) (Train.elapsed inp) st
  else Ok st.

Fixpoint search_loop (cfg : config) (n_a : nat) (inputs : nat -> Train.epoch_input)
    (epochs : list nat) (st : state) : result state :=
  match epochs with
  | [] => Ok st
  | epoch :: epochs =>
      let* st := search_epoch cfg n_a epoch (inputs epoch) st in
      search_loop cfg n_a inputs epochs st
  end.

(** Line 388: [for epoch in range(num_epochs)], on an architecture loader
    of [n_a] batches. *)
Definition search_run (cfg : config) (n_a : nat) (existing : list Train.csv_line)
    (inputs : nat -> Train.epoch_input) : result state :=
  search_loop cfg n_a inputs (seq 0 (num_epochs cfg)) (init_state existing).

(** ** The architecture iterator *)

(** The [j]-th architecture batch overall is batch [j mod n_a] of pass
    [j / n_a] over [train_loader_a]. *)
Definition arch_sample (n_a j : nat) : nat * nat := (j / n_a, j mod n_a).

(** The iterator after [j] draws: [pass * n_a + pos = j], [pos <= n_a]. *)
Definition arch_ok (n_a j : nat) (it : nat * nat) : Prop :=
  it.1 * n_a + it.2 = j /\ it.2 <= n_a.

Definition arch_inv (n_a : nat) (st : state) : Prop :=
  arch_ok n_a (idx_iter st) (arch_iter st)
  /\ arch_samples st = arch_sample n_a <$> seq 0 (idx_iter st).

(** What a pass over [train_loader_w] leaves alone. *)
Definition same_report (st st' : state) : Prop :=
  best_metric st' = best_metric st /\ best_metric_epoch st' = best_metric_epoch st
  /\ best_metric_iterations st' = best_metric_iterations st
  /\ history_file st' = history_file st /\ progress_file st' = progress_file st
  /\ search_codes st' = search_codes st.

(** ** Rank 0's bookkeeping *)

(** Row [i] of this run's accuracy_history.csv comes from the validation
    after epoch [(i + 1) * num_epochs_per_validation] and is labelled that
    number times [num_epochs_per_validation] again. *)
Definition search_labelled (cfg : config) (rows : list Train.csv_line) : Prop :=
  forall i line, rows !! i = Some line ->
    exists m l lr t it, line = Train.csv_row
      (Z.of_nat ((i + 1) * num_epochs_per_validation cfg * num_epochs_per_validation cfg)) m l lr t it.

(** The best metric bounds every row and is the metric of the first row
    reaching it; [best_metric_epoch * num_epochs_per_validation] is that
    row's label and [best_metric_iterations] its iteration count, and the
    checkpoint named after that count records it, the best score and
    itself as [best_path]; progress.yaml holds the best score with the iteration count of the
    last row, and the checkpoint named after the last row's iteration
    count records that row's epoch, the best score and the best row's
    iteration count. Before the first row nothing is bound or written. *)
Definition search_consistent (cfg : config) (rows : list Train.csv_line) (st : state) : Prop :=
  (forall i ep m l lr t it, rows !! i = Some (Train.csv_row ep m l lr t it) -> (m <= best_metric st)%Q)
  /\ ((rows = [] /\ best_metric st = (-1)%Q /\ best_metric_epoch st = (-1)%Z
       /\ best_metric_iterations st = None /\ progress_file st = None /\ search_codes st = ∅)
      \/ exists i ep l lr t it,
           rows !! i = Some (Train.csv_row ep (best_metric st) l lr t it)
           /\ (forall j ep' m' l' lr' t' it', j < i ->
                 rows !! j = Some (Train.csv_row ep' m' l' lr' t' it') -> (m' < best_metric st)%Q)
           /\ ep = (best_metric_epoch st * Z.of_nat (num_epochs_per_validation cfg))%Z
           /\ best_metric_iterations st = Some it
           /\ (exists ckb, search_codes st !! search_code_file it = Some ckb
                 /\ iter_num ckb = it /\ best_dsc ckb = best_metric st /\ best_path ckb = it)
           /\ exists ep' m' l' lr' t' it' ck,
                last rows = Some (Train.csv_row ep' m' l' lr' t' it')
                /\ progress_file st = Some {| Train.best_avg_dice_score := best_metric st;
                                              Train.best_avg_dice_score_epoch := best_metric_epoch st;
                                              Train.best_avg_dice_score_iteration := it' |}
                /\ search_codes st !! search_code_file it' = Some ck
                /\ iter_num ck = it' /\ ep' = Z.of_nat (epochs ck * num_epochs_per_validation cfg)
                /\ best_dsc ck = best_metric st /\ best_path ck = it).

Lemma search_code_file_inj i j : search_code_file i = search_code_file j -> i = j.
Proof. unfold search_code_file. intros H%(inj _)%string_app_inj_r. by apply (inj pretty). Qed.

Lemma arch_next_ok n_a j it :
  0 < n_a -> arch_ok n_a j it ->
  exists it', arch_next n_a it = Ok (arch_sample n_a j, it') /\ arch_ok n_a (S j) it'.
Proof.
  destruct it as [p q]. unfold arch_ok, arch_next, arch_sample. simpl. intros Hn [Hj Hq].
  destruct (decide (q < n_a)) as [Hlt|Hge].
  - exists (p, S q). split; [|simpl; lia].
    rewrite <- (Nat.div_unique j n_a p q), <- (Nat.mod_unique j n_a p q) by lia. done.
  - destruct (decide (0 < n_a)); [|lia]. exists (S p, 1). split; [|simpl; lia].
    rewrite <- (Nat.div_unique j n_a (S p) 0), <- (Nat.mod_unique j n_a (S p) 0) by lia. done.
Qed.

Lemma arch_next_empty it : arch_next 0 it = Err StopIteration.
Proof. destruct it as [p q]. unfold arch_next. by rewrite !decide_False by lia. Qed.

Lemma same_report_refl st : same_report st st.
Proof. by unfold same_report. Qed.

Lemma same_report_trans st1 st2 st3 :
  same_report st1 st2 -> same_report st2 st3 -> same_report st1 st3.
Proof. unfold same_report. intros (?&?&?&?&?&?) (?&?&?&?&?&?). split_and!; congruence. Qed.

(** A pass over rank 0's batches with a non-empty architecture loader:
    [loss_torch] sums the losses and counts the batches, [idx_iter]
    advances by the number of batches, the iterator keeps its invariant
    and nothing rank 0 reports changes. *)
Lemma search_pass_ok n_a losses a b st :
  0 < n_a -> arch_inv n_a st ->
  exists st', search_pass n_a losses [a; b] st
              = Ok ([foldl Qplus a losses; foldl (fun x _ => x + 1)%Q b losses], st')
    /\ idx_iter st' = idx_iter st + length losses /\ arch_inv n_a st' /\ same_report st st'.
Proof.
  intros Hn. revert a b st. induction losses as [|l ls IH]; intros a b st [Hok Hs].
  - exists st. split_and!; [done|simpl; lia|by split|apply same_report_refl].
  - destruct (arch_next_ok n_a _ _ Hn Hok) as (it' & Hnext & Hok').
    cbn [search_pass]. unfold weight_step. rewrite Hnext. cbn [bind fst snd].
    change (alter _ 1 (alter _ 0 [a; b])) with [(a + l)%Q; (b + 1)%Q].
    edestruct IH as (st' & Hp & Hi & Hinv & Hsame); [|rewrite Hp; exists st'; split_and!].
    + split; [exact Hok'|]. cbn [arch_samples idx_iter]. by rewrite Hs, seq_S, fmap_app.
    + done.
    + rewrite Hi. simpl. lia.
    + done.
    + eapply same_report_trans; [|exact Hsame]. by unfold same_report.
Qed.

(** With an empty architecture loader the first weight batch raises. *)
Lemma search_pass_stop loss losses lt st :
  search_pass 0 (loss :: losses) lt st = Err StopIteration.
Proof. cbn [search_pass]. unfold weight_step. by rewrite arch_next_empty. Qed.

(** ** Preservation by the report of one validation *)

Ltac state_simpl :=
  cbn [best_metric best_metric_epoch best_metric_iterations idx_iter arch_iter arch_samples
       history_file progress_file search_codes iter_num epochs best_dsc best_path fst snd bind].

Lemma search_labelled_snoc cfg rows epoch avg loss lr time it :
  epoch + 1 = (length rows + 1) * num_epochs_per_validation cfg -> search_labelled cfg rows ->
  search_labelled cfg (rows ++ [Train.csv_row (Z.of_nat ((epoch + 1) * num_epochs_per_validation cfg))
                                  avg loss lr time it]).
Proof.
  intros He Hl i line [[Hi H] | [-> ->]]%Train.lookup_snoc_Some; [by apply Hl|].
  rewrite He. eauto 6.
Qed.

(** Once a row has been reported a report never raises: a metric that does
    not beat the best finds [best_metric_iterations] bound. *)
Lemma search_report_ok cfg epoch avg loss lr time st rows :
  search_consistent cfg rows st -> (0 <= avg)%Q ->
  exists st', search_report cfg epoch avg loss lr time st = Ok st'.
Proof.
  intros [_ Hbest] Havg. unfold search_report.
  destruct (Qle_bool avg (best_metric st)) eqn:E; cbn; [|by eexists].
  apply Qle_bool_imp_le in E.
  destruct Hbest as [(_ & Hm & _) | (i & ep & l & lr' & t & it & _ & _ & _ & Hit & _)].
  - rewrite Hm in E. lra.
  - rewrite Hit. by eexists.
Qed.

(** The report of the [length rows]-th validation appends its row and keeps
    the bookkeeping consistent. *)
Lemma search_report_inv cfg epoch avg loss lr time st st' prefix rows :
  search_report cfg epoch avg loss lr time st = Ok st' ->
  history_file st = prefix ++ rows ->
  epoch + 1 = (length rows + 1) * num_epochs_per_validation cfg ->
  search_consistent cfg rows st ->
  let row := Train.csv_row (Z.of_nat ((epoch + 1) * num_epochs_per_validation cfg))
                           avg loss lr time (idx_iter st) in
  history_file st' = prefix ++ rows ++ [row] /\ idx_iter st' = idx_iter st
  /\ arch_iter st' = arch_iter st /\ arch_samples st' = arch_samples st
  /\ search_consistent cfg (rows ++ [row]) st'.
Proof.
  intros Hr Hh He [Hbound Hbest] row. unfold search_report in Hr.
  assert (Hlab : Z.of_nat ((epoch + 1) * num_epochs_per_validation cfg)
                 = ((Z.of_nat epoch + 1) * Z.of_nat (num_epochs_per_validation cfg))%Z) by lia.
  destruct (Qle_bool avg (best_metric st)) eqn:E; state_simpl; cbn [bind] in Hr.
  - apply Qle_bool_imp_le in E.
    destruct Hbest as [(_ & _ & _ & Hn & _) | (i & ep & l & lr' & t & it & Hi & Hfirst & Hep & Hit & Hckb & _)];
      rewrite ?Hn, ?Hit in Hr; cbn [bind] in Hr; [done|]. injection Hr as <-. state_simpl.
    rewrite Hh, <- app_assoc. split_and!; try done. split.
    + intros j ep' m l' lr'' t' it' [[_ H] | [_ [= _ <- _ _ _ _]]]%Train.lookup_snoc_Some; [|done].
      by eapply Hbound.
    + right. exists i, ep, l, lr', t, it. split_and!; try done.
      * rewrite Train.lookup_snoc_lt; [done|]. by eapply lookup_lt_Some.
      * intros j ep' m' l' lr'' t' it' Hj Hl. apply (Hfirst j ep' m' l' lr'' t' it' Hj).
        rewrite Train.lookup_snoc_lt in Hl; [done|]. apply lookup_lt_Some in Hi. lia.
      * state_simpl. destruct (decide (idx_iter st = it)) as [<-|Hne];
          [eexists; by rewrite lookup_insert_eq|].
        destruct Hckb as (ckb & Hck & ?). exists ckb. rewrite lookup_insert_ne; [done|].
        by intros ?%search_code_file_inj.
      * do 7 eexists. state_simpl. split; [apply last_snoc|]. rewrite lookup_insert_eq. split_and!; try done.
  - assert (Hlt : (best_metric st < avg)%Q).
    { apply Qnot_le_lt. intros Hle. apply Qle_bool_iff in Hle. congruence. }
    injection Hr as <-. state_simpl. rewrite Hh, <- app_assoc. split_and!; try done. split.
    + intros j ep' m l' lr'' t' it' [[_ H] | [_ [= _ <- _ _ _ _]]]%Train.lookup_snoc_Some;
        [|apply Qle_refl].
      apply Qlt_le_weak. eapply Qle_lt_trans; [by eapply Hbound | done].
    + right. exists (length rows), (Z.of_nat ((epoch + 1) * num_epochs_per_validation cfg)), loss, lr, time, (idx_iter st).
      split_and!; [apply Train.lookup_snoc_eq| |exact Hlab|done| |].
      * intros j ep' m' l' lr'' t' it' Hj Hl. rewrite Train.lookup_snoc_lt in Hl by done.
        eapply Qle_lt_trans; [by eapply Hbound | done].
      * state_simpl. eexists. by rewrite lookup_insert_eq.
      * do 7 eexists. state_simpl. split; [apply last_snoc|]. rewrite lookup_insert_eq. split_and!; try done.
Qed.

(** ** Preservation by an epoch and by the loop *)

Lemma search_pass_inv n_a losses a b st r :
  search_pass n_a losses [a; b] st = Ok r -> arch_inv n_a st ->
  r.1 = [foldl Qplus a losses; foldl (fun x _ => x + 1)%Q b losses]
  /\ idx_iter r.2 = idx_iter st + length losses /\ arch_inv n_a r.2 /\ same_report st r.2.
Proof.
  intros Hp Hinv. destruct (decide (0 < n_a)) as [Hn|Hn].
  - destruct (search_pass_ok n_a losses a b st Hn Hinv) as (st' & Hp' & ?).
    rewrite Hp' in Hp. by injection Hp as <-.
  - destruct losses as [|l ls].
    + injection Hp as <-. split_and!; [done|simpl; lia|done|apply same_report_refl].
    + replace n_a with 0 in Hp by lia. by rewrite search_pass_stop in Hp.
Qed.

Lemma search_consistent_same cfg rows st st' :
  same_report st st' -> search_consistent cfg rows st -> search_consistent cfg rows st'.
Proof.
  intros (Hb & He & Hi & Hh & Hp & Hc). unfold search_consistent.
  by rewrite Hb, He, Hi, Hp, Hc.
Qed.

Lemma arch_inv_eq n_a st st' :
  idx_iter st' = idx_iter st -> arch_iter st' = arch_iter st -> arch_samples st' = arch_samples st ->
  arch_inv n_a st -> arch_inv n_a st'.
Proof. unfold arch_inv. intros -> -> ->. done. Qed.

Lemma rank0_batches_head inp :
  Train.rank0_batches inp = length (default [] (head (Train.batch_losses inp))).
Proof. unfold Train.rank0_batches. by destruct (Train.batch_losses inp). Qed.

Lemma py_mod_nat (a n : nat) k :
  py_mod (Z.of_nat a) (Z.of_nat n) = Ok k -> 0 < n /\ k = Z.of_nat (a mod n).
Proof.
  unfold py_mod. destruct (Z.eqb_spec (Z.of_nat n) 0); [done|].
  intros [= <-]. split; [lia|]. by rewrite Nat2Z.inj_mod.
Qed.

Lemma search_epoch_inv cfg n_a epoch inp st st' prefix rows :
  search_epoch cfg n_a epoch inp st = Ok st' ->
  history_file st = prefix ++ rows -> length rows = epoch / num_epochs_per_validation cfg ->
  search_labelled cfg rows -> search_consistent cfg rows st -> arch_inv n_a st ->
  exists rows', history_file st' = prefix ++ rows'
    /\ length rows' = S epoch / num_epochs_per_validation cfg
    /\ search_labelled cfg rows' /\ search_consistent cfg rows' st' /\ arch_inv n_a st'
    /\ idx_iter st' = idx_iter st + Train.rank0_batches inp.
Proof.
  intros H Hh Hlen Hlab Hcons Hinv. unfold search_epoch in H. cbn [replicate] in H.
  destruct (search_pass _ _ _ _) as [r|] eqn:Ep; [|done]. cbn [bind] in H.
  destruct (search_pass_inv _ _ _ _ _ _ Ep Hinv) as (_ & Hi1 & Hinv1 & Hsame).
  pose proof (search_consistent_same _ _ _ _ Hsame Hcons) as Hcons1.
  destruct Hsame as (_ & _ & _ & Hh1 & _).
  destruct (Train.epoch_loss _) as [loss|]; [|done]. cbn [bind] in H.
  destruct (py_mod _ _) as [k|] eqn:Em; [|done]. cbn [bind] in H.
  apply py_mod_nat in Em as [Hn ->]. rewrite rank0_batches_head, <- Hi1.
  destruct (succ_div_mod _ epoch Hn) as [(Hm & Hd & He1) | (Hm & Hd)].
  - rewrite Hm in H. cbn [Z.of_nat Z.eqb] in H.
    destruct (map_result _ _) as [ms|]; [|done]. cbn [bind] in H.
    destruct (avg_metric _ _) as [avg|]; [|done]. cbn [bind] in H.
    destruct (search_report_inv _ _ _ _ _ _ _ _ prefix rows H) as (Hh' & Hi' & Ha' & Hs' & Hc');
      [by rewrite Hh1 | rewrite Hlen; lia | done |].
    eexists. split_and!; [exact Hh'|replace (S epoch) with (epoch + 1) by lia; rewrite length_app, Hd; simpl; lia| |exact Hc'| |done].
    + apply search_labelled_snoc; [rewrite Hlen; lia | done].
    + by apply (arch_inv_eq _ r.2).
  - rewrite (proj2 (Z.eqb_neq _ 0)) in H by lia. injection H as <-.
    exists rows. split_and!; try done; [by rewrite Hh1|replace (S epoch) with (epoch + 1) by lia; lia].
Qed.

Lemma search_loop_inv cfg n_a inputs k n st st' prefix rows :
  search_loop cfg n_a inputs (seq k n) st = Ok st' ->
  history_file st = prefix ++ rows -> length rows = k / num_epochs_per_validation cfg ->
  search_labelled cfg rows -> search_consistent cfg rows st -> arch_inv n_a st ->
  exists rows', history_file st' = prefix ++ rows'
    /\ length rows' = (k + n) / num_epochs_per_validation cfg
    /\ search_labelled cfg rows' /\ search_consistent cfg rows' st' /\ arch_inv n_a st'
    /\ idx_iter st' = idx_iter st + sum_list_with (fun e => Train.rank0_batches (inputs e)) (seq k n).
Proof.
  revert k st rows. induction n as [|n IH]; intros k st rows Hl Hh Hlen Hlab Hc Hinv; cbn in Hl.
  - injection Hl as <-. exists rows. rewrite Nat.add_0_r. split_and!; try done; simpl; lia.
  - destruct (search_epoch cfg n_a k (inputs k) st) as [st1|] eqn:E1; [|done]. cbn [bind] in Hl.
    destruct (search_epoch_inv _ _ _ _ _ _ prefix rows E1 Hh Hlen Hlab Hc Hinv)
      as (rows1 & Hh1 & Hlen1 & Hlab1 & Hc1 & Hinv1 & Hi1).
    destruct (IH (S k) st1 rows1 Hl Hh1 Hlen1 Hlab1 Hc1 Hinv1) as (rows' & ? & Hl' & ? & ? & ? & Hi).
    exists rows'. split_and!; try done; [rewrite Hl'; f_equal; lia|].
    rewrite Hi, Hi1. simpl. lia.
Qed.

Lemma search_init_inv cfg n_a existing :
  search_labelled cfg [] /\ search_consistent cfg [] (init_state existing) /\ arch_inv n_a (init_state existing).
Proof.
  split_and!.
  - intros i line Hi. by rewrite lookup_nil in Hi.
  - split; [intros i ep m l lr t it Hi; by rewrite lookup_nil in Hi|]. by left.
  - split; [unfold arch_ok; simpl; lia | done].
Qed.

(** The run from its start: the loop invariant over [range(num_epochs)]. *)
Lemma search_run_inv cfg n_a existing inputs st :
  search_run cfg n_a existing inputs = Ok st ->
  exists rows, history_file st = existing ++ Train.csv_header :: rows
    /\ length rows = num_epochs cfg / num_epochs_per_validation cfg
    /\ search_labelled cfg rows /\ search_consistent cfg rows st /\ arch_inv n_a st
    /\ idx_iter st = sum_list_with (fun e => Train.rank0_batches (inputs e)) (seq 0 (num_epochs cfg)).
Proof.
  unfold search_run. intros Hl.
  destruct (search_init_inv cfg n_a existing) as (Hlab & Hc & Hinv).
  destruct (search_loop_inv cfg n_a inputs 0 (num_epochs cfg) _ st (existing ++ [Train.csv_header]) [] Hl)
    as (rows & Hh & Hlen & ? & ? & ? & Hi); [by rewrite app_nil_r|by rewrite Nat.Div0.div_0_l|done|done|done|].
  exists rows. split_and!; try done. by rewrite Hh, <- app_assoc.
Qed.

(** The checkpoint named after [best_metric_iterations] survives the run. *)
Lemma search_run_best_code cfg n_a existing inputs st it :
  search_run cfg n_a existing inputs = Ok st -> best_metric_iterations st = Some it ->
  exists sc, search_codes st !! search_code_file it = Some sc
    /\ iter_num sc = it /\ best_dsc sc = best_metric st /\ best_path sc = it.
Proof.
  intros Hr Hit. destruct (search_run_inv _ _ _ _ _ Hr) as (rows & _ & _ & _ & [_ Hc] & _).
  destruct Hc as [(_ & _ & _ & Hn & _) | (i & ep & l & lr & t & it' & _ & _ & _ & Hit' & Hck & _)];
    [congruence|]. by assert (it' = it) as -> by congruence.
Qed.

(** ** Which exceptions the loop raises *)

(** Anything but [UnboundLocalError]. *)
Definition not_unbound (e : py_error) : Prop := forall s, e <> UnboundLocalError s.

Lemma search_pass_raises (P : py_error -> Prop) n_a losses lt st :
  P StopIteration -> raises_only P (search_pass n_a losses lt st).
Proof.
  intros HS. revert lt st. induction losses as [|l ls IH]; intros lt st; simpl; [apply raises_only_Ok|].
  apply raises_only_bind; [|intros; apply IH]. unfold weight_step.
  apply raises_only_bind; [|intros; apply raises_only_Ok].
  destruct (arch_iter st) as [p q]. unfold arch_next.
  destruct (decide (q < n_a)); [apply raises_only_Ok|].
  destruct (decide (0 < n_a)); [apply raises_only_Ok | by apply raises_only_raise].
Qed.

(** The reported average is non-negative when the Dice values are. *)
Lemma reduced_avg_nonneg C (val_dice : list (list (list (option Q)))) ms avg :
  Forall dice_nonneg val_dice ->
  map_result (fun values => validate C values (metric_zeros C)) val_dice = Ok ms ->
  avg_metric C (all_reduce_sum ((C - 1) * 2) ms) = Ok avg -> (0 <= avg)%Q.
Proof.
  intros Hd Hms Havg. apply map_result_Ok in Hms.
  eapply avg_metric_nonneg; [|exact Havg]. apply all_reduce_sum_nonneg.
  eapply Forall2_Forall_r_impl; [exact Hms|]. intros values m Hv Hm.
  eapply validate_nonneg; [|apply Forall_replicate, Qle_refl|exact Hm].
  by eapply Forall_forall in Hd.
Qed.

Lemma search_epoch_not_unbound cfg n_a epoch inp st rows :
  Forall dice_nonneg (Train.val_dice inp) -> search_consistent cfg rows st -> arch_inv n_a st ->
  raises_only not_unbound (search_epoch cfg n_a epoch inp st).
Proof.
  intros Hd Hc Hinv. unfold search_epoch. cbn [replicate].
  apply raises_only_bind; [by apply search_pass_raises|intros r Hr].
  destruct (search_pass_inv _ _ _ _ _ _ Hr Hinv) as (_ & _ & _ & Hsame).
  pose proof (search_consistent_same _ _ _ _ Hsame Hc) as Hc1.
  apply raises_only_bind; [by apply Train.epoch_loss_raises|intros loss _].
  apply raises_only_bind; [by apply raises_only_py_mod|intros k _].
  destruct (Z.eqb k 0); [|apply raises_only_Ok].
  apply raises_only_bind; [apply raises_only_map_result; intros; by apply validate_raises|intros ms Hms].
  apply raises_only_bind; [by apply avg_metric_raises|intros avg Havg].
  destruct (search_report_ok cfg epoch avg loss (learning_rate cfg) (Train.elapsed inp) r.2 rows Hc1)
    as [st' ->]; [by eapply reduced_avg_nonneg|]. apply raises_only_Ok.
Qed.

Lemma search_loop_not_unbound cfg n_a inputs k n st prefix rows :
  (forall e, Forall dice_nonneg (Train.val_dice (inputs e))) ->
  history_file st = prefix ++ rows -> length rows = k / num_epochs_per_validation cfg ->
  search_labelled cfg rows -> search_consistent cfg rows st -> arch_inv n_a st ->
  raises_only not_unbound (search_loop cfg n_a inputs (seq k n) st).
Proof.
  intros Hd. revert k st rows. induction n as [|n IH]; intros k st rows Hh Hlen Hlab Hc Hinv;
    cbn [seq search_loop]; [apply raises_only_Ok|].
  apply raises_only_bind; [by eapply search_epoch_not_unbound|intros st1 E1].
  destruct (search_epoch_inv _ _ _ _ _ _ prefix rows E1 Hh Hlen Hlab Hc Hinv)
    as (rows1 & Hh1 & Hlen1 & Hlab1 & Hc1 & Hinv1 & _).
  by apply (IH (S k) st1 rows1).
Qed.

(** ** When the loop returns *)

(** An epoch's oracle input the loop can always process: some rank has a
    batch, every Dice row has a column per foreground class, some case has
    class 0, and the Dice values are non-negative. *)
Definition epoch_ok (cfg : config) (inp : Train.epoch_input) : Prop :=
  0 < Train.total_batches (Train.batch_losses inp)
  /\ (forall values value, values ∈ Train.val_dice inp -> value ∈ values ->
        output_classes cfg - 1 <= length value)
  /\ Exists (fun value => mjoin (value !! 0) <> None) (concat (Train.val_dice inp))
  /\ Forall dice_nonneg (Train.val_dice inp).

(** Rank 0's [loss_torch] next to the other ranks' is every rank's. *)
Lemma search_loss_list (bl : list (list Q)) :
  bl <> [] ->
  [foldl Qplus 0%Q (default [] (head bl)); foldl (fun x _ => x + 1)%Q 0%Q (default [] (head bl))]
    :: (Train.rank_loss_torch <$> tail bl) = Train.rank_loss_torch <$> bl.
Proof.
  destruct bl as [|l0 bl]; [done|]. intros _. cbn [head tail default].
  change (Train.rank_loss_torch <$> l0 :: bl) with (Train.rank_loss_torch l0 :: (Train.rank_loss_torch <$> bl)).
  f_equal. unfold Train.rank_loss_torch. cbn [replicate]. by rewrite Train.train_pass_closed.
Qed.

Lemma search_epoch_ok cfg n_a epoch inp st rows :
  0 < n_a -> 0 < num_epochs_per_validation cfg -> 2 <= output_classes cfg -> epoch_ok cfg inp ->
  search_consistent cfg rows st -> arch_inv n_a st ->
  exists st', search_epoch cfg n_a epoch inp st = Ok st'.
Proof.
  intros Hn Hv HC (Hb & Hrows & Hex & Hd) Hc Hinv. unfold search_epoch. cbn [replicate].
  destruct (search_pass_ok n_a (default [] (head (Train.batch_losses inp))) 0%Q 0%Q st Hn Hinv)
    as (st1 & -> & _ & _ & Hsame).
  cbn [bind fst snd].
  rewrite search_loss_list by (intros Hnil; rewrite Hnil in Hb; simpl in Hb; lia).
  destruct (Train.epoch_loss_mean_eq _ Hb) as (loss & -> & _). cbn [bind].
  rewrite py_mod_ok by lia. cbn [bind].
  destruct (Z.eqb _ 0); [|by eexists].
  set (C := output_classes cfg).
  destruct (Forall2_exists (fun values m => validate C values (metric_zeros C) = Ok m) (Train.val_dice inp))
    as [ms Hms].
  { intros values Hv'. apply validate_ok. intros value. by apply Hrows. }
  pose proof (avg_metric_closed C _ _ HC (validate_all_reduce_sum C _ _ Hms) (den_sum_Exists _ Hex)) as Havg.
  rewrite (map_result_Forall2 _ _ _ Hms). cbn [bind]. rewrite Havg. cbn [bind].
  eapply search_report_ok; [eapply search_consistent_same; eauto|].
  eapply reduced_avg_nonneg; [exact Hd| |exact Havg]. apply map_result_Forall2, Hms.
Qed.

Lemma search_loop_ok cfg n_a inputs k n st prefix rows :
  0 < n_a -> 0 < num_epochs_per_validation cfg -> 2 <= output_classes cfg ->
  (forall e, epoch_ok cfg (inputs e)) ->
  history_file st = prefix ++ rows -> length rows = k / num_epochs_per_validation cfg ->
  search_labelled cfg rows -> search_consistent cfg rows st -> arch_inv n_a st ->
  exists st', search_loop cfg n_a inputs (seq k n) st = Ok st'.
Proof.
  intros Hn Hv HC Hok. revert k st rows. induction n as [|n IH]; intros k st rows Hh Hlen Hlab Hc Hinv;
    cbn [seq search_loop]; [by eexists|].
  destruct (search_epoch_ok cfg n_a k (inputs k) st rows Hn Hv HC (Hok k) Hc Hinv) as [st1 E1].
  rewrite E1. cbn [bind].
  destruct (search_epoch_inv _ _ _ _ _ _ prefix rows E1 Hh Hlen Hlab Hc Hinv)
    as (rows1 & Hh1 & Hlen1 & Hlab1 & Hc1 & Hinv1 & _).
  by apply (IH (S k) st1 rows1).
Qed.

Lemma search_run_returns cfg n_a existing inputs :
  0 < n_a -> 0 < num_epochs_per_validation cfg -> 2 <= output_classes cfg ->
  (forall e, epoch_ok cfg (inputs e)) ->
  exists st, search_run cfg n_a existing inputs = Ok st.
Proof.
  intros Hn Hv HC Hok. destruct (search_init_inv cfg n_a existing) as (Hlab & Hc & Hinv).
  apply (search_loop_ok cfg n_a inputs 0 (num_epochs cfg) _ (existing ++ [Train.csv_header]) []);
    try done; [by rewrite app_nil_r|by rewrite Nat.Div0.div_0_l].
Qed.

(** A run long enough to validate once binds [best_metric_iterations]. *)
Lemma search_run_bound cfg n_a existing inputs st :
  search_run cfg n_a existing inputs = Ok st ->
  0 < num_epochs_per_validation cfg <= num_epochs cfg ->
  exists it, best_metric_iterations st = Some it.
Proof.
  intros Hr Hv. destruct (search_run_inv _ _ _ _ _ Hr) as (rows & _ & Hlen & _ & [_ Hc] & _).
  destruct Hc as [(-> & _) | (i & ep & l & lr & t & it & _ & _ & _ & Hit & _)]; [|by exists it].
  assert (0 < num_epochs cfg / num_epochs_per_validation cfg) by (apply Nat.div_str_pos; lia).
  simpl in Hlen. lia.
Qed.

(** ** Properties of the search run *)

(** C21. With the driver's configuration the search runs [num_epochs] =
    1000 epochs and validates after every 20th, but labels the rows of
    accuracy_history.csv [(epoch + 1) * num_epochs_per_validation]: a
    successful run appends 50 rows labelled 400, 800, ..., 20000 where the
    validations happened after epochs 20, 40, ..., 1000. *)
Theorem search_run_labels fold_arg num_folds_arg n_a existing inputs st :
  search_run (driver_config fold_arg num_folds_arg) n_a existing inputs = Ok st ->
  exists rows, history_file st = existing ++ Train.csv_header :: rows /\ length rows = 50
    /\ forall i line, rows !! i = Some line ->
         exists m l lr t it, line = Train.csv_row (Z.of_nat ((i + 1) * 400)) m l lr t it.
Proof.
  intros Hr. destruct (search_run_inv _ _ _ _ _ Hr) as (rows & Hh & Hlen & Hlab & _).
  exists rows. split_and!; [done|exact Hlen|]. intros i line Hi.
  destruct (Hlab i line Hi) as (m & l & lr & t & it & ->). exists m, l, lr, t, it.
  cbn [num_epochs_per_validation driver_config]. do 2 f_equal. lia.
Qed.

(** C22. After a successful search run, [best_metric] bounds every row's
    metric and is the metric of the first row reaching it, with
    [best_metric_epoch * num_epochs_per_validation] its label and
    [best_metric_iterations] its iteration count; the checkpoint
    search_code_<best_metric_iterations>.pth is still on disk and records
    that count, the best score and itself as [best_path]; progress.yaml
    holds the best score and epoch with the iteration count of the last
    validation,
    and the checkpoint of the last validation records its epoch, the best
    score and, as [best_path], the best row's iteration count. *)
Theorem search_run_consistent cfg n_a existing inputs st :
  search_run cfg n_a existing inputs = Ok st ->
  exists rows, history_file st = existing ++ Train.csv_header :: rows
    /\ search_consistent cfg rows st.
Proof.
  intros Hr. destruct (search_run_inv _ _ _ _ _ Hr) as (rows & Hh & _ & _ & Hc & _).
  by exists rows.
Qed.

(** C23. The architecture steps of a successful run draw the batches of
    [train_loader_a] in order, pass after pass: the [j]-th draw is batch
    [j mod n_a] of pass [j / n_a], and there is one draw per weight batch
    of rank 0. *)
Theorem search_run_arch_samples cfg n_a existing inputs st :
  search_run cfg n_a existing inputs = Ok st ->
  arch_samples st = (fun j => (j / n_a, j mod n_a)) <$> seq 0 (idx_iter st)
  /\ idx_iter st = sum_list_with (fun e => Train.rank0_batches (inputs e)) (seq 0 (num_epochs cfg)).
Proof.
  intros Hr. destruct (search_run_inv _ _ _ _ _ Hr) as (rows & _ & _ & _ & _ & [_ Hs] & Hi).
  by split.
Qed.

(** An empty architecture loader stops the search at rank 0's first
    weight batch with the [StopIteration] of the second [next]. *)
Theorem search_run_stop cfg existing inputs loss losses others :
  0 < num_epochs cfg -> Train.batch_losses (inputs 0) = (loss :: losses) :: others ->
  search_run cfg 0 existing inputs = Err StopIteration.
Proof.
  intros Hn Hb. unfold search_run. destruct (num_epochs cfg) as [|n]; [lia|].
  cbn [seq search_loop]. unfold search_epoch. rewrite Hb. cbn [head default id].
  by rewrite search_pass_stop.
Qed.

(** C25. [best_metric_iterations] is bound before the checkpoint reads it:
    when every Dice value is non-negative, the first validation's average
    beats the initial [best_metric = -1], so the search never raises
    [UnboundLocalError]. *)
Theorem search_run_no_unbound cfg n_a existing inputs s :
  (forall e, Forall dice_nonneg (Train.val_dice (inputs e))) ->
  search_run cfg n_a existing inputs <> Err (UnboundLocalError s).
Proof.
  intros Hd Herr. destruct (search_init_inv cfg n_a existing) as (Hlab & Hc & Hinv).
  refine (search_loop_not_unbound cfg n_a inputs 0 (num_epochs cfg) (init_state existing)
            (existing ++ [Train.csv_header]) [] Hd _ _ Hlab Hc Hinv _ Herr s eq_refl);
    [by rewrite app_nil_r | simpl; by rewrite Nat.Div0.div_0_l].
Qed.

(** ** Witnesses *)

(** Two ranks; rank 0 has two weight batches an epoch, rank 1 one; the
    class-1 Dice of rank 0's case cycles through [k / 7]. *)
Definition search_demo_inputs (e : nat) : Train.epoch_input := {|
  Train.batch_losses := [[1 # 2; 1 # 4]; [1%Q]];
  Train.val_dice := [[[Some 1%Q; Some (inject_Z (Z.of_nat (e mod 7)) / 7)%Q]]; [[None; Some 1%Q]]];
  Train.elapsed := 0
|}.

(** The demonstration input is well formed at every epoch. *)
Lemma search_demo_inputs_ok e : epoch_ok (driver_config 0 5) (search_demo_inputs e).
Proof.
  split_and!; cbn.
  - lia.
  - intros values value Hv Hval. set_unfold in Hv.
    destruct Hv as [->| [->|[]]]; set_unfold in Hval; destruct Hval as [->|[]]; cbn; lia.
  - constructor. cbn. discriminate.
  - unfold dice_nonneg. repeat constructor; cbn; try (apply Qle_bool_imp_le; reflexivity).
    apply Qle_shift_div_l; [reflexivity|]. rewrite Qmult_0_l.
    change 0%Q with (inject_Z 0). rewrite <- Zle_Qle. lia.
Qed.

Definition search_demo_state : state :=
  Eval vm_compute in
  match search_run (driver_config 0 5) 3 [] search_demo_inputs with
  | Ok st => st
  | Err _ => init_state []
  end.

Lemma search_demo_run : search_run (driver_config 0 5) 3 [] search_demo_inputs = Ok search_demo_state.
Proof. vm_compute. reflexivity. Qed.


Lemma search_run_labels_witness :
  search_run (driver_config 0 5) 3 [] search_demo_inputs = Ok search_demo_state
  /\ exists rows, history_file search_demo_state = [] ++ Train.csv_header :: rows /\ length rows = 50
    /\ forall i line, rows !! i = Some line ->
         exists m l lr t it, line = Train.csv_row (Z.of_nat ((i + 1) * 400)) m l lr t it.
Proof. split; [exact search_demo_run | exact (search_run_labels _ _ _ _ _ _ search_demo_run)]. Defined.

Lemma search_run_consistent_witness :
  search_run (driver_config 0 5) 3 [] search_demo_inputs = Ok search_demo_state
  /\ exists rows, history_file search_demo_state = [] ++ Train.csv_header :: rows
    /\ search_consistent (driver_config 0 5) rows search_demo_state.
Proof. split; [exact search_demo_run | exact (search_run_consistent _ _ _ _ _ search_demo_run)]. Defined.

Lemma search_run_arch_samples_witness :
  search_run (driver_config 0 5) 3 [] search_demo_inputs = Ok search_demo_state
  /\ arch_samples search_demo_state = (fun j => (j / 3, j mod 3)) <$> seq 0 (idx_iter search_demo_state)
  /\ idx_iter search_demo_state
     = sum_list_with (fun e => Train.rank0_batches (search_demo_inputs e)) (seq 0 1000).
Proof. split; [exact search_demo_run | exact (search_run_arch_samples _ _ _ _ _ search_demo_run)]. Defined.

Lemma search_run_no_unbound_witness :
  search_run (driver_config 0 5) 3 [] search_demo_inputs <> Err (UnboundLocalError "best_metric_iterations").
Proof.
  apply search_run_no_unbound. intros e. exact (proj2 (proj2 (proj2 (search_demo_inputs_ok e)))).
Defined.





End Search.
