(* ===== verification/LogFormat.v ===== *)
(** The text of accuracy_history.csv, the log both drivers append to
    (train_dints.py 363-364 and 536-538, search_dints.py 381-382 and
    647-648): the header line, then for every validation
    ["{0:d}\t{1:.5f}\t{2:.5f}\t{3:.5f}\t{4:.1f}\t{5:d}\n".format(...)].
    The format specifications are Python's: [d] is [str] of the integer,
    [.kf] the value rounded to [k] decimals, half to even, with a minus
    sign for a negative value (also when it rounds to zero).  Floats are
    the rationals of the rest of the development, so the rounding is that
    of the exact rational.  [read_row] is what a reader of the file does
    with a row: split on tabs, [int()] the integer columns and read the
    decimals back.  The lemmas relate [str] and the padded fraction to
    Stdlib's decimal numerals ([Decimal.uint]), bound the digits of a
    number below [10^k], and show that half-to-even rounding is within half
    a unit; C15 and C31 read a logged row back. *)

From stdpp Require Import base list strings.
From Stdlib Require Import Ascii QArith Qabs NArith ZArith Lia Lqa DecimalString DecimalPos DecimalN.
From Stdlib Require DecimalFacts.
From S2P Require Import Prelude Cli Train.
Import Cli.

Local Open Scope py_scope.

Module LogFormat.

(** ** Formatting *)

(** [n / d] rounded to the nearest integer, ties to even ([n >= 0]). *)
Definition round_half_even (n : Z) (d : positive) : Z :=
  let q := (n / Zpos d)%Z in
  let r := (n mod Zpos d)%Z in
  match Z.compare (2 * r) (Zpos d) with
  | Lt => q
  | Gt => (q + 1)%Z
  | Eq => if Z.even q then q else (q + 1)%Z
  end.

(** [|q| * 10^k] rounded: the digits [.kf] prints. *)
Definition scaled (k : nat) (q : Q) : Z :=
  round_half_even (Z.abs (Qnum q) * 10 ^ Z.of_nat k) (Qden q).

(** Left padding with zeros to [k] characters. *)
Definition zero_pad (k : nat) (s : string) : string :=
  String.string_of_list_ascii (replicate (k - String.length s) "0"%char) +:+ s.

(** ["{:.kf}".format(q)]. *)
Definition format_fixed (k : nat) (q : Q) : string :=
  let n := scaled k q in
  let p := (10 ^ Z.of_nat k)%Z in
  (if Qlt_le_dec q 0%Q then "-" else "") +:+ py_str (n / p)%Z
    +:+ (match k with O => "" | _ => "." +:+ zero_pad k (py_str (n mod p)%Z) end).

Definition tab : string := String "009"%char EmptyString.
Definition newline : string := String "010"%char EmptyString.

(** Line 364 (search 382) and the row of line 538 (search 648). *)
Definition format_line (l : Train.csv_line) : string :=
  match l with
  | Train.csv_header =>
      "epoch" +:+ tab +:+ "metric" +:+ tab +:+ "loss" +:+ tab +:+ "lr" +:+ tab +:+ "time"
        +:+ tab +:+ "iter" +:+ newline
  | Train.csv_row ep m loss lr t it =>
      py_str ep +:+ tab +:+ format_fixed 5 m +:+ tab +:+ format_fixed 5 loss +:+ tab
        +:+ format_fixed 5 lr +:+ tab +:+ format_fixed 1 t +:+ tab +:+ py_str (Z.of_nat it)
        +:+ newline
  end.

(** The file after the appends of a run: its lines in order. *)
Definition history_text (h : list Train.csv_line) : string :=
  foldr (fun l acc => format_line l +:+ acc) "" h.

(** ** Reading the file back *)

(** [s.split(c)]. *)
Fixpoint split_chars (c : ascii) (l : list ascii) : list (list ascii) :=
  match l with
  | [] => [[]]
  | x :: l' =>
      if Ascii.eqb x c then [] :: split_chars c l'
      else match split_chars c l' with
           | f :: fs => (x :: f) :: fs
           | [] => [[x]]
           end
  end.

Definition split_on (c : ascii) (s : string) : list string :=
  String.string_of_list_ascii <$> split_chars c (String.list_ascii_of_string s).

(** The value of a decimal numeral [-?d+(.d+)?]. *)
Definition read_fixed (s : string) : option Q :=
  let '(neg, body) := sign (String.list_ascii_of_string s) in
  let '(a, b) := match break_dot body with Some ab => ab | None => (body, []) end in
  if digits1 a && forallb is_digit b then
    ia ← NilEmpty.uint_of_string (String.string_of_list_ascii a);
    ib ← NilEmpty.uint_of_string (String.string_of_list_ascii b);
    let v := (inject_Z (Z.of_N (N.of_uint ia))
              + inject_Z (Z.of_N (N.of_uint ib)) / inject_Z (10 ^ Z.of_nat (length b)))%Q in
    Some (if neg then (- v)%Q else v)
  else None.

Definition result_option {A} (r : result A) : option A :=
  match r with Ok a => Some a | Err _ => None end.

(** A row read back: the six tab-separated columns of a line. *)
Definition read_row (line : string) : option (Z * Q * Q * Q * Q * Z) :=
  match split_on "009"%char line with
  | [f0; f1; f2; f3; f4; f5] =>
      ep ← result_option (py_int f0);
      m ← read_fixed f1; loss ← read_fixed f2; lr ← read_fixed f3; t ← read_fixed f4;
      it ← result_option (py_int f5);
      Some (ep, m, loss, lr, t, it)
  | _ => None
  end.

(** The value [.kf] prints, as a rational. *)
Definition rounded (k : nat) (q : Q) : Q :=
  let v := (inject_Z (scaled k q) / inject_Z (10 ^ Z.of_nat k))%Q in
  if Qlt_le_dec q 0%Q then (- v)%Q else v.

(** ** Decimal numerals *)

Lemma of_uint_acc_value d acc :
  Npos (Pos.of_uint_acc d acc) = (Npos acc * 10 ^ N.of_nat (Decimal.nb_digits d) + N.of_uint d)%N.
Proof.
  revert acc. induction d as [|d IH|d IH|d IH|d IH|d IH|d IH|d IH|d IH|d IH|d IH]; intros acc;
    [simpl; lia|..]; cbn [Pos.of_uint_acc N.of_uint Pos.of_uint Decimal.nb_digits]; rewrite ?IH.
  all: rewrite ?Nat2N.inj_succ, ?N.pow_succ_r'; unfold N.of_uint in *; nia.
Qed.

Lemma of_uint_lt d : (N.of_uint d < 10 ^ N.of_nat (Decimal.nb_digits d))%N.
Proof.
  induction d; [simpl; lia|..]; unfold N.of_uint in *; cbn [Pos.of_uint Decimal.nb_digits];
    rewrite ?of_uint_acc_value; unfold N.of_uint in *; rewrite Nat2N.inj_succ, N.pow_succ_r'; nia.
Qed.

Lemma unorm_D0_fixed d : Decimal.unorm (Decimal.D0 d) = Decimal.D0 d -> d = Decimal.Nil.
Proof.
  rewrite DecimalFacts.unorm_D0. unfold Decimal.unorm.
  destruct (Decimal.nzhead d) eqn:E; intros Hn; try discriminate Hn.
  - congruence.
  - injection Hn as ->. by apply DecimalFacts.nzhead_nonzero in E.
Qed.

(** [Pos.to_uint] has no leading zero. *)
Lemma to_uint_lead p : (10 ^ N.of_nat (Decimal.nb_digits (Pos.to_uint p)) <= 10 * Npos p)%N.
Proof.
  pose proof (DecimalPos.Unsigned.of_to p) as Hv.
  assert (Hn : Decimal.unorm (Pos.to_uint p) = Pos.to_uint p).
  { rewrite <- DecimalPos.Unsigned.to_of, Hv. reflexivity. }
  pose proof (DecimalPos.Unsigned.to_uint_nonzero p) as Hz.
  destruct (Pos.to_uint p) as [|d|d|d|d|d|d|d|d|d|d];
    [done|exfalso; apply Hz; f_equal; by apply unorm_D0_fixed|..];
    cbn [Pos.of_uint Decimal.nb_digits] in *; rewrite ?of_uint_acc_value in Hv;
    rewrite ?Nat2N.inj_succ, ?N.pow_succ_r', <- Hv; nia.
Qed.

Lemma string_of_uint_length u : String.length (NilEmpty.string_of_uint u) = Decimal.nb_digits u.
Proof. induction u; simpl; auto. Qed.

Lemma string_of_uint_D0 n u :
  String.string_of_list_ascii (replicate n "0"%char) +:+ NilEmpty.string_of_uint u
  = NilEmpty.string_of_uint (Nat.iter n Decimal.D0 u).
Proof. induction n; [done|]. simpl. rewrite <- IHn. reflexivity. Qed.

Lemma zero_pad_uint k u :
  zero_pad k (NilEmpty.string_of_uint u)
  = NilEmpty.string_of_uint (Nat.iter (k - Decimal.nb_digits u) Decimal.D0 u).
Proof. unfold zero_pad. rewrite string_of_uint_length. apply string_of_uint_D0. Qed.

Lemma of_uint_iter_D0 n u : N.of_uint (Nat.iter n Decimal.D0 u) = N.of_uint u.
Proof.
  by rewrite <- DecimalN.Unsigned.of_uint_norm, DecimalFacts.unorm_iter_D0, DecimalN.Unsigned.of_uint_norm.
Qed.

(** [str] of a nonnegative integer is the numeral of its value, with at
    most [k] digits below [10^k]. *)
Lemma py_str_uint z : (0 <= z)%Z ->
  exists u, py_str z = NilEmpty.string_of_uint u /\ u <> Decimal.Nil /\ Z.of_N (N.of_uint u) = z /\
    (forall k : nat, (1 <= k)%nat -> (z < 10 ^ Z.of_nat k)%Z -> (Decimal.nb_digits u <= k)%nat).
Proof.
  destruct z as [|p|p]; intros Hz; [|exists (Pos.to_uint p)|lia].
  - exists (Decimal.D0 Decimal.Nil). split_and!; [done..|simpl; lia].
  - split_and!; [done|apply DecimalPos.Unsigned.to_uint_nonnil| |].
    + cbn [N.of_uint]. by rewrite DecimalPos.Unsigned.of_to.
    + intros k _ Hlt. pose proof (to_uint_lead p) as Hl.
      assert (H : (10 ^ N.of_nat (Decimal.nb_digits (Pos.to_uint p)) < 10 ^ N.of_nat (S k))%N).
      { rewrite Nat2N.inj_succ, N.pow_succ_r'.
        enough (Npos p < 10 ^ N.of_nat k)%N by lia.
        apply N2Z.inj_lt. by rewrite N2Z.inj_pow, nat_N_Z. }
      apply N.pow_lt_mono_r_iff in H; lia.
Qed.

(** ** Characters of a numeral *)

Lemma list_ascii_app s t :
  String.list_ascii_of_string (s +:+ t) = String.list_ascii_of_string s ++ String.list_ascii_of_string t.
Proof. induction s as [|a s IH]; [done|]. simpl. by rewrite IH. Qed.

Lemma list_ascii_length s : length (String.list_ascii_of_string s) = String.length s.
Proof. induction s; simpl; auto. Qed.

Lemma digit_neq c c' : is_digit c = true -> is_digit c' = false -> Ascii.eqb c c' = false.
Proof. intros H1 H2. destruct (Ascii.eqb_spec c c'); [subst; congruence|done]. Qed.

Lemma break_dot_digits l : Forall (fun c => is_digit c = true) l -> break_dot l = None.
Proof. induction 1; simpl; [done|]. by rewrite digit_neq, IHForall. Qed.

Lemma break_dot_digits_app l m :
  Forall (fun c => is_digit c = true) l -> break_dot (l ++ "."%char :: m) = Some (l, m).
Proof. induction 1; simpl; [done|]. by rewrite digit_neq, IHForall. Qed.

Lemma forallb_digits l : Forall (fun c => is_digit c = true) l -> forallb is_digit l = true.
Proof. induction 1; simpl; [done|]. by rewrite H, IHForall. Qed.

Lemma uint_chars u : u <> Decimal.Nil ->
  exists c l, String.list_ascii_of_string (NilEmpty.string_of_uint u) = c :: l /\
    is_digit c = true /\ Forall (fun c => is_digit c = true) l.
Proof.
  intros Hu. pose proof (digits_of_uint u) as Hd.
  destruct (String.list_ascii_of_string _) as [|c l] eqn:E.
  - destruct u; done.
  - apply Forall_cons in Hd as [??]. by exists c, l.
Qed.

Lemma sign_digits A R : A <> [] -> Forall (fun c => is_digit c = true) A -> sign (A ++ R) = (false, A ++ R).
Proof.
  destruct A as [|c A]; intros HA Hd; [done|]. apply Forall_cons in Hd as [Hc _].
  destruct (digit_not_sign c Hc) as [H1 H2]. simpl. by rewrite H1, H2.
Qed.

Lemma digits1_digits A : A <> [] -> Forall (fun c => is_digit c = true) A -> digits1 A = true.
Proof. intros HA Hd. unfold digits1. rewrite bool_decide_eq_false_2, forallb_digits; done. Qed.

Lemma uint_of_chars u :
  NilEmpty.uint_of_string (String.string_of_list_ascii (String.list_ascii_of_string (NilEmpty.string_of_uint u)))
  = Some u.
Proof. by rewrite String.string_of_list_ascii_of_string, NilEmpty.usu. Qed.

(** [read_fixed] reads a numeral [-?a(.b)?] as [a + b / 10^|b|]. *)
Lemma read_fixed_numeral (neg : bool) a ob : a <> Decimal.Nil ->
  read_fixed ((if neg then "-" else "") +:+ NilEmpty.string_of_uint a +:+
              match ob with Some b => "." +:+ NilEmpty.string_of_uint b | None => "" end)
  = Some (let b := default Decimal.Nil ob in
          let v := (inject_Z (Z.of_N (N.of_uint a))
                    + inject_Z (Z.of_N (N.of_uint b)) / inject_Z (10 ^ Z.of_nat (Decimal.nb_digits b)))%Q in
          if neg then (- v)%Q else v).
Proof.
  intros Ha. pose proof (digits_of_uint a) as Hd.
  assert (Hne : String.list_ascii_of_string (NilEmpty.string_of_uint a) <> []) by (destruct a; done).
  unfold read_fixed. rewrite !list_ascii_app.
  assert (Hs : forall R, sign (String.list_ascii_of_string (if neg then "-" else "")
                               ++ String.list_ascii_of_string (NilEmpty.string_of_uint a) ++ R)
                         = (neg, String.list_ascii_of_string (NilEmpty.string_of_uint a) ++ R)).
  { intros R. destruct neg; [reflexivity|]. cbn [String.list_ascii_of_string app]. by apply sign_digits. }
  rewrite Hs. cbv iota beta.
  destruct ob as [b|].
  - rewrite list_ascii_app. cbn [String.list_ascii_of_string app].
    rewrite break_dot_digits_app, digits1_digits, forallb_digits by auto using digits_of_uint.
    cbn [andb]. rewrite !uint_of_chars. cbn.
    by rewrite list_ascii_length, string_of_uint_length.
  - cbn [String.list_ascii_of_string]. rewrite List.app_nil_r, break_dot_digits, digits1_digits by done.
    cbn [andb forallb]. rewrite !uint_of_chars. reflexivity.
Qed.

(** ** Rounding *)

Lemma round_half_even_nonneg n d : (0 <= n)%Z -> (0 <= round_half_even n d)%Z.
Proof.
  intros Hn. unfold round_half_even. pose proof (Z.div_pos n (Zpos d) Hn ltac:(lia)).
  repeat case_match; lia.
Qed.

Lemma scaled_nonneg k q : (0 <= scaled k q)%Z.
Proof. apply round_half_even_nonneg. pose proof (Z.pow_nonneg 10 (Z.of_nat k)). lia. Qed.

Lemma inject_Z_nonzero z : z <> 0%Z -> ~ inject_Z z == 0.
Proof. intros Hz H. apply Hz. by apply (inject_Z_injective z 0). Qed.

Lemma inject_Z_div_mod n p : (0 < p)%Z ->
  inject_Z n / inject_Z p == inject_Z (n / p) + inject_Z (n mod p) / inject_Z p.
Proof.
  intros Hp. rewrite (Z.div_mod n p) at 1 by lia. rewrite inject_Z_plus, inject_Z_mult.
  field. apply inject_Z_nonzero. lia.
Qed.

(** What [read_fixed] reads from ["{:.kf}".format(q)] is [rounded k q]. *)
Lemma read_fixed_format k q :
  exists v, read_fixed (format_fixed k q) = Some v /\ v == rounded k q.
Proof.
  unfold format_fixed, rounded. pose proof (scaled_nonneg k q) as Hn.
  set (n := scaled k q) in *. set (p := (10 ^ Z.of_nat k)%Z).
  assert (Hp : (0 < p)%Z) by (apply Z.pow_pos_nonneg; lia).
  destruct (py_str_uint (n / p)) as (uI & -> & HuI & HvI & _); [apply Z.div_pos; lia|].
  destruct (py_str_uint (n mod p)) as (uF & -> & _ & HvF & Hlen); [apply Z.mod_pos_bound; lia|].
  destruct k as [|k'].
  - assert (Hm : (n mod p = 0)%Z) by (subst p; apply Z.mod_1_r).
    destruct (Qlt_le_dec q 0); [rewrite (read_fixed_numeral true uI None HuI)
                                |rewrite (read_fixed_numeral false uI None HuI)];
      eexists; (split; [reflexivity|]); cbn [default];
      rewrite (inject_Z_div_mod n p Hp), Hm, HvI; reflexivity.
  - rewrite zero_pad_uint.
    destruct (Qlt_le_dec q 0); [rewrite (read_fixed_numeral true uI (Some _) HuI)
                                |rewrite (read_fixed_numeral false uI (Some _) HuI)];
      eexists; (split; [reflexivity|]); cbn [default];
      unfold id; rewrite of_uint_iter_D0, DecimalFacts.nb_digits_iter_D0, Nat.sub_add, HvF, HvI by (apply Hlen; [lia|apply (Z.mod_pos_bound n p Hp)]);
      rewrite (inject_Z_div_mod n p Hp); reflexivity.
Qed.

(** Half to even is within half a unit of [n / d]. *)
Lemma round_half_even_err n d :
  (Z.abs (2 * round_half_even n d * Zpos d - 2 * n) <= Zpos d)%Z.
Proof.
  unfold round_half_even.
  pose proof (Z.div_mod n (Zpos d) ltac:(lia)). pose proof (Z.mod_pos_bound n (Zpos d) ltac:(lia)).
  destruct (Z.compare_spec (2 * (n mod Zpos d)) (Zpos d)); [case_match|..]; lia.
Qed.

Lemma rounded_Qmake k q :
  rounded k q == (if Qlt_le_dec q 0 then - scaled k q else scaled k q)%Z # Z.to_pos (10 ^ Z.of_nat k).
Proof.
  assert (Hp : (0 < 10 ^ Z.of_nat k)%Z) by (apply Z.pow_pos_nonneg; lia).
  unfold rounded. rewrite (Qmake_Qdiv _ (Z.to_pos _)), Z2Pos.id by done.
  destruct (Qlt_le_dec q 0); [rewrite inject_Z_opp|]; [field|reflexivity].
  apply inject_Z_nonzero. lia.
Qed.

(** [rounded k q] is within half a unit of the [k]-th decimal of [q]. *)
Lemma rounded_err k q : Qabs (rounded k q - q) <= 1 / (2 * inject_Z (10 ^ Z.of_nat k)).
Proof.
  assert (Hp : (0 < 10 ^ Z.of_nat k)%Z) by (apply Z.pow_pos_nonneg; lia).
  rewrite rounded_Qmake.
  assert (Hb : 1 / (2 * inject_Z (10 ^ Z.of_nat k)) == 1 # (2 * Z.to_pos (10 ^ Z.of_nat k))).
  { rewrite (Qmake_Qdiv 1 (2 * _)), Pos2Z.inj_mul, Z2Pos.id by done. reflexivity. }
  rewrite Hb. unfold scaled. destruct (Qlt_le_dec q 0) as [Hq|Hq];
    destruct q as [num d]; unfold Qlt, Qle in Hq; cbn [Qnum Qden] in *;
    pose proof (round_half_even_err (Z.abs num * 10 ^ Z.of_nat k) d);
    unfold Qle, Qminus, Qplus, Qopp, Qabs; cbn [Qnum Qden];
    rewrite ?Pos2Z.inj_mul, ?Z2Pos.id by done; nia.
Qed.

(** ** Columns of a row *)

Lemma split_chars_app c l m : Forall (fun x => Ascii.eqb x c = false) l ->
  split_chars c (l ++ c :: m) = l :: split_chars c m.
Proof.
  induction 1 as [|x l Hx _ IH]; simpl; [by rewrite Ascii.eqb_refl|]. by rewrite Hx, IH.
Qed.

Lemma split_chars_none c l : Forall (fun x => Ascii.eqb x c = false) l -> split_chars c l = [l].
Proof. induction 1 as [|x l Hx _ IH]; simpl; [done|]. by rewrite Hx, IH. Qed.

Lemma digits_notab l : Forall (fun c => is_digit c = true) l ->
  Forall (fun c => Ascii.eqb c "009"%char = false) l.
Proof. intros H. eapply Forall_impl; [exact H|]. intros c Hc. by apply digit_neq. Qed.

Lemma py_str_notab z : Forall (fun c => Ascii.eqb c "009"%char = false) (String.list_ascii_of_string (py_str z)).
Proof.
  destruct z; cbn [py_str]; [repeat constructor| |constructor; [done|]];
    apply digits_notab, digits_of_uint.
Qed.

Lemma format_fixed_notab k q :
  Forall (fun c => Ascii.eqb c "009"%char = false) (String.list_ascii_of_string (format_fixed k q)).
Proof.
  unfold format_fixed. rewrite !list_ascii_app. repeat rewrite Forall_app.
  split_and!; [by destruct (Qlt_le_dec q 0); repeat constructor|apply py_str_notab|].
  destruct k; [constructor|]. rewrite list_ascii_app. cbn [String.list_ascii_of_string app].
  constructor; [done|]. unfold zero_pad. rewrite list_ascii_app, Forall_app,
    String.list_ascii_of_string_of_list_ascii. split; [|apply py_str_notab].
  apply Forall_replicate. done.
Qed.

Lemma strip_snoc l c :
  (forall c0 l0, l = c0 :: l0 -> is_space c0 = false) -> is_space c = true -> strip (l ++ [c]) = strip l.
Proof.
  intros Hh Hc. unfold strip. destruct l as [|c0 l0]; [by cbn; rewrite Hc|].
  change ((c0 :: l0) ++ [c]) with (c0 :: (l0 ++ [c])).
  rewrite !lstrip_id by (by eapply Hh). rewrite app_comm_cons, rev_unit. cbn [lstrip]. by rewrite Hc.
Qed.

(** [int(str(z) + "\n") == z]: the last column keeps the newline. *)
Lemma py_int_str_newline z : py_int (py_str z +:+ newline) = Ok z.
Proof.
  rewrite <- (py_int_str z). unfold py_int. rewrite list_ascii_app.
  cbn [newline String.list_ascii_of_string]. rewrite strip_snoc; [reflexivity| |reflexivity].
  intros c0 l0 Hl. destruct z; cbn [py_str] in Hl; [by injection Hl as <-| |by injection Hl as <-].
  pose proof (digits_of_uint (Pos.to_uint p)) as Hd. rewrite Hl in Hd.
  apply Forall_cons in Hd as [Hc _]. by apply digit_not_space.
Qed.

Lemma newline_notab s : Forall (fun c => Ascii.eqb c "009"%char = false) (String.list_ascii_of_string s) ->
  Forall (fun c => Ascii.eqb c "009"%char = false) (String.list_ascii_of_string (s +:+ newline)).
Proof. intros H. rewrite list_ascii_app, Forall_app. by split; [|repeat constructor]. Qed.

(** Reading back a row of the file gives its integers and the rounded values. *)
Lemma read_row_format ep m loss lr t it :
  exists m' l' lr' t',
    read_row (format_line (Train.csv_row ep m loss lr t it)) = Some (ep, m', l', lr', t', Z.of_nat it) /\
    m' == rounded 5 m /\ l' == rounded 5 loss /\ lr' == rounded 5 lr /\ t' == rounded 1 t.
Proof.
  destruct (read_fixed_format 5 m) as (m' & Hm & Em), (read_fixed_format 5 loss) as (l' & Hl & El),
    (read_fixed_format 5 lr) as (lr' & Hlr & Elr), (read_fixed_format 1 t) as (t' & Ht & Et).
  exists m', l', lr', t'. split_and!; [|done..].
  unfold read_row, format_line, split_on.
  pose proof (newline_notab _ (py_str_notab (Z.of_nat it))) as H6.
  remember (py_str (Z.of_nat it) +:+ newline) as s6 eqn:E6.
  rewrite !list_ascii_app. cbn [tab String.list_ascii_of_string app].
  rewrite !split_chars_app, split_chars_none by first [apply py_str_notab | apply format_fixed_notab | done].
  cbn [fmap list_fmap]. rewrite !String.string_of_list_ascii_of_string, py_int_str, Hm, Hl, Hlr, Ht.
  subst s6. by rewrite py_int_str_newline.
Qed.

Lemma rounded_err_le k q b :
  1 / (2 * inject_Z (10 ^ Z.of_nat k)) <= b -> Qabs (rounded k q - q) <= b.
Proof. intros Hb. eapply Qle_trans; [apply rounded_err|exact Hb]. Qed.

(** The header line is not a row: [int("epoch")] raises.  Every run opens
    the file in mode "a" and writes the header again ([Train.init_state]),
    so the file of a second run has a header line between rows. *)
Lemma read_row_header : read_row (format_line Train.csv_header) = None.
Proof. vm_compute. reflexivity. Qed.

(** ** The logged row read back *)

(** C15. A row of accuracy_history.csv (train_dints.py 536-538) reads back
    as six tab-separated columns: the epoch and the iteration exactly, the
    metric, the loss and the learning rate as their values rounded half to
    even at five decimals, and the time rounded at one decimal. *)
Theorem format_line_read_back ep m loss lr t it :
  exists m' l' lr' t',
    read_row (format_line (Train.csv_row ep m loss lr t it)) = Some (ep, m', l', lr', t', Z.of_nat it) /\
    m' == rounded 5 m /\ l' == rounded 5 loss /\ lr' == rounded 5 lr /\ t' == rounded 1 t.
Proof. apply read_row_format. Qed.

(** C31. The values a reader of accuracy_history.csv gets back are within
    half a unit of the last printed decimal of the logged ones: 5e-6 for
    the metric, the loss and the learning rate, 0.05 for the time. *)
Theorem format_line_accuracy ep m loss lr t it :
  exists m' l' lr' t',
    read_row (format_line (Train.csv_row ep m loss lr t it)) = Some (ep, m', l', lr', t', Z.of_nat it) /\
    Qabs (m' - m) <= 1 # 200000 /\ Qabs (l' - loss) <= 1 # 200000 /\
    Qabs (lr' - lr) <= 1 # 200000 /\ Qabs (t' - t) <= 1 # 20.
Proof.
  destruct (read_row_format ep m loss lr t it) as (m' & l' & lr' & t' & Hr & Em & El & Elr & Et).
  exists m', l', lr', t'. split_and!; [done|rewrite Em|rewrite El|rewrite Elr|rewrite Et];
    apply rounded_err_le; by compute.
Qed.

End LogFormat.
