(* ===== verification/Transforms.v ===== *)
(** The key bookkeeping of the two MONAI [Compose] pipelines each driver
    builds (train_dints.py 223-276, search_dints.py 236-289, the same
    lists): which keys every dictionary transform reads and adds, and
    which per-key arguments it expands to the number of its keys.  The
    image data and the numerics of the transforms are not modelled: a
    sample is the set of its keys.  The behaviour of the MONAI transforms
    themselves (library code) follows MONAI's dictionary transforms:
    constructors expand per-key arguments with [ensure_tuple_rep], a
    missing key raises [KeyError], [CopyItemsd] refuses to overwrite a
    key, [RandCropByLabelClassesd] returns [num_samples] dictionaries, and
    [Compose] maps the later transforms over such a list. *)

From stdpp Require Import base list sets gmap strings.
From Stdlib Require Import ZArith Lia.
From S2P Require Import Prelude Config FileList.
Import Config FileList.

Local Open Scope py_scope.

Module Transforms.

(** A per-key argument: one value, or a sequence of the given length. *)
Inductive karg := Scalar | Seq (n : nat).

Inductive kind :=
| Plain
| CopyItems (times : nat) (names : list string)
| CropByLabelClasses (label_key : string) (num_classes ratios num_samples : nat).

Record xform := {
  x_name : string;
  x_keys : list string;
  x_args : list karg;
  x_kind : kind
}.

(** A sample, or the list of samples a crop returns. *)
Inductive data := DDict (keys : gset string) | DList (items : list data).

(** [ensure_tuple_rep(arg, len(keys))]. *)
Definition ensure_tuple_rep (a : karg) (dim : nat) : result unit :=
  match a with
  | Scalar => Ok tt
  | Seq n => if decide (n = dim) then Ok tt else raise (ValueError "Sequence must have length")
  end.

(** The constructor's checks. *)
Definition xform_init (t : xform) : result unit :=
  let* _ := map_result (fun a => ensure_tuple_rep a (length (x_keys t))) (x_args t) in
  match x_kind t with
  | CopyItems times names =>
      if decide (times < 1) then raise (ValueError "times must be positive")
      else if decide (length names = length (x_keys t) * times) then Ok tt
      else raise (ValueError "len(names) must match len(keys) * times")
  | _ => Ok tt
  end.

(** [key_iterator]: every key must be present. *)
Fixpoint require_keys (d : gset string) (ks : list string) : result unit :=
  match ks with
  | [] => Ok tt
  | k :: ks => if decide (k ∈ d) then require_keys d ks else raise (KeyError k)
  end.

(** One pass of [CopyItemsd]: each key is copied to its new name, which
    must not exist yet. *)
Fixpoint copy_pass (d : gset string) (ks names : list string) : result (gset string) :=
  match ks, names with
  | k :: ks, n :: names =>
      if decide (k ∈ d) then
        if decide (n ∈ d) then raise (KeyError n) else copy_pass ({[n]} ∪ d) ks names
      else raise (KeyError k)
  | _, _ => Ok d
  end.

Fixpoint copy_items (d : gset string) (ks : list string) (i times : nat) (names : list string)
    : result (gset string) :=
  match times with
  | 0 => Ok d
  | S times' =>
      let* d := copy_pass d ks (take (length ks) (drop (i * length ks) names)) in
      copy_items d ks (S i) times' names
  end.

(** A dictionary transform applied to one sample. *)
Definition xform_apply (t : xform) (d : gset string) : result data :=
  match x_kind t with
  | Plain => let* _ := require_keys d (x_keys t) in Ok (DDict d)
  | CopyItems times names => fmap_result DDict (copy_items d (x_keys t) 0 times names)
  | CropByLabelClasses lk nc ratios ns =>
      let* _ := require_keys d [lk] in
      let* _ := require_keys d (x_keys t) in
      if decide (ratios = nc) then Ok (DList (replicate ns (DDict d)))
      else raise (ValueError "random crop ratios must match the number of indices of classes")
  end.

(** [apply_transform(t, data, map_items=True)]: a list is mapped over. *)
Definition apply_transform (t : xform) (x : data) : result data :=
  match x with
  | DDict d => xform_apply t d
  | DList xs => fmap_result DList (map_result (fun y => match y with
                                                | DDict d => xform_apply t d
                                                | DList _ => raise (TypeError (x_name t))
                                                end) xs)
  end.

(** [Compose(ts)] followed by a call on a sample. *)
Definition compose_call (ts : list xform) (x : data) : result data :=
  let* _ := map_result xform_init ts in
  foldl (fun r t => let* x := r in apply_transform t x) (Ok x) ts.

(** ** The two pipelines *)

Definition plain (name : string) (keys : list string) (args : list karg) : xform :=
  {| x_name := name; x_keys := keys; x_args := args; x_kind := Plain |}.

Definition IL : list string := ["image"; "label"].

(** train_dints.py 223-261 (search_dints.py 236-275). *)
Definition train_transforms (cfg : config) : list xform := [
  plain "LoadImaged" IL [];
  plain "EnsureChannelFirstd" IL [];
  plain "Orientationd" IL [];
  plain "Spacingd" IL [Seq 2; Seq 2];
  plain "CastToTyped" ["image"] [Scalar];
  plain "ScaleIntensityRanged" ["image"] [];
  plain "CastToTyped" IL [Seq 2];
  {| x_name := "CopyItemsd"; x_keys := ["label"]; x_args := [];
     x_kind := CopyItems 1 ["label4crop"] |};
  plain "Lambdad" ["label4crop"] [Scalar];
  plain "EnsureTyped" IL [];
  plain "CastToTyped" ["image"] [Scalar];
  plain "SpatialPadd" ["image"; "label"; "label4crop"] [Seq 3];
  {| x_name := "RandCropByLabelClassesd"; x_keys := IL; x_args := [];
     x_kind := CropByLabelClasses "label4crop" (output_classes cfg)
                 (length (replicate (output_classes cfg) 1)) (num_patches_per_image cfg) |};
  plain "Lambdad" ["label4crop"] [Scalar];
  plain "RandRotated" IL [Seq 2];
  plain "RandZoomd" IL [Seq 2; Seq 2];
  plain "RandGaussianSmoothd" ["image"] [];
  plain "RandScaleIntensityd" ["image"] [];
  plain "RandShiftIntensityd" ["image"] [];
  plain "RandGaussianNoised" ["image"] [];
  plain "RandFlipd" IL [];
  plain "RandFlipd" IL [];
  plain "RandFlipd" IL [];
  plain "CastToTyped" IL [Seq 2];
  plain "ToTensord" IL []].

(** train_dints.py 264-276 (search_dints.py 277-289). *)
Definition val_transforms : list xform := [
  plain "LoadImaged" IL [];
  plain "EnsureChannelFirstd" IL [];
  plain "Orientationd" IL [];
  plain "Spacingd" IL [Seq 2; Seq 2];
  plain "CastToTyped" ["image"] [Scalar];
  plain "ScaleIntensityRanged" ["image"] [];
  plain "CastToTyped" IL [Seq 2];
  plain "EnsureTyped" IL [];
  plain "ToTensord" IL []].

(** ** Lemmas *)

Definition step (r : result data) (t : xform) : result data := let* x := r in apply_transform t x.

Lemma compose_call_unfold ts x :
  compose_call ts x = let* _ := map_result xform_init ts in foldl step (Ok x) ts.
Proof. done. Qed.

Lemma step_Ok x t : step (Ok x) t = apply_transform t x.
Proof. done. Qed.

Lemma foldl_step_err ts e : foldl step (Err e) ts = Err e.
Proof. by induction ts. Qed.

Lemma require_keys_ok d ks : list_to_set ks ⊆ d -> require_keys d ks = Ok tt.
Proof.
  induction ks as [|k ks IH]; simpl; [done|]. intros Hs.
  rewrite decide_True by set_solver. apply IH. set_solver.
Qed.

(** A plain transform whose keys the sample has. *)
Definition plain_on (d : gset string) (t : xform) : Prop :=
  x_kind t = Plain /\ list_to_set (x_keys t) ⊆ d.

Lemma plain_apply d t : plain_on d t -> xform_apply t d = Ok (DDict d).
Proof. intros [Hk Hs]. unfold xform_apply. by rewrite Hk, require_keys_ok. Qed.

Lemma plains_dict ts d : Forall (plain_on d) ts -> foldl step (Ok (DDict d)) ts = Ok (DDict d).
Proof. induction 1 as [|t ts Ht _ IH]; [done|]. cbn [foldl]. by rewrite step_Ok; cbn [apply_transform]; rewrite plain_apply. Qed.

Lemma plains_list ts d n :
  Forall (plain_on d) ts ->
  foldl step (Ok (DList (replicate n (DDict d)))) ts = Ok (DList (replicate n (DDict d))).
Proof.
  induction 1 as [|t ts Ht _ IH]; [done|]. cbn [foldl]. rewrite step_Ok. cbn [apply_transform].
  assert (map_result (fun y => match y with DDict d => xform_apply t d | DList _ => raise (TypeError (x_name t)) end)
            (replicate n (DDict d)) = Ok (replicate n (DDict d))) as ->; [|done].
  clear IH. induction n as [|n IHn]; simpl; [done|]. by rewrite plain_apply, IHn.
Qed.

Lemma foldl_step_split n ts r : foldl step r ts = foldl step (foldl step r (take n ts)) (drop n ts).
Proof. by rewrite <- foldl_app, take_drop. Qed.

Lemma foldl_step_cons x t ts : foldl step (Ok x) (t :: ts) = foldl step (apply_transform t x) ts.
Proof. done. Qed.

Ltac solve_plains :=
  cbn [take drop train_transforms val_transforms];
  repeat (apply Forall_cons_2; [split; [reflexivity|cbn [x_keys plain list_to_set IL]; set_solver]|]);
  constructor.

(** Every constructor of both pipelines accepts its arguments. *)
Lemma train_transforms_init cfg : exists u, map_result xform_init (train_transforms cfg) = Ok u.
Proof. eexists. reflexivity. Qed.

Lemma val_transforms_init : exists u, map_result xform_init val_transforms = Ok u.
Proof. eexists. reflexivity. Qed.

Lemma copy_label4crop d t :
  x_keys t = ["label"] -> x_kind t = CopyItems 1 ["label4crop"] ->
  "label" ∈ d -> "label4crop" ∉ d -> xform_apply t d = Ok (DDict ({["label4crop"]} ∪ d)).
Proof.
  intros Hk Hc Hl Hn. unfold xform_apply. rewrite Hc, Hk. cbn.
  by rewrite decide_True, decide_False by done.
Qed.

Lemma crop_apply d t lk nc r ns :
  x_kind t = CropByLabelClasses lk nc r ns -> r = nc -> lk ∈ d -> list_to_set (x_keys t) ⊆ d ->
  xform_apply t d = Ok (DList (replicate ns (DDict d))).
Proof.
  intros Hc -> Hl Hs. unfold xform_apply. rewrite Hc, (require_keys_ok d [lk]) by set_solver.
  cbn [bind]. rewrite require_keys_ok by done. cbn [bind]. by rewrite decide_True.
Qed.

Lemma train_pipeline_keys cfg d :
  {["image"; "label"]} ⊆ d -> "label4crop" ∉ d ->
  compose_call (train_transforms cfg) (DDict d)
  = Ok (DList (replicate (num_patches_per_image cfg) (DDict ({["label4crop"]} ∪ d)))).
Proof.
  intros Hil Hn. rewrite compose_call_unfold.
  destruct (train_transforms_init cfg) as [u ->]. cbn [bind].
  rewrite (foldl_step_split 7), plains_dict by solve_plains.
  cbn [drop train_transforms]. rewrite foldl_step_cons. cbn [apply_transform].
  rewrite copy_label4crop by (done || set_solver).
  rewrite (foldl_step_split 4), plains_dict by solve_plains.
  cbn [drop]. rewrite foldl_step_cons. cbn [apply_transform].
  erewrite crop_apply; [|reflexivity|apply length_replicate|set_solver|cbn; set_solver].
  apply plains_list. solve_plains.
Qed.


Lemma val_pipeline_keys d :
  {["image"; "label"]} ⊆ d -> compose_call val_transforms (DDict d) = Ok (DDict d).
Proof.
  intros Hil. rewrite compose_call_unfold. destruct val_transforms_init as [u ->].
  apply plains_dict. solve_plains.
Qed.


(** The keys of a dict the drivers build. *)
Definition sample_keys (f : item) : gset string := @dom (gmap string string) _ _ f.

Lemma sample_keys_file_dict a b : sample_keys (file_dict a b) = {["image"; "label"]}.
Proof.
  unfold sample_keys. change (file_dict a b) with (<["label":=b]> ({["image":=a]} : gmap string string)).
  rewrite dom_insert_L, dom_singleton_L. set_solver.
Qed.


(** [LoadImaged] on a sample lacking one of its keys. *)
Lemma load_missing t ts d :
  x_kind t = Plain -> x_keys t = IL -> ~ {["image"; "label"]} ⊆ d ->
  foldl step (Ok (DDict d)) (t :: ts)
  = Err (KeyError (if decide ("image" ∈ d) then "label" else "image")).
Proof.
  intros Hk Hkeys Hnot. rewrite foldl_step_cons. cbn [apply_transform]. unfold xform_apply.
  rewrite Hk, Hkeys. unfold IL. cbn [require_keys].
  destruct (decide ("image" ∈ d)) as [Hi|Hi].
  - destruct (decide ("label" ∈ d)) as [Hl|Hl]; [set_solver|]. apply foldl_step_err.
  - apply foldl_step_err.
Qed.

(** A sample lacking ["image"] or ["label"] stops either pipeline at
    its first transform, [LoadImaged], with the [KeyError] of the first
    missing key in the order ["image"], ["label"]. *)
Theorem transforms_missing_key cfg ts d :
  ts = train_transforms cfg \/ ts = val_transforms -> ~ {["image"; "label"]} ⊆ d ->
  compose_call ts (DDict d) = Err (KeyError (if decide ("image" ∈ d) then "label" else "image")).
Proof.
  intros Hts Hnot. rewrite compose_call_unfold.
  destruct Hts as [->| ->]; [destruct (train_transforms_init cfg) as [u ->]|destruct val_transforms_init as [u ->]];
    cbn [bind]; by apply load_missing.
Qed.

(** ** Witnesses *)




End Transforms.
