(* ===== verification/Driver.v ===== *)
(** Name resolution in the two [main] functions.  A statement of [main]
    is kept with the line it starts on, the names its evaluation reads
    and the names it binds; [if], [for] and [with] keep their bodies, and
    [monai.data.CacheDataset(...)] keeps the names read by the callbacks
    of its transform chain, which MONAI calls on every item while caching
    (the [Lambdad] of train_dints.py 233-237).  The statements were
    transcribed from the sources' syntax trees: reads are the names
    loaded, lambda bodies excluded; binds are the assignment targets.
    Everything else a statement does is the environment's oracle: it may
    fail with any exception, choose a branch, run a loop any number of
    times, and call the callbacks or not.  A read resolves as CPython
    resolves it inside a function: a name bound so far is found; a local
    of [main] not yet bound raises [UnboundLocalError]; otherwise a
    module-level or builtin name is found and anything else raises
    [NameError].  [check_stmt] is a static analysis of the names surely
    bound, proved sound for every oracle. *)

From stdpp Require Import base list sets gmap strings.
From Stdlib Require Import ZArith Lia.
From S2P Require Import Prelude.

Local Open Scope py_scope.

Module Driver.

Inductive stmt :=
| SExpr (line : nat) (reads : list string)
| SAssign (line : nat) (reads : list string) (targets : list string)
| SIf (line : nat) (reads : list string) (cond : option bool) (then_ else_ : list stmt)
| SFor (line : nat) (reads : list string) (targets : list string) (body : list stmt)
| SWith (line : nat) (reads : list string) (target : string) (body : list stmt)
| SCache (line : nat) (reads : list string) (target : string) (callback : list string).

(** What the environment decides, by line: an exception raised by the
    statement's own work, the branch an [if] takes when its test is not
    a constant, the number of iterations of a [for], and whether the
    library calls the callbacks (it does when the data is not empty). *)
Record oracle := {
  fails : nat -> option py_error;
  branch : nat -> bool;
  iters : nat -> nat;
  invokes : nat -> bool
}.

Section Exec.
(** [G]: module-level and builtin names; [L]: the locals of [main]. *)
Context (G L : gset string) (o : oracle).

Definition resolve (bound : gset string) (n : string) : result unit :=
  if decide (n ∈ bound) then Ok ()
  else if decide (n ∈ L) then raise (UnboundLocalError n)
  else if decide (n ∈ G) then Ok ()
  else raise (NameError n).

Fixpoint resolve_all (bound : gset string) (ns : list string) : result unit :=
  match ns with
  | [] => Ok ()
  | n :: ns => let* _ := resolve bound n in resolve_all bound ns
  end.

Definition fail_at (line : nat) (bound : gset string) : result (gset string) :=
  match fails o line with Some e => Err e | None => Ok bound end.

Fixpoint exec_stmt (s : stmt) (bound : gset string) {struct s} : result (gset string) :=
  match s with
  | SExpr l rs => let* _ := resolve_all bound rs in fail_at l bound
  | SAssign l rs ts =>
      let* _ := resolve_all bound rs in
      let* bound := fail_at l bound in
      Ok (list_to_set ts ∪ bound)
  | SIf l rs c th el =>
      let* _ := resolve_all bound rs in
      let* bound := fail_at l bound in
      (fix go (ss : list stmt) (b : gset string) : result (gset string) :=
         match ss with [] => Ok b | s :: ss => let* b := exec_stmt s b in go ss b end)
        (if default (branch o l) c then th else el) bound
  | SFor l rs ts body =>
      let* _ := resolve_all bound rs in
      let* bound := fail_at l bound in
      Nat.iter (iters o l)
        (fun r => let* b := r in
           (fix go (ss : list stmt) (b : gset string) : result (gset string) :=
              match ss with [] => Ok b | s :: ss => let* b := exec_stmt s b in go ss b end)
             body (list_to_set ts ∪ b))
        (Ok bound)
  | SWith l rs t body =>
      let* _ := resolve_all bound rs in
      let* bound := fail_at l bound in
      (fix go (ss : list stmt) (b : gset string) : result (gset string) :=
         match ss with [] => Ok b | s :: ss => let* b := exec_stmt s b in go ss b end)
        body ({[t]} ∪ bound)
  | SCache l rs t cb =>
      let* _ := resolve_all bound rs in
      let* _ := if invokes o l then resolve_all bound cb else Ok () in
      let* bound := fail_at l bound in
      Ok ({[t]} ∪ bound)
  end.

Fixpoint exec_list (ss : list stmt) (bound : gset string) : result (gset string) :=
  match ss with [] => Ok bound | s :: ss => let* b := exec_stmt s bound in exec_list ss b end.

(** The static analysis: the names surely bound after a statement, and
    the names whose read may fail (may be neither bound nor a global). *)
Definition surely (bound : gset string) (n : string) : bool :=
  bool_decide (n ∈ bound) || (bool_decide (n ∉ L) && bool_decide (n ∈ G)).

Definition reads_bad (bound : gset string) (rs : list string) : list string :=
  filter (fun n => surely bound n = false) rs.

Fixpoint analyze (s : stmt) (bound : gset string) {struct s} : gset string * list string :=
  let go := fix go (ss : list stmt) (b : gset string) : gset string * list string :=
    match ss with
    | [] => (b, [])
    | s :: ss => let r := analyze s b in let r' := go ss r.1 in (r'.1, r.2 ++ r'.2)
    end in
  match s with
  | SExpr _ rs => (bound, reads_bad bound rs)
  | SAssign _ rs ts => (list_to_set ts ∪ bound, reads_bad bound rs)
  | SIf _ rs (Some true) th _ => let r := go th bound in (r.1, reads_bad bound rs ++ r.2)
  | SIf _ rs (Some false) _ el => let r := go el bound in (r.1, reads_bad bound rs ++ r.2)
  | SIf _ rs None th el =>
      let r1 := go th bound in let r2 := go el bound in
      (r1.1 ∩ r2.1, reads_bad bound rs ++ r1.2 ++ r2.2)
  | SFor _ rs ts body => (bound, reads_bad bound rs ++ (go body (list_to_set ts ∪ bound)).2)
  | SWith _ rs t body => let r := go body ({[t]} ∪ bound) in (r.1, reads_bad bound rs ++ r.2)
  | SCache _ rs t cb => ({[t]} ∪ bound, reads_bad bound rs ++ reads_bad bound cb)
  end.

Fixpoint analyze_list (ss : list stmt) (bound : gset string) : gset string * list string :=
  match ss with
  | [] => (bound, [])
  | s :: ss => let r := analyze s bound in let r' := analyze_list ss r.1 in (r'.1, r.2 ++ r'.2)
  end.

(** The names a statement can bind. *)
Fixpoint assigned (s : stmt) : gset string :=
  let go := fix go (ss : list stmt) : gset string :=
    match ss with [] => ∅ | s :: ss => assigned s ∪ go ss end in
  match s with
  | SExpr _ _ => ∅
  | SAssign _ _ ts => list_to_set ts
  | SIf _ _ _ th el => go th ∪ go el
  | SFor _ _ ts body => list_to_set ts ∪ go body
  | SWith _ _ t body => {[t]} ∪ go body
  | SCache _ _ t _ => {[t]}
  end.

Fixpoint assigned_list (ss : list stmt) : gset string :=
  match ss with [] => ∅ | s :: ss => assigned s ∪ assigned_list ss end.
End Exec.

(** ** Induction over statements and their bodies *)

Section StmtInd.
Context (P : stmt -> Prop) (Q : list stmt -> Prop).
Context (Hnil : Q []) (Hcons : forall s ss, P s -> Q ss -> Q (s :: ss)).
Context (HExpr : forall l rs, P (SExpr l rs)) (HAssign : forall l rs ts, P (SAssign l rs ts))
  (HIf : forall l rs c th el, Q th -> Q el -> P (SIf l rs c th el))
  (HFor : forall l rs ts body, Q body -> P (SFor l rs ts body))
  (HWith : forall l rs t body, Q body -> P (SWith l rs t body))
  (HCache : forall l rs t cb, P (SCache l rs t cb)).

Fixpoint stmt_ind' (s : stmt) : P s :=
  match s with
  | SExpr l rs => HExpr l rs
  | SAssign l rs ts => HAssign l rs ts
  | SIf l rs c th el =>
      HIf l rs c th el
        ((fix go ss : Q ss := match ss with [] => Hnil | s :: ss => Hcons s ss (stmt_ind' s) (go ss) end) th)
        ((fix go ss : Q ss := match ss with [] => Hnil | s :: ss => Hcons s ss (stmt_ind' s) (go ss) end) el)
  | SFor l rs ts body =>
      HFor l rs ts body
        ((fix go ss : Q ss := match ss with [] => Hnil | s :: ss => Hcons s ss (stmt_ind' s) (go ss) end) body)
  | SWith l rs t body =>
      HWith l rs t body
        ((fix go ss : Q ss := match ss with [] => Hnil | s :: ss => Hcons s ss (stmt_ind' s) (go ss) end) body)
  | SCache l rs t cb => HCache l rs t cb
  end.

Lemma stmts_ind' : forall ss, Q ss.
Proof. induction ss as [|s ss IH]; [exact Hnil | exact (Hcons s ss (stmt_ind' s) IH)]. Qed.

Lemma stmt_mutual_ind : (forall s, P s) /\ (forall ss, Q ss).
Proof. split; [exact stmt_ind' | exact stmts_ind']. Qed.
End StmtInd.

(** Induction on a statement together with statement lists. *)
Ltac stmt_induction :=
  match goal with
  | |- (forall s : stmt, @?P s) /\ (forall ss : list stmt, @?Q ss) => apply (stmt_mutual_ind P Q); cbv beta
  end.

(** ** Soundness of the analysis *)

Section Sound.
Context (G L : gset string) (o : oracle).

(** The exception a failed read raises. *)
Definition name_error (n : string) : py_error :=
  if decide (n ∈ L) then UnboundLocalError n else NameError n.

(** A run agrees with the analysis: it ends with the surely bound names
    bound, or raises the environment's exception or the name error of a
    name the analysis reported. *)
Definition agrees (r : result (gset string)) (B : gset string) (bad : list string) : Prop :=
  match r with
  | Ok b => B ⊆ b
  | Err e => (exists l, fails o l = Some e) \/ (exists n, n ∈ bad /\ e = name_error n)
  end.

Lemma agrees_weaken r B B' bad bad' :
  agrees r B bad -> B' ⊆ B -> (forall n, n ∈ bad -> n ∈ bad') -> agrees r B' bad'.
Proof. destruct r; simpl; [set_solver|naive_solver]. Qed.

Lemma agrees_err e B B' bad bad' :
  agrees (Err e) B bad -> (forall n, n ∈ bad -> n ∈ bad') -> agrees (Err e) B' bad'.
Proof. simpl. naive_solver. Qed.

Lemma resolve_fail bound n e :
  resolve G L bound n = Err e -> e = name_error n /\ surely G L bound n = false.
Proof.
  unfold resolve, surely, name_error.
  repeat case_decide; intros; simplify_eq; split; try done;
    repeat case_bool_decide; naive_solver.
Qed.

Lemma surely_mono B b n : B ⊆ b -> surely G L B n = true -> surely G L b n = true.
Proof.
  unfold surely. intros HB. rewrite !orb_true_iff, !bool_decide_eq_true. set_solver.
Qed.

Lemma resolve_all_agrees B b rs :
  B ⊆ b ->
  match resolve_all G L b rs with
  | Ok _ => True
  | Err e => exists n, n ∈ reads_bad G L B rs /\ e = name_error n
  end.
Proof.
  intros HB. induction rs as [|n rs IH]; simpl; [done|].
  destruct (resolve G L b n) eqn:E; simpl.
  - destruct (resolve_all G L b rs); [done|]. destruct IH as (n' & Hn' & ->).
    exists n'. split; [|done]. unfold reads_bad in *. rewrite filter_cons.
    case_decide; set_solver.
  - apply resolve_fail in E as [-> Hs]. exists n. split; [|done].
    unfold reads_bad. rewrite filter_cons. case_decide as Hd; [set_solver|].
    destruct (surely G L B n) eqn:EB; [|done]. by erewrite surely_mono in Hs.
Qed.
Lemma exec_if l rs c th el b :
  exec_stmt G L o (SIf l rs c th el) b
  = let* _ := resolve_all G L b rs in let* b := fail_at o l b in
    exec_list G L o (if default (branch o l) c then th else el) b.
Proof. reflexivity. Qed.

Lemma exec_for l rs ts body b :
  exec_stmt G L o (SFor l rs ts body) b
  = let* _ := resolve_all G L b rs in let* b := fail_at o l b in
    Nat.iter (iters o l) (fun r => let* b := r in exec_list G L o body (list_to_set ts ∪ b)) (Ok b).
Proof. reflexivity. Qed.

Lemma exec_with l rs t body b :
  exec_stmt G L o (SWith l rs t body) b
  = let* _ := resolve_all G L b rs in let* b := fail_at o l b in exec_list G L o body ({[t]} ∪ b).
Proof. reflexivity. Qed.

Lemma assigned_if l rs c th el : assigned (SIf l rs c th el) = assigned_list th ∪ assigned_list el.
Proof. reflexivity. Qed.

Lemma assigned_for l rs ts body : assigned (SFor l rs ts body) = list_to_set ts ∪ assigned_list body.
Proof. reflexivity. Qed.

Lemma assigned_with l rs t body : assigned (SWith l rs t body) = {[t]} ∪ assigned_list body.
Proof. reflexivity. Qed.

Lemma fail_at_Ok l b b' : fail_at o l b = Ok b' -> b' = b.
Proof. unfold fail_at. by destruct (fails o l); [|intros [= ->]]. Qed.

(** Running a statement only adds names, and only names it assigns. *)
Lemma exec_mono_both :
  (forall s b b', exec_stmt G L o s b = Ok b' -> b ⊆ b' /\ b' ⊆ b ∪ assigned s)
  /\ (forall ss b b', exec_list G L o ss b = Ok b' -> b ⊆ b' /\ b' ⊆ b ∪ assigned_list ss).
Proof.
  stmt_induction.
  - intros b b' [= <-]. set_solver.
  - intros s ss Hs Hss b b''. simpl. destruct (exec_stmt G L o s b) as [b'|] eqn:E; simpl; [|done].
    intros H. apply Hs in E. apply Hss in H. set_solver.
  - intros l rs b b'. simpl. destruct (resolve_all G L b rs); simpl; [|done].
    intros ->%fail_at_Ok. set_solver.
  - intros l rs ts b b'. simpl. destruct (resolve_all G L b rs); simpl; [|done].
    destruct (fail_at o l b) as [b1|] eqn:E; simpl; [|done]. apply fail_at_Ok in E as ->.
    intros [= <-]. set_solver.
  - intros l rs c th el Hth Hel b b'. rewrite exec_if, assigned_if.
    destruct (resolve_all G L b rs); simpl; [|done].
    destruct (fail_at o l b) as [b1|] eqn:E; simpl; [|done]. apply fail_at_Ok in E as ->.
    destruct (default (branch o l) c); [intros ?%Hth | intros ?%Hel]; set_solver.
  - intros l rs ts body Hbody b b'. rewrite exec_for, assigned_for.
    destruct (resolve_all G L b rs); simpl; [|done].
    destruct (fail_at o l b) as [b1|] eqn:E; simpl; [|done]. apply fail_at_Ok in E as ->.
    revert b'. induction (iters o l) as [|n IH]; intros b'; simpl; [intros [= <-]; set_solver|].
    destruct (Nat.iter n _ (Ok b)) as [bk|]; simpl; [|done].
    intros ?%Hbody. specialize (IH bk eq_refl). set_solver.
  - intros l rs t body Hbody b b'. rewrite exec_with, assigned_with.
    destruct (resolve_all G L b rs); simpl; [|done].
    destruct (fail_at o l b) as [b1|] eqn:E; simpl; [|done]. apply fail_at_Ok in E as ->.
    intros ?%Hbody. set_solver.
  - intros l rs t cb b b'. simpl. destruct (resolve_all G L b rs); simpl; [|done].
    destruct (if invokes o l then _ else _); simpl; [|done].
    destruct (fail_at o l b) as [b1|] eqn:E; simpl; [|done]. apply fail_at_Ok in E as ->.
    intros [= <-]. set_solver.
Qed.

Lemma analyze_if l rs c th el B :
  analyze G L (SIf l rs c th el) B
  = match c with
    | Some true => let r := analyze_list G L th B in (r.1, reads_bad G L B rs ++ r.2)
    | Some false => let r := analyze_list G L el B in (r.1, reads_bad G L B rs ++ r.2)
    | None => let r1 := analyze_list G L th B in let r2 := analyze_list G L el B in
              (r1.1 ∩ r2.1, reads_bad G L B rs ++ r1.2 ++ r2.2)
    end.
Proof. by destruct c as [[]|]. Qed.

Lemma analyze_for l rs ts body B :
  analyze G L (SFor l rs ts body) B
  = (B, reads_bad G L B rs ++ (analyze_list G L body (list_to_set ts ∪ B)).2).
Proof. reflexivity. Qed.

Lemma analyze_with l rs t body B :
  analyze G L (SWith l rs t body) B
  = let r := analyze_list G L body ({[t]} ∪ B) in (r.1, reads_bad G L B rs ++ r.2).
Proof. reflexivity. Qed.

(** The prelude every statement shares: its reads resolve, then its own
    work may fail. *)
Lemma agrees_resolve B b rs (k : unit -> result (gset string)) B' bad :
  B ⊆ b -> agrees (k ()) B' bad ->
  agrees (bind (resolve_all G L b rs) k) B' (reads_bad G L B rs ++ bad).
Proof.
  intros HB Hk. pose proof (resolve_all_agrees B b rs HB) as Hr.
  destruct (resolve_all G L b rs) as [[]|]; cbn [bind].
  - eapply agrees_weaken; [exact Hk| |]; set_solver.
  - right. destruct Hr as (n & Hn & ->). exists n. set_solver.
Qed.

Lemma agrees_fail l b (k : gset string -> result (gset string)) B' bad :
  agrees (k b) B' bad -> agrees (bind (fail_at o l b) k) B' bad.
Proof. unfold fail_at. destruct (fails o l) eqn:E; [by left; eexists|done]. Qed.

Lemma agrees_fail_Ok l b B bad : B ⊆ b -> agrees (fail_at o l b) B bad.
Proof. unfold fail_at. destruct (fails o l) eqn:E; [by left; eexists|done]. Qed.

(** Soundness: for every oracle, a run from at least the surely bound
    names agrees with the analysis. *)
Lemma analyze_sound_both :
  (forall s B b, B ⊆ b -> agrees (exec_stmt G L o s b) (analyze G L s B).1 (analyze G L s B).2)
  /\ (forall ss B b, B ⊆ b ->
        agrees (exec_list G L o ss b) (analyze_list G L ss B).1 (analyze_list G L ss B).2).
Proof.
  destruct exec_mono_both as [_ Hmono]. stmt_induction.
  - intros B b HB. done.
  - intros s ss Hs Hss B b HB. cbn [exec_list analyze_list fst snd].
    specialize (Hs B b HB). destruct (exec_stmt G L o s b) as [b1|e]; cbn [bind].
    + eapply agrees_weaken; [apply (Hss _ _ Hs)| |]; set_solver.
    + eapply agrees_err; [exact Hs|]. set_solver.
  - intros l rs B b HB. cbn [exec_stmt analyze fst snd]. rewrite <- (app_nil_r (reads_bad G L B rs)).
    apply agrees_resolve; [done|]. by apply agrees_fail_Ok.
  - intros l rs ts B b HB. cbn [exec_stmt analyze fst snd]. rewrite <- (app_nil_r (reads_bad G L B rs)).
    apply agrees_resolve; [done|]. apply agrees_fail. simpl. set_solver.
  - intros l rs c th el Hth Hel B b HB. rewrite exec_if, analyze_if.
    destruct c as [[]|]; cbn [fst snd default]; apply agrees_resolve; try done; apply agrees_fail.
    + by apply Hth.
    + by apply Hel.
    + destruct (branch o l).
      * eapply agrees_weaken; [by apply Hth| |]; set_solver.
      * eapply agrees_weaken; [by apply Hel| |]; set_solver.
  - intros l rs ts body Hbody B b HB. rewrite exec_for, analyze_for. cbn [fst snd].
    apply agrees_resolve; [done|]. apply agrees_fail.
    induction (iters o l) as [|n IH]; simpl; [done|].
    destruct (Nat.iter n _ (Ok b)) as [bk|e]; simpl; [|done].
    pose proof (Hbody (list_to_set ts ∪ B) (list_to_set ts ∪ bk) ltac:(set_solver)) as Hb.
    destruct (exec_list G L o body _) as [b'|] eqn:E; simpl in *; [|done].
    apply Hmono in E. set_solver.
  - intros l rs t body Hbody B b HB. rewrite exec_with, analyze_with. cbn [fst snd].
    apply agrees_resolve; [done|]. apply agrees_fail. apply Hbody. set_solver.
  - intros l rs t cb B b HB. cbn [exec_stmt analyze fst snd].
    pose proof (resolve_all_agrees B b rs HB) as Hr.
    pose proof (resolve_all_agrees B b cb HB) as Hc.
    destruct (resolve_all G L b rs); simpl.
    + destruct (invokes o l); [destruct (resolve_all G L b cb)|]; simpl.
      * unfold fail_at. destruct (fails o l) eqn:E; simpl; [by left; eexists|set_solver].
      * right. destruct Hc as (n & Hn & ->). exists n. set_solver.
      * unfold fail_at. destruct (fails o l) eqn:E; simpl; [by left; eexists|set_solver].
    + right. destruct Hr as (n & Hn & ->). exists n. set_solver.
Qed.

Lemma exec_list_app ss1 ss2 b :
  exec_list G L o (ss1 ++ ss2) b = let* b1 := exec_list G L o ss1 b in exec_list G L o ss2 b1.
Proof.
  revert b. induction ss1 as [|s ss1 IH]; intros b; [done|]. simpl.
  destruct (exec_stmt G L o s b); simpl; [apply IH|done].
Qed.

Lemma resolve_all_Ok b rs n : resolve_all G L b rs = Ok () -> n ∈ rs -> n ∈ b \/ n ∈ G.
Proof.
  induction rs as [|m rs IH]; simpl; [set_solver|].
  destruct (resolve G L b m) eqn:E; simpl; [|done]. intros Hr [->|Hn]%elem_of_cons; [|by apply IH].
  revert E. unfold resolve. repeat case_decide; naive_solver.
Qed.

(** A program ending with an assignment that reads a name neither
    assigned in the function nor global never completes: it raises, and
    what it raises is an exception of the environment or the name error
    of a name the analysis reports. *)
Lemma exec_stops ss l rs ts n (b0 : gset string) :
  n ∈ rs -> n ∉ L -> n ∉ G -> assigned_list ss ⊆ L -> b0 ⊆ L ->
  exists e, exec_list G L o (ss ++ [SAssign l rs ts]) b0 = Err e
    /\ ((exists l', fails o l' = Some e)
        \/ exists m, m ∈ (analyze_list G L (ss ++ [SAssign l rs ts]) ∅).2 /\ e = name_error m).
Proof.
  intros Hn HL HG Hass Hb0. destruct analyze_sound_both as [_ Hsound].
  specialize (Hsound (ss ++ [SAssign l rs ts]) ∅ b0 ltac:(set_solver)).
  destruct (exec_list G L o (ss ++ [SAssign l rs ts]) b0) as [b|e] eqn:E; [|by exists e].
  exfalso. rewrite exec_list_app in E.
  destruct (exec_list G L o ss b0) as [b1|] eqn:E1; simpl in E; [|done].
  destruct exec_mono_both as [_ Hmono]. apply Hmono in E1 as [_ Hb1].
  destruct (resolve_all G L b1 rs) as [[]|] eqn:Er; simpl in E; [|done].
  destruct (resolve_all_Ok b1 rs n Er Hn); [|done]. set_solver.
Qed.
End Sound.

(** ** The two [main] functions *)

(** Python's builtin names (the [builtins] module of CPython 3). *)
Definition py_builtins : list string := [
  "ArithmeticError"; "AssertionError"; "AttributeError"; "BaseException";
  "BaseExceptionGroup"; "BlockingIOError"; "BrokenPipeError"; "BufferError";
  "BytesWarning"; "ChildProcessError"; "ConnectionAbortedError"; "ConnectionError";
  "ConnectionRefusedError"; "ConnectionResetError"; "DeprecationWarning"; "EOFError";
  "Ellipsis"; "EncodingWarning"; "EnvironmentError"; "Exception"; "ExceptionGroup";
  "False"; "FileExistsError"; "FileNotFoundError"; "FloatingPointError"; "FutureWarning";
  "GeneratorExit"; "IOError"; "ImportError"; "ImportWarning"; "IndentationError";
  "IndexError"; "InterruptedError"; "IsADirectoryError"; "KeyError"; "KeyboardInterrupt";
  "LookupError"; "MemoryError"; "ModuleNotFoundError"; "NameError"; "None";
  "NotADirectoryError"; "NotImplemented"; "NotImplementedError"; "OSError";
  "OverflowError"; "PendingDeprecationWarning"; "PermissionError"; "ProcessLookupError";
  "RecursionError"; "ReferenceError"; "ResourceWarning"; "RuntimeError"; "RuntimeWarning";
  "StopAsyncIteration"; "StopIteration"; "SyntaxError"; "SyntaxWarning"; "SystemError";
  "SystemExit"; "TabError"; "TimeoutError"; "True"; "TypeError"; "UnboundLocalError";
  "UnicodeDecodeError"; "UnicodeEncodeError"; "UnicodeError"; "UnicodeTranslateError";
  "UnicodeWarning"; "UserWarning"; "ValueError"; "Warning"; "ZeroDivisionError"; "abs";
  "aiter"; "all"; "anext"; "any"; "ascii"; "bin"; "bool"; "breakpoint"; "bytearray";
  "bytes"; "callable"; "chr"; "classmethod"; "compile"; "complex"; "copyright"; "credits";
  "delattr"; "dict"; "dir"; "divmod"; "enumerate"; "eval"; "exec"; "exit"; "filter";
  "float"; "format"; "frozenset"; "getattr"; "globals"; "hasattr"; "hash"; "help"; "hex";
  "id"; "input"; "int"; "isinstance"; "issubclass"; "iter"; "len"; "license"; "list";
  "locals"; "map"; "max"; "memoryview"; "min"; "next"; "object"; "oct"; "open"; "ord";
  "pow"; "print"; "property"; "quit"; "range"; "repr"; "reversed"; "round"; "set";
  "setattr"; "slice"; "sorted"; "staticmethod"; "str"; "sum"; "super"; "tuple"; "type";
  "vars"; "zip" ].

(** The module-level names of train_dints.py: its imports (lines 12-92)
    and [main] (line 94). *)
Definition train_globals : list string := [
  "argparse"; "copy"; "json"; "logging"; "monai"; "nib"; "np"; "os"; "pd"; "pathlib";
  "shutil"; "sys"; "tempfile"; "time"; "torch"; "dist"; "nn"; "F"; "yaml"; "DiNTS";
  "datetime"; "glob"; "nn"; "DistributedDataParallel"; "DataLoader"; "ThreadDataLoader";
  "decollate_batch"; "SummaryWriter"; "apply_transform"; "Randomizable"; "Transform";
  "AsDiscrete"; "AsDiscreted"; "AddChannel"; "AddChanneld"; "AsChannelFirstd";
  "CastToTyped"; "Compose"; "ConcatItemsd"; "CopyItemsd"; "CropForegroundd";
  "DivisiblePadd"; "EnsureChannelFirstd"; "EnsureTyped"; "KeepLargestConnectedComponent";
  "Lambdad"; "LoadImaged"; "NormalizeIntensityd"; "Orientationd"; "ScaleIntensityRanged";
  "ThresholdIntensityd"; "RandCropByLabelClassesd"; "RandCropByPosNegLabeld";
  "RandGaussianNoised"; "RandGaussianSmoothd"; "RandShiftIntensityd";
  "RandScaleIntensityd"; "RandSpatialCropd"; "RandSpatialCropSamplesd"; "RandFlipd";
  "RandRotated"; "RandRotate90d"; "RandZoomd"; "Spacingd"; "SpatialPadd"; "SqueezeDimd";
  "ToDeviced"; "ToNumpyd"; "ToTensord"; "Dataset"; "create_test_image_3d";
  "DistributedSampler"; "list_data_collate"; "partition_dataset";
  "sliding_window_inference"; "compute_meandice"; "set_determinism"; "main" ].

(** The names [main] assigns anywhere in its body (its locals, as
    Python's compiler determines them). *)
Definition train_locals : list string := [
  "parser"; "args"; "amp"; "determ"; "fold"; "input_channels"; "learning_rate";
  "learning_rate_gamma"; "learning_rate_step_size"; "num_images_per_batch"; "num_epochs";
  "num_epochs_per_validation"; "num_folds"; "num_patches_per_image"; "num_sw_batch_size";
  "output_classes"; "overlap_ratio"; "patch_size"; "patch_size_valid"; "spacing"; "f";
  "json_data"; "split"; "list_train"; "list_valid"; "files"; "_i"; "str_img"; "str_seg";
  "train_files"; "val_files"; "device"; "train_transforms"; "val_transforms"; "train_ds";
  "val_ds"; "train_loader"; "val_loader"; "ckpt"; "node_a"; "code_a"; "code_c"; "model";
  "post_pred"; "post_label"; "loss_func"; "optimizer"; "autocast"; "GradScaler"; "scaler";
  "val_interval"; "best_metric"; "best_metric_epoch"; "epoch_loss_values"; "idx_iter";
  "metric_values"; "writer"; "start_time"; "epoch"; "lr"; "epoch_loss"; "loss_torch";
  "step"; "batch_data"; "inputs"; "labels"; "param"; "outputs"; "loss"; "epoch_len";
  "loss_torch_epoch"; "metric"; "metric_sum"; "metric_count"; "metric_mat"; "val_images";
  "val_labels"; "val_outputs"; "_index"; "val_data"; "roi_size"; "sw_batch_size"; "ct";
  "pred"; "value"; "metric_vals"; "_c"; "val0"; "val1"; "avg_metric"; "dict_file";
  "out_file"; "documents"; "current_time"; "elapsed_time" ].

(** [main] of train_dints.py up to line 306, the statement building
    [post_pred]. *)
Definition train_main_prefix : list stmt :=
    [ SAssign 95 ["argparse"] ["parser"]
    ; SExpr 96 ["parser"]
    ; SExpr 102 ["parser"; "str"]
    ; SExpr 108 ["parser"]
    ; SExpr 114 ["parser"]
    ; SExpr 120 ["parser"]
    ; SExpr 126 ["parser"; "int"]
    ; SExpr 131 ["parser"]
    ; SExpr 137 ["parser"]
    ; SExpr 143 ["parser"]
    ; SAssign 149 ["parser"] ["args"]
    ; SExpr 151 ["logging"; "sys"]
    ; SIf 153 ["os"; "args"] None [SExpr 154 ["os"; "args"]] []
    ; SAssign 156 [] ["amp"]
    ; SAssign 157 [] ["determ"]
    ; SAssign 158 ["int"; "args"] ["fold"]
    ; SAssign 159 [] ["input_channels"]
    ; SAssign 160 [] ["learning_rate"]
    ; SAssign 161 [] ["learning_rate_gamma"]
    ; SAssign 162 [] ["learning_rate_step_size"]
    ; SAssign 163 [] ["num_images_per_batch"]
    ; SAssign 164 [] ["num_epochs"]
    ; SAssign 165 [] ["num_epochs_per_validation"]
    ; SAssign 166 ["int"; "args"] ["num_folds"]
    ; SAssign 167 [] ["num_patches_per_image"]
    ; SAssign 168 [] ["num_sw_batch_size"]
    ; SAssign 169 [] ["output_classes"]
    ; SAssign 170 [] ["overlap_ratio"]
    ; SAssign 171 [] ["patch_size"]
    ; SAssign 172 [] ["patch_size_valid"]
    ; SAssign 173 [] ["spacing"]
    ; SIf 176 ["determ"] None [SExpr 177 ["set_determinism"]] []
    ; SExpr 180 ["dist"]
    ; SWith 183 ["open"; "args"] "f" [SAssign 184 ["json"; "f"] ["json_data"]]
    ; SAssign 186 ["len"; "json_data"; "args"; "num_folds"] ["split"]
    ; SAssign 187 ["json_data"; "args"; "split"; "fold"] ["list_train"]
    ; SAssign 188 ["json_data"; "args"; "split"; "fold"] ["list_valid"]
    ; SAssign 191 [] ["files"]
    ; SFor 192 ["range"; "len"; "list_train"] ["_i"] [SAssign 193 ["os"; "args"; "list_train"; "_i"] ["str_img"]
      ; SAssign 194 ["os"; "args"; "list_train"; "_i"] ["str_seg"]
      ; SIf 196 ["os"; "str_img"; "str_seg"] None [] [SExpr 199 ["files"; "str_img"; "str_seg"]]]
    ; SAssign 201 ["files"] ["train_files"]
    ; SAssign 202 ["partition_dataset"; "train_files"; "dist"] ["train_files"]
    ; SExpr 203 ["print"; "len"; "train_files"]
    ; SAssign 206 [] ["files"]
    ; SFor 207 ["range"; "len"; "list_valid"] ["_i"] [SAssign 208 ["os"; "args"; "list_valid"; "_i"] ["str_img"]
      ; SAssign 209 ["os"; "args"; "list_valid"; "_i"] ["str_seg"]
      ; SIf 211 ["os"; "str_img"; "str_seg"] None [] [SExpr 214 ["files"; "str_img"; "str_seg"]]]
    ; SAssign 215 ["files"] ["val_files"]
    ; SAssign 216 ["partition_dataset"; "val_files"; "dist"] ["val_files"]
    ; SExpr 217 ["print"; "len"; "val_files"]
    ; SAssign 220 ["torch"; "args"] ["device"]
    ; SExpr 221 ["torch"; "device"]
    ; SAssign 223 ["Compose"; "LoadImaged"; "EnsureChannelFirstd"; "Orientationd"; "Spacingd"; "spacing"; "CastToTyped"; "torch"; "ScaleIntensityRanged"; "np"; "CopyItemsd"; "Lambdad"; "EnsureTyped"; "SpatialPadd"; "patch_size"; "RandCropByLabelClassesd"; "output_classes"; "num_patches_per_image"; "RandRotated"; "RandZoomd"; "RandGaussianSmoothd"; "RandScaleIntensityd"; "RandShiftIntensityd"; "RandGaussianNoised"; "RandFlipd"; "ToTensord"] ["train_transforms"]
    ; SAssign 264 ["Compose"; "LoadImaged"; "EnsureChannelFirstd"; "Orientationd"; "Spacingd"; "spacing"; "CastToTyped"; "torch"; "ScaleIntensityRanged"; "np"; "EnsureTyped"; "ToTensord"] ["val_transforms"]
    ; SCache 278 ["monai"; "train_files"; "train_transforms"] "train_ds" ["np"; "tuple"; "range"; "output_classes"; "ndimage"]
    ; SCache 279 ["monai"; "val_files"; "val_transforms"] "val_ds" []
    ; SAssign 281 ["DataLoader"; "train_ds"; "num_images_per_batch"; "torch"] ["train_loader"]
    ; SAssign 282 ["DataLoader"; "val_ds"; "torch"] ["val_loader"]
    ; SAssign 284 ["torch"; "args"] ["ckpt"]
    ; SAssign 285 ["ckpt"] ["node_a"]
    ; SAssign 286 ["ckpt"] ["code_a"]
    ; SAssign 287 ["ckpt"] ["code_c"]
    ; SAssign 289 ["DiNTS"; "input_channels"; "output_classes"; "node_a"; "code_a"; "code_c"] ["model"]
    ; SAssign 300 ["torch"; "code_a"] ["code_a"]
    ; SAssign 301 ["F"; "torch"; "code_c"; "model"] ["code_c"]
    ; SAssign 302 ["model"; "device"] ["model"]
    ; SAssign 304 ["torch"; "model"] ["model"]
    ; SAssign 306 ["Compose"; "EnsureType"; "AsDiscrete"; "output_classes"] ["post_pred"] ].

(** The module-level names of search_dints.py (lines 12-93, [main] at 95). *)
Definition search_globals : list string := [
  "argparse"; "copy"; "json"; "logging"; "monai"; "nib"; "np"; "os"; "pd"; "pathlib";
  "random"; "shutil"; "sys"; "tempfile"; "time"; "torch"; "dist"; "nn"; "F"; "yaml";
  "DiNTS"; "datetime"; "glob"; "nn"; "DistributedDataParallel"; "DataLoader";
  "ThreadDataLoader"; "decollate_batch"; "SummaryWriter"; "apply_transform";
  "Randomizable"; "Transform"; "AsDiscrete"; "AsDiscreted"; "AddChannel"; "AddChanneld";
  "AsChannelFirstd"; "CastToTyped"; "Compose"; "ConcatItemsd"; "CopyItemsd";
  "CropForegroundd"; "DivisiblePadd"; "EnsureChannelFirstd"; "EnsureTyped";
  "KeepLargestConnectedComponent"; "Lambdad"; "LoadImaged"; "NormalizeIntensityd";
  "Orientationd"; "ScaleIntensityRanged"; "ThresholdIntensityd"; "RandCropByLabelClassesd";
  "RandCropByPosNegLabeld"; "RandGaussianNoised"; "RandGaussianSmoothd";
  "RandShiftIntensityd"; "RandScaleIntensityd"; "RandSpatialCropd";
  "RandSpatialCropSamplesd"; "RandFlipd"; "RandRotated"; "RandRotate90d"; "RandZoomd";
  "Spacingd"; "SpatialPadd"; "SqueezeDimd"; "ToDeviced"; "ToNumpyd"; "ToTensord";
  "Dataset"; "create_test_image_3d"; "DistributedSampler"; "list_data_collate";
  "partition_dataset"; "sliding_window_inference"; "compute_meandice"; "set_determinism";
  "main" ].

Definition search_locals : list string := [
  "parser"; "args"; "amp"; "determ"; "fold"; "input_channels"; "learning_rate";
  "learning_rate_gamma"; "learning_rate_step_size"; "num_images_per_batch"; "num_epochs";
  "num_epochs_per_validation"; "num_folds"; "num_patches_per_image"; "num_sw_batch_size";
  "output_classes"; "overlap_ratio"; "patch_size"; "patch_size_valid"; "spacing"; "f";
  "json_data"; "split"; "list_train"; "list_valid"; "files"; "_i"; "str_img"; "str_seg";
  "train_files"; "train_files_w"; "train_files_a"; "val_files"; "device";
  "train_transforms"; "val_transforms"; "train_ds_a"; "train_ds_w"; "val_ds"; "train_ds";
  "train_loader_a"; "train_loader_w"; "val_loader"; "ckpt"; "node_a"; "code_a"; "code_c";
  "model"; "post_pred"; "post_label"; "loss_func"; "optimizer"; "arch_optimizer_a";
  "arch_optimizer_c"; "autocast"; "GradScaler"; "scaler"; "val_interval"; "best_metric";
  "best_metric_epoch"; "epoch_loss_values"; "idx_iter"; "metric_values"; "writer";
  "dataloader_a_iterator"; "start_time"; "epoch"; "lr"; "epoch_loss"; "loss_torch"; "step";
  "batch_data"; "inputs"; "labels"; "param"; "_"; "outputs"; "loss"; "epoch_len";
  "sample_a"; "inputs_search"; "labels_search"; "entropy_alpha_c"; "entropy_alpha_a";
  "memory_full"; "memory_usage"; "memory_loss"; "topology_loss"; "probs_a"; "code_prob_a";
  "outputs_search"; "loss_torch_epoch"; "metric"; "metric_sum"; "metric_count";
  "metric_mat"; "val_images"; "val_labels"; "val_outputs"; "_index"; "val_data";
  "roi_size"; "sw_batch_size"; "ct"; "pred"; "value"; "metric_vals"; "_c"; "val0"; "val1";
  "avg_metric"; "best_metric_iterations"; "node_a_d"; "code_a_d"; "code_c_d";
  "code_a_max_d"; "dict_file"; "out_file"; "documents"; "current_time"; "elapsed_time" ].

(** [main] of search_dints.py up to line 323, the statement building
    [post_pred]. *)
Definition search_main_prefix : list stmt :=
    [ SAssign 96 ["argparse"] ["parser"]
    ; SExpr 97 ["parser"]
    ; SExpr 103 ["parser"; "str"]
    ; SExpr 109 ["parser"]
    ; SExpr 115 ["parser"]
    ; SExpr 121 ["parser"]
    ; SExpr 127 ["parser"; "int"]
    ; SExpr 132 ["parser"]
    ; SExpr 138 ["parser"]
    ; SExpr 144 ["parser"]
    ; SAssign 150 ["parser"] ["args"]
    ; SExpr 157 ["logging"; "sys"]
    ; SIf 159 ["os"; "args"] None [SExpr 160 ["os"; "args"]] []
    ; SAssign 162 [] ["amp"]
    ; SAssign 163 [] ["determ"]
    ; SAssign 164 ["int"; "args"] ["fold"]
    ; SAssign 165 [] ["input_channels"]
    ; SAssign 166 [] ["learning_rate"]
    ; SAssign 167 [] ["learning_rate_gamma"]
    ; SAssign 168 [] ["learning_rate_step_size"]
    ; SAssign 169 [] ["num_images_per_batch"]
    ; SAssign 170 [] ["num_epochs"]
    ; SAssign 171 [] ["num_epochs_per_validation"]
    ; SAssign 172 ["int"; "args"] ["num_folds"]
    ; SAssign 173 [] ["num_patches_per_image"]
    ; SAssign 174 [] ["num_sw_batch_size"]
    ; SAssign 175 [] ["output_classes"]
    ; SAssign 176 [] ["overlap_ratio"]
    ; SAssign 177 [] ["patch_size"]
    ; SAssign 178 [] ["patch_size_valid"]
    ; SAssign 179 [] ["spacing"]
    ; SIf 182 ["determ"] None [SExpr 183 ["set_determinism"]] []
    ; SExpr 186 ["dist"]
    ; SWith 189 ["open"; "args"] "f" [SAssign 190 ["json"; "f"] ["json_data"]]
    ; SAssign 192 ["len"; "json_data"; "args"; "num_folds"] ["split"]
    ; SAssign 193 ["json_data"; "args"; "split"; "fold"] ["list_train"]
    ; SAssign 194 ["json_data"; "args"; "split"; "fold"] ["list_valid"]
    ; SAssign 197 [] ["files"]
    ; SFor 198 ["range"; "len"; "list_train"] ["_i"] [SAssign 199 ["os"; "args"; "list_train"; "_i"] ["str_img"]
      ; SAssign 200 ["os"; "args"; "list_train"; "_i"] ["str_seg"]
      ; SIf 202 ["os"; "str_img"; "str_seg"] None [] [SExpr 205 ["files"; "str_img"; "str_seg"]]]
    ; SAssign 207 ["files"] ["train_files"]
    ; SExpr 208 ["print"; "len"; "train_files"]
    ; SExpr 210 ["random"; "train_files"]
    ; SAssign 211 ["train_files"; "len"] ["train_files_w"]
    ; SAssign 212 ["partition_dataset"; "train_files_w"; "dist"] ["train_files_w"]
    ; SExpr 213 ["print"; "len"; "train_files_w"]
    ; SAssign 214 ["train_files"; "len"] ["train_files_a"]
    ; SAssign 215 ["partition_dataset"; "train_files_a"; "dist"] ["train_files_a"]
    ; SExpr 216 ["print"; "len"; "train_files_a"]
    ; SAssign 219 [] ["files"]
    ; SFor 220 ["range"; "len"; "list_valid"] ["_i"] [SAssign 221 ["os"; "args"; "list_valid"; "_i"] ["str_img"]
      ; SAssign 222 ["os"; "args"; "list_valid"; "_i"] ["str_seg"]
      ; SIf 224 ["os"; "str_img"; "str_seg"] None [] [SExpr 227 ["files"; "str_img"; "str_seg"]]]
    ; SAssign 228 ["files"] ["val_files"]
    ; SAssign 229 ["partition_dataset"; "val_files"; "dist"] ["val_files"]
    ; SExpr 230 ["print"; "len"; "val_files"]
    ; SAssign 233 ["torch"; "args"] ["device"]
    ; SExpr 234 ["torch"; "device"]
    ; SAssign 236 ["Compose"; "LoadImaged"; "EnsureChannelFirstd"; "Orientationd"; "Spacingd"; "spacing"; "CastToTyped"; "torch"; "ScaleIntensityRanged"; "np"; "CopyItemsd"; "Lambdad"; "EnsureTyped"; "SpatialPadd"; "patch_size"; "RandCropByLabelClassesd"; "output_classes"; "num_patches_per_image"; "RandRotated"; "RandZoomd"; "RandGaussianSmoothd"; "RandScaleIntensityd"; "RandShiftIntensityd"; "RandGaussianNoised"; "RandFlipd"; "ToTensord"] ["train_transforms"]
    ; SAssign 277 ["Compose"; "LoadImaged"; "EnsureChannelFirstd"; "Orientationd"; "Spacingd"; "spacing"; "CastToTyped"; "torch"; "ScaleIntensityRanged"; "np"; "EnsureTyped"; "ToTensord"] ["val_transforms"]
    ; SIf 291 [] (Some true) [SCache 292 ["monai"; "train_files_a"; "train_transforms"] "train_ds_a" ["np"; "tuple"; "range"; "output_classes"; "ndimage"]
      ; SCache 293 ["monai"; "train_files_w"; "train_transforms"] "train_ds_w" ["np"; "tuple"; "range"; "output_classes"; "ndimage"]
      ; SCache 294 ["monai"; "val_files"; "val_transforms"] "val_ds" []] [SAssign 296 ["monai"; "train_files"; "train_transforms"] ["train_ds"]
      ; SAssign 297 ["monai"; "val_files"; "val_transforms"] ["val_ds"]]
    ; SAssign 299 ["DataLoader"; "train_ds_a"; "num_images_per_batch"; "torch"] ["train_loader_a"]
    ; SAssign 300 ["DataLoader"; "train_ds_w"; "num_images_per_batch"; "torch"] ["train_loader_w"]
    ; SAssign 301 ["DataLoader"; "val_ds"; "torch"] ["val_loader"]
    ; SAssign 303 ["torch"; "args"] ["ckpt"]
    ; SAssign 304 ["ckpt"] ["node_a"]
    ; SAssign 305 ["ckpt"] ["code_a"]
    ; SAssign 306 ["ckpt"] ["code_c"]
    ; SAssign 308 ["DiNTS"; "input_channels"; "output_classes"; "node_a"; "code_a"; "code_c"] ["model"]
    ; SAssign 319 ["torch"; "code_a"] ["code_a"]
    ; SAssign 320 ["F"; "torch"; "code_c"; "model"] ["code_c"]
    ; SAssign 321 ["model"; "device"] ["model"]
    ; SAssign 323 ["Compose"; "EnsureType"; "AsDiscrete"; "output_classes"] ["post_pred"] ].

Definition train_G : gset string := list_to_set (train_globals ++ py_builtins).
Definition train_L : gset string := list_to_set train_locals.
Definition search_G : gset string := list_to_set (search_globals ++ py_builtins).
Definition search_L : gset string := list_to_set search_locals.

(** A name is not among the module's or the function's names: decided on
    the lists the sets are built from. *)
Ltac not_in_names :=
  unfold train_L, train_G, search_L, search_G; rewrite not_elem_of_list_to_set;
  apply (bool_decide_unpack _); vm_compute; reflexivity.

(** ** Neither driver reaches its training loop *)

(** C33. Whatever the environment does, train_dints.py's [main] raises
    before line 307: either an exception of the environment, or
    [NameError: ndimage] when MONAI caches the training files through the
    [Lambdad] of line 235, or [NameError: EnsureType] at line 306.  The
    loss, the optimiser and the epoch loop are never reached. *)
Theorem train_main_stops (o : oracle) :
  exists e, exec_list train_G train_L o train_main_prefix ∅ = Err e
    /\ (e = NameError "ndimage" \/ e = NameError "EnsureType" \/ exists l, fails o l = Some e).
Proof.
  assert (Hsplit : train_main_prefix = removelast train_main_prefix
            ++ [SAssign 306 ["Compose"; "EnsureType"; "AsDiscrete"; "output_classes"] ["post_pred"]])
    by (vm_compute; reflexivity).
  destruct (exec_stops train_G train_L o (removelast train_main_prefix) 306
              ["Compose"; "EnsureType"; "AsDiscrete"; "output_classes"] ["post_pred"] "EnsureType" ∅)
    as (e & He & Hcases); [set_solver | not_in_names | not_in_names
                          | apply (bool_decide_unpack _); vm_compute; reflexivity | apply empty_subseteq |].
  rewrite <- Hsplit in He, Hcases. exists e. split; [done|].
  destruct Hcases as [Henv | (m & Hm & ->)]; [by right; right|].
  assert (Hbad : (analyze_list train_G train_L train_main_prefix ∅).2 = ["ndimage"; "EnsureType"])
    by (vm_compute; reflexivity).
  rewrite Hbad in Hm. apply elem_of_cons in Hm as [-> | ->%list_elem_of_singleton].
  - left. vm_compute. reflexivity.
  - right; left. vm_compute. reflexivity.
Qed.

(** C34. Likewise search_dints.py's [main] raises before line 324: an
    exception of the environment, [NameError: ndimage] when the halves
    are cached (lines 292-293), or [NameError: EnsureType] at line 323;
    the search loop is never reached. *)
Theorem search_main_stops (o : oracle) :
  exists e, exec_list search_G search_L o search_main_prefix ∅ = Err e
    /\ (e = NameError "ndimage" \/ e = NameError "EnsureType" \/ exists l, fails o l = Some e).
Proof.
  assert (Hsplit : search_main_prefix = removelast search_main_prefix
            ++ [SAssign 323 ["Compose"; "EnsureType"; "AsDiscrete"; "output_classes"] ["post_pred"]])
    by (vm_compute; reflexivity).
  destruct (exec_stops search_G search_L o (removelast search_main_prefix) 323
              ["Compose"; "EnsureType"; "AsDiscrete"; "output_classes"] ["post_pred"] "EnsureType" ∅)
    as (e & He & Hcases); [set_solver | not_in_names | not_in_names
                          | apply (bool_decide_unpack _); vm_compute; reflexivity | apply empty_subseteq |].
  rewrite <- Hsplit in He, Hcases. exists e. split; [done|].
  destruct Hcases as [Henv | (m & Hm & ->)]; [by right; right|].
  assert (Hbad : (analyze_list search_G search_L search_main_prefix ∅).2
                 = ["ndimage"; "ndimage"; "EnsureType"]) by (vm_compute; reflexivity).
  rewrite Hbad in Hm. apply elem_of_cons in Hm as [-> | [-> | ->%list_elem_of_singleton]%elem_of_cons].
  - left. vm_compute. reflexivity.
  - left. vm_compute. reflexivity.
  - right; left. vm_compute. reflexivity.
Qed.

(** ** Runs in a quiet environment *)

(** Nothing fails, every test is false, every loop runs twice, and MONAI
    calls the callbacks exactly when [with_data] holds. *)
Definition quiet_oracle (with_data : bool) : oracle := {|
  fails := fun _ => None; branch := fun _ => false; iters := fun _ => 2; invokes := fun _ => with_data
|}.

Example train_main_quiet :
  exec_list train_G train_L (quiet_oracle true) train_main_prefix ∅ = Err (NameError "ndimage")
  /\ exec_list train_G train_L (quiet_oracle false) train_main_prefix ∅ = Err (NameError "EnsureType").
Proof. split; vm_compute; reflexivity. Qed.

Example search_main_quiet :
  exec_list search_G search_L (quiet_oracle true) search_main_prefix ∅ = Err (NameError "ndimage")
  /\ exec_list search_G search_L (quiet_oracle false) search_main_prefix ∅ = Err (NameError "EnsureType").
Proof. split; vm_compute; reflexivity. Qed.

End Driver.
